(** * bb3-vote-bot: the page-state classifier, the worker loop, the challenge
    wait and the fleet counters, embedded from [bot.py], [captcha_handler.py]
    and [browser_manager.py].

    Conventions of the embedding.
    - Python [str] is [string], holding the UTF-8 bytes; [a in b] is
      [contains a b]; [str.lower] is [lower], the lower-case mapping of
      Unicode with its two special cases (U+0130 and the final sigma).
    - Python [int] is [Z].
    - A call into the browser driver that may raise is a value of
      [result]: [Ok v] when it returns [v], [Raise] when it raises.
      [try: ... except: ...] is [catch]. [print] and the logger return.
    - A write to a file ends as a [write]: done, refused, or torn.
    - A page is a snapshot: its URL, the rendered text of [body], and the
      elements of the document in document order. *)

From Stdlib Require Import ZArith Lia Bool List Ascii String Sorted.
From stdpp Require Import base list.
Import ListNotations.
Local Open Scope string_scope.
Local Open Scope list_scope.
Local Open Scope Z_scope.

(** ** Strings

    A Python [str] is a sequence of code points; it is kept here as the
    bytes of its UTF-8 encoding, which is what a string literal of this
    file holds. Substring tests and comparisons on the two agree. *)

Module Str.

Definition code (c : ascii) : Z := Z.of_N (N_of_ascii c).
Definition byte_of (z : Z) : ascii := ascii_of_N (Z.to_N z).

(** A continuation byte, 10xxxxxx. *)
Definition is_cont (c : ascii) : bool := (128 <=? code c) && (code c <? 192).
Definition cont (c : ascii) : Z := code c - 128.

(** A byte that is not part of a well-formed sequence is carried along
    as a value above the code points. *)
Definition stray (b : Z) : Z := 1114112 + (b - 128).

(** The code points of a string. *)
Fixpoint decode (s : string) : list Z :=
  match s with
  | EmptyString => []
  | String c0 r0 =>
      let b0 := code c0 in
      if b0 <? 128 then b0 :: decode r0
      else
        let alone := stray b0 :: decode r0 in
        match r0 with
        | EmptyString => alone
        | String c1 r1 =>
            if (194 <=? b0) && (b0 <? 224) && is_cont c1
            then ((b0 - 192) * 64 + cont c1) :: decode r1
            else
              match r1 with
              | EmptyString => alone
              | String c2 r2 =>
                  let cp3 := (b0 - 224) * 4096 + cont c1 * 64 + cont c2 in
                  if (224 <=? b0) && (b0 <? 240) && is_cont c1 && is_cont c2
                     && (2048 <=? cp3)
                  then cp3 :: decode r2
                  else
                    match r2 with
                    | EmptyString => alone
                    | String c3 r3 =>
                        let cp4 := (b0 - 240) * 262144 + cont c1 * 4096
                                   + cont c2 * 64 + cont c3 in
                        if (240 <=? b0) && (b0 <? 245) && is_cont c1 && is_cont c2
                           && is_cont c3 && (65536 <=? cp4) && (cp4 <? 1114112)
                        then cp4 :: decode r3
                        else alone
                    end
              end
        end
  end.

(** The UTF-8 bytes of one code point. *)
Definition encode_cp (c : Z) : list ascii :=
  if c <? 0 then []
  else if c <? 128 then [ byte_of c ]
  else if c <? 2048 then [ byte_of (192 + c / 64); byte_of (128 + c mod 64) ]
  else if c <? 65536
  then [ byte_of (224 + c / 4096); byte_of (128 + (c / 64) mod 64);
         byte_of (128 + c mod 64) ]
  else if c <? 1114112
  then [ byte_of (240 + c / 262144); byte_of (128 + (c / 4096) mod 64);
         byte_of (128 + (c / 64) mod 64); byte_of (128 + c mod 64) ]
  else [ byte_of (128 + (c - 1114112) mod 128) ].

Definition encode (cps : list Z) : string :=
  string_of_list_ascii (flat_map encode_cp cps).

(** The lower-case mapping of the Unicode Character Database (14.0, as in
    CPython 3.11) above ASCII: every code point [lo + k * stride <= hi]
    maps to itself plus [delta]. Rows are in increasing order of [lo]. *)
Definition lower_rows : list (Z * Z * Z * Z) :=
  [ (192, 214, 1, 32); (216, 222, 1, 32); (256, 302, 2, 1); (306, 310, 2, 1);
    (313, 327, 2, 1); (330, 374, 2, 1); (376, 376, 1, -121); (377, 381, 2, 1);
    (385, 385, 1, 210); (386, 388, 2, 1); (390, 390, 1, 206); (391, 391, 1, 1);
    (393, 394, 1, 205); (395, 395, 1, 1); (398, 398, 1, 79); (399, 399, 1, 202);
    (400, 400, 1, 203); (401, 401, 1, 1); (403, 403, 1, 205); (404, 404, 1, 207);
    (406, 406, 1, 211); (407, 407, 1, 209); (408, 408, 1, 1); (412, 412, 1, 211);
    (413, 413, 1, 213); (415, 415, 1, 214); (416, 420, 2, 1); (422, 422, 1, 218);
    (423, 423, 1, 1); (425, 425, 1, 218); (428, 428, 1, 1); (430, 430, 1, 218);
    (431, 431, 1, 1); (433, 434, 1, 217); (435, 437, 2, 1); (439, 439, 1, 219);
    (440, 440, 1, 1); (444, 444, 1, 1); (452, 452, 1, 2); (453, 453, 1, 1);
    (455, 455, 1, 2); (456, 456, 1, 1); (458, 458, 1, 2); (459, 475, 2, 1);
    (478, 494, 2, 1); (497, 497, 1, 2); (498, 500, 2, 1); (502, 502, 1, -97);
    (503, 503, 1, -56); (504, 542, 2, 1); (544, 544, 1, -130); (546, 562, 2, 1);
    (570, 570, 1, 10795); (571, 571, 1, 1); (573, 573, 1, -163); (574, 574, 1, 10792);
    (577, 577, 1, 1); (579, 579, 1, -195); (580, 580, 1, 69); (581, 581, 1, 71);
    (582, 590, 2, 1); (880, 882, 2, 1); (886, 886, 1, 1); (895, 895, 1, 116);
    (902, 902, 1, 38); (904, 906, 1, 37); (908, 908, 1, 64); (910, 911, 1, 63);
    (913, 929, 1, 32); (931, 939, 1, 32); (975, 975, 1, 8); (984, 1006, 2, 1);
    (1012, 1012, 1, -60); (1015, 1015, 1, 1); (1017, 1017, 1, -7); (1018, 1018, 1, 1);
    (1021, 1023, 1, -130); (1024, 1039, 1, 80); (1040, 1071, 1, 32); (1120, 1152, 2, 1);
    (1162, 1214, 2, 1); (1216, 1216, 1, 15); (1217, 1229, 2, 1); (1232, 1326, 2, 1);
    (1329, 1366, 1, 48); (4256, 4293, 1, 7264); (4295, 4295, 1, 7264);
    (4301, 4301, 1, 7264); (5024, 5103, 1, 38864); (5104, 5109, 1, 8);
    (7312, 7354, 1, -3008); (7357, 7359, 1, -3008); (7680, 7828, 2, 1);
    (7838, 7838, 1, -7615); (7840, 7934, 2, 1); (7944, 7951, 1, -8); (7960, 7965, 1, -8);
    (7976, 7983, 1, -8); (7992, 7999, 1, -8); (8008, 8013, 1, -8); (8025, 8031, 2, -8);
    (8040, 8047, 1, -8); (8072, 8079, 1, -8); (8088, 8095, 1, -8); (8104, 8111, 1, -8);
    (8120, 8121, 1, -8); (8122, 8123, 1, -74); (8124, 8124, 1, -9); (8136, 8139, 1, -86);
    (8140, 8140, 1, -9); (8152, 8153, 1, -8); (8154, 8155, 1, -100); (8168, 8169, 1, -8);
    (8170, 8171, 1, -112); (8172, 8172, 1, -7); (8184, 8185, 1, -128);
    (8186, 8187, 1, -126); (8188, 8188, 1, -9); (8486, 8486, 1, -7517);
    (8490, 8490, 1, -8383); (8491, 8491, 1, -8262); (8498, 8498, 1, 28);
    (8544, 8559, 1, 16); (8579, 8579, 1, 1); (9398, 9423, 1, 26); (11264, 11311, 1, 48);
    (11360, 11360, 1, 1); (11362, 11362, 1, -10743); (11363, 11363, 1, -3814);
    (11364, 11364, 1, -10727); (11367, 11371, 2, 1); (11373, 11373, 1, -10780);
    (11374, 11374, 1, -10749); (11375, 11375, 1, -10783); (11376, 11376, 1, -10782);
    (11378, 11378, 1, 1); (11381, 11381, 1, 1); (11390, 11391, 1, -10815);
    (11392, 11490, 2, 1); (11499, 11501, 2, 1); (11506, 11506, 1, 1); (42560, 42604, 2, 1);
    (42624, 42650, 2, 1); (42786, 42798, 2, 1); (42802, 42862, 2, 1); (42873, 42875, 2, 1);
    (42877, 42877, 1, -35332); (42878, 42886, 2, 1); (42891, 42891, 1, 1);
    (42893, 42893, 1, -42280); (42896, 42898, 2, 1); (42902, 42920, 2, 1);
    (42922, 42922, 1, -42308); (42923, 42923, 1, -42319); (42924, 42924, 1, -42315);
    (42925, 42925, 1, -42305); (42926, 42926, 1, -42308); (42928, 42928, 1, -42258);
    (42929, 42929, 1, -42282); (42930, 42930, 1, -42261); (42931, 42931, 1, 928);
    (42932, 42946, 2, 1); (42948, 42948, 1, -48); (42949, 42949, 1, -42307);
    (42950, 42950, 1, -35384); (42951, 42953, 2, 1); (42960, 42960, 1, 1);
    (42966, 42968, 2, 1); (42997, 42997, 1, 1); (65313, 65338, 1, 32);
    (66560, 66599, 1, 40); (66736, 66771, 1, 40); (66928, 66938, 1, 39);
    (66940, 66954, 1, 39); (66956, 66962, 1, 39); (66964, 66965, 1, 39);
    (68736, 68786, 1, 64); (71840, 71871, 1, 32); (93760, 93791, 1, 32);
    (125184, 125217, 1, 34) ].

(** Code points with the property Case_Ignorable, as ranges [(lo, hi)]. *)
Definition case_ignorable_ranges : list (Z * Z) :=
  [ (39, 39); (46, 46); (58, 58); (94, 94); (96, 96); (168, 168); (173, 173); (175, 175);
    (180, 180); (183, 184); (688, 879); (884, 885); (890, 890); (900, 901); (903, 903);
    (1155, 1161); (1369, 1369); (1375, 1375); (1425, 1469); (1471, 1471); (1473, 1474);
    (1476, 1477); (1479, 1479); (1524, 1524); (1536, 1541); (1552, 1562); (1564, 1564);
    (1600, 1600); (1611, 1631); (1648, 1648); (1750, 1757); (1759, 1768); (1770, 1773);
    (1807, 1807); (1809, 1809); (1840, 1866); (1958, 1968); (2027, 2037); (2042, 2042);
    (2045, 2045); (2070, 2093); (2137, 2139); (2184, 2184); (2192, 2193); (2200, 2207);
    (2249, 2306); (2362, 2362); (2364, 2364); (2369, 2376); (2381, 2381); (2385, 2391);
    (2402, 2403); (2417, 2417); (2433, 2433); (2492, 2492); (2497, 2500); (2509, 2509);
    (2530, 2531); (2558, 2558); (2561, 2562); (2620, 2620); (2625, 2626); (2631, 2632);
    (2635, 2637); (2641, 2641); (2672, 2673); (2677, 2677); (2689, 2690); (2748, 2748);
    (2753, 2757); (2759, 2760); (2765, 2765); (2786, 2787); (2810, 2815); (2817, 2817);
    (2876, 2876); (2879, 2879); (2881, 2884); (2893, 2893); (2901, 2902); (2914, 2915);
    (2946, 2946); (3008, 3008); (3021, 3021); (3072, 3072); (3076, 3076); (3132, 3132);
    (3134, 3136); (3142, 3144); (3146, 3149); (3157, 3158); (3170, 3171); (3201, 3201);
    (3260, 3260); (3263, 3263); (3270, 3270); (3276, 3277); (3298, 3299); (3328, 3329);
    (3387, 3388); (3393, 3396); (3405, 3405); (3426, 3427); (3457, 3457); (3530, 3530);
    (3538, 3540); (3542, 3542); (3633, 3633); (3636, 3642); (3654, 3662); (3761, 3761);
    (3764, 3772); (3782, 3782); (3784, 3789); (3864, 3865); (3893, 3893); (3895, 3895);
    (3897, 3897); (3953, 3966); (3968, 3972); (3974, 3975); (3981, 3991); (3993, 4028);
    (4038, 4038); (4141, 4144); (4146, 4151); (4153, 4154); (4157, 4158); (4184, 4185);
    (4190, 4192); (4209, 4212); (4226, 4226); (4229, 4230); (4237, 4237); (4253, 4253);
    (4348, 4348); (4957, 4959); (5906, 5908); (5938, 5939); (5970, 5971); (6002, 6003);
    (6068, 6069); (6071, 6077); (6086, 6086); (6089, 6099); (6103, 6103); (6109, 6109);
    (6155, 6159); (6211, 6211); (6277, 6278); (6313, 6313); (6432, 6434); (6439, 6440);
    (6450, 6450); (6457, 6459); (6679, 6680); (6683, 6683); (6742, 6742); (6744, 6750);
    (6752, 6752); (6754, 6754); (6757, 6764); (6771, 6780); (6783, 6783); (6823, 6823);
    (6832, 6862); (6912, 6915); (6964, 6964); (6966, 6970); (6972, 6972); (6978, 6978);
    (7019, 7027); (7040, 7041); (7074, 7077); (7080, 7081); (7083, 7085); (7142, 7142);
    (7144, 7145); (7149, 7149); (7151, 7153); (7212, 7219); (7222, 7223); (7288, 7293);
    (7376, 7378); (7380, 7392); (7394, 7400); (7405, 7405); (7412, 7412); (7416, 7417);
    (7468, 7530); (7544, 7544); (7579, 7679); (8125, 8125); (8127, 8129); (8141, 8143);
    (8157, 8159); (8173, 8175); (8189, 8190); (8203, 8207); (8216, 8217); (8228, 8228);
    (8231, 8231); (8234, 8238); (8288, 8292); (8294, 8303); (8305, 8305); (8319, 8319);
    (8336, 8348); (8400, 8432); (11388, 11389); (11503, 11505); (11631, 11631);
    (11647, 11647); (11744, 11775); (11823, 11823); (12293, 12293); (12330, 12333);
    (12337, 12341); (12347, 12347); (12441, 12446); (12540, 12542); (40981, 40981);
    (42232, 42237); (42508, 42508); (42607, 42610); (42612, 42621); (42623, 42623);
    (42652, 42655); (42736, 42737); (42752, 42785); (42864, 42864); (42888, 42890);
    (42994, 42996); (43000, 43001); (43010, 43010); (43014, 43014); (43019, 43019);
    (43045, 43046); (43052, 43052); (43204, 43205); (43232, 43249); (43263, 43263);
    (43302, 43309); (43335, 43345); (43392, 43394); (43443, 43443); (43446, 43449);
    (43452, 43453); (43471, 43471); (43493, 43494); (43561, 43566); (43569, 43570);
    (43573, 43574); (43587, 43587); (43596, 43596); (43632, 43632); (43644, 43644);
    (43696, 43696); (43698, 43700); (43703, 43704); (43710, 43711); (43713, 43713);
    (43741, 43741); (43756, 43757); (43763, 43764); (43766, 43766); (43867, 43871);
    (43881, 43883); (44005, 44005); (44008, 44008); (44013, 44013); (64286, 64286);
    (64434, 64450); (65024, 65039); (65043, 65043); (65056, 65071); (65106, 65106);
    (65109, 65109); (65279, 65279); (65287, 65287); (65294, 65294); (65306, 65306);
    (65342, 65342); (65344, 65344); (65392, 65392); (65438, 65439); (65507, 65507);
    (65529, 65531); (66045, 66045); (66272, 66272); (66422, 66426); (67456, 67461);
    (67463, 67504); (67506, 67514); (68097, 68099); (68101, 68102); (68108, 68111);
    (68152, 68154); (68159, 68159); (68325, 68326); (68900, 68903); (69291, 69292);
    (69446, 69456); (69506, 69509); (69633, 69633); (69688, 69702); (69744, 69744);
    (69747, 69748); (69759, 69761); (69811, 69814); (69817, 69818); (69821, 69821);
    (69826, 69826); (69837, 69837); (69888, 69890); (69927, 69931); (69933, 69940);
    (70003, 70003); (70016, 70017); (70070, 70078); (70089, 70092); (70095, 70095);
    (70191, 70193); (70196, 70196); (70198, 70199); (70206, 70206); (70367, 70367);
    (70371, 70378); (70400, 70401); (70459, 70460); (70464, 70464); (70502, 70508);
    (70512, 70516); (70712, 70719); (70722, 70724); (70726, 70726); (70750, 70750);
    (70835, 70840); (70842, 70842); (70847, 70848); (70850, 70851); (71090, 71093);
    (71100, 71101); (71103, 71104); (71132, 71133); (71219, 71226); (71229, 71229);
    (71231, 71232); (71339, 71339); (71341, 71341); (71344, 71349); (71351, 71351);
    (71453, 71455); (71458, 71461); (71463, 71467); (71727, 71735); (71737, 71738);
    (71995, 71996); (71998, 71998); (72003, 72003); (72148, 72151); (72154, 72155);
    (72160, 72160); (72193, 72202); (72243, 72248); (72251, 72254); (72263, 72263);
    (72273, 72278); (72281, 72283); (72330, 72342); (72344, 72345); (72752, 72758);
    (72760, 72765); (72767, 72767); (72850, 72871); (72874, 72880); (72882, 72883);
    (72885, 72886); (73009, 73014); (73018, 73018); (73020, 73021); (73023, 73029);
    (73031, 73031); (73104, 73105); (73109, 73109); (73111, 73111); (73459, 73460);
    (78896, 78904); (92912, 92916); (92976, 92982); (92992, 92995); (94031, 94031);
    (94095, 94111); (94176, 94177); (94179, 94180); (110576, 110579); (110581, 110587);
    (110589, 110590); (113821, 113822); (113824, 113827); (118528, 118573);
    (118576, 118598); (119143, 119145); (119155, 119170); (119173, 119179);
    (119210, 119213); (119362, 119364); (121344, 121398); (121403, 121452);
    (121461, 121461); (121476, 121476); (121499, 121503); (121505, 121519);
    (122880, 122886); (122888, 122904); (122907, 122913); (122915, 122916);
    (122918, 122922); (123184, 123197); (123566, 123566); (123628, 123631);
    (125136, 125142); (125252, 125259); (127995, 127999); (917505, 917505);
    (917536, 917631); (917760, 917999) ].

(** Code points with the property Cased that are not Case_Ignorable. *)
Definition cased_ranges : list (Z * Z) :=
  [ (65, 90); (97, 122); (170, 170); (181, 181); (186, 186); (192, 214); (216, 246);
    (248, 442); (444, 447); (452, 659); (661, 687); (880, 883); (886, 887); (891, 893);
    (895, 895); (902, 902); (904, 906); (908, 908); (910, 929); (931, 1013); (1015, 1153);
    (1162, 1327); (1329, 1366); (1376, 1416); (4256, 4293); (4295, 4295); (4301, 4301);
    (4304, 4346); (4349, 4351); (5024, 5109); (5112, 5117); (7296, 7304); (7312, 7354);
    (7357, 7359); (7424, 7467); (7531, 7543); (7545, 7578); (7680, 7957); (7960, 7965);
    (7968, 8005); (8008, 8013); (8016, 8023); (8025, 8025); (8027, 8027); (8029, 8029);
    (8031, 8061); (8064, 8116); (8118, 8124); (8126, 8126); (8130, 8132); (8134, 8140);
    (8144, 8147); (8150, 8155); (8160, 8172); (8178, 8180); (8182, 8188); (8450, 8450);
    (8455, 8455); (8458, 8467); (8469, 8469); (8473, 8477); (8484, 8484); (8486, 8486);
    (8488, 8488); (8490, 8493); (8495, 8500); (8505, 8505); (8508, 8511); (8517, 8521);
    (8526, 8526); (8544, 8575); (8579, 8580); (9398, 9449); (11264, 11387); (11390, 11492);
    (11499, 11502); (11506, 11507); (11520, 11557); (11559, 11559); (11565, 11565);
    (42560, 42605); (42624, 42651); (42786, 42863); (42865, 42887); (42891, 42894);
    (42896, 42954); (42960, 42961); (42963, 42963); (42965, 42969); (42997, 42998);
    (43002, 43002); (43824, 43866); (43872, 43880); (43888, 43967); (64256, 64262);
    (64275, 64279); (65313, 65338); (65345, 65370); (66560, 66639); (66736, 66771);
    (66776, 66811); (66928, 66938); (66940, 66954); (66956, 66962); (66964, 66965);
    (66967, 66977); (66979, 66993); (66995, 67001); (67003, 67004); (68736, 68786);
    (68800, 68850); (71840, 71903); (93760, 93823); (119808, 119892); (119894, 119964);
    (119966, 119967); (119970, 119970); (119973, 119974); (119977, 119980);
    (119982, 119993); (119995, 119995); (119997, 120003); (120005, 120069);
    (120071, 120074); (120077, 120084); (120086, 120092); (120094, 120121);
    (120123, 120126); (120128, 120132); (120134, 120134); (120138, 120144);
    (120146, 120485); (120488, 120512); (120514, 120538); (120540, 120570);
    (120572, 120596); (120598, 120628); (120630, 120654); (120656, 120686);
    (120688, 120712); (120714, 120744); (120746, 120770); (120772, 120779);
    (122624, 122633); (122635, 122654); (125184, 125251); (127280, 127305);
    (127312, 127337); (127344, 127369) ].

Fixpoint lower_delta (rows : list (Z * Z * Z * Z)) (c : Z) : option Z :=
  match rows with
  | [] => None
  | (lo, hi, stride, delta) :: rest =>
      if c <? lo then None
      else if (c <=? hi) && ((c - lo) mod stride =? 0) then Some delta
      else lower_delta rest c
  end.

Fixpoint in_ranges (ranges : list (Z * Z)) (c : Z) : bool :=
  match ranges with
  | [] => false
  | (lo, hi) :: rest =>
      if c <? lo then false
      else if c <=? hi then true
      else in_ranges rest c
  end.

Definition case_ignorable (c : Z) : bool := in_ranges case_ignorable_ranges c.
Definition cased (c : Z) : bool := in_ranges cased_ranges c.

(** The lower case of one code point other than the capital sigma.
    U+0130 is the one code point whose lower case is two code points. *)
Definition lower_cp (c : Z) : list Z :=
  if (65 <=? c) && (c <=? 90) then [ c + 32 ]
  else if c <? 128 then [ c ]
  else if c =? 304 then [ 105; 775 ]
  else match lower_delta lower_rows c with
       | Some delta => [ c + delta ]
       | None => [ c ]
       end.

(** After the capital sigma: case-ignorable code points, then a cased one. *)
Fixpoint cased_follows (cps : list Z) : bool :=
  match cps with
  | [] => false
  | c :: rest => if case_ignorable c then cased_follows rest else cased c
  end.

(** [after_cased]: the nearest code point before this one that is not
    case-ignorable is cased. A capital sigma (U+03A3) becomes the final
    sigma (U+03C2) when it ends a word, and U+03C3 otherwise. *)
Fixpoint lower_cps (after_cased : bool) (cps : list Z) : list Z :=
  match cps with
  | [] => []
  | c :: rest =>
      (if c =? 931
       then [ if after_cased && negb (cased_follows rest) then 962 else 963 ]
       else lower_cp c)
      ++ lower_cps (if case_ignorable c then after_cased else cased c) rest
  end.

(** [s.lower()] *)
Definition lower (s : string) : string := encode (lower_cps false (decode s)).

(** [needle in hay] *)
Fixpoint contains (needle hay : string) : bool :=
  String.prefix needle hay ||
  match hay with
  | EmptyString => false
  | String _ r => contains needle r
  end.

(** Truth value of a string: the empty string is falsy. *)
Definition truthy (s : string) : bool := negb (String.eqb s "").

(** [any(k in hay for k in needles)] *)
Definition any_in (needles : list string) (hay : string) : bool :=
  existsb (fun k => contains k hay) needles.

End Str.

(** ** Calls that may raise *)

Inductive result (A : Type) : Type :=
| Ok (a : A)
| Raise.
Arguments Ok {A} a.
Arguments Raise {A}.

Definition rbind {A B} (m : result A) (k : A -> result B) : result B :=
  match m with
  | Ok a => k a
  | Raise => Raise
  end.

Notation "x <~ m ;; k" := (rbind m (fun x => k))
  (at level 100, m at next level, right associativity).

(** The same for [option], where [None] is a call that does not return. *)
Notation "x <~~ m ;; k" := (match m with Some x => k | None => None end)
  (at level 100, m at next level, right associativity).

(** [try: m except: h] *)
Definition catch {A} (m : result A) (h : A) : A :=
  match m with
  | Ok a => a
  | Raise => h
  end.

(** ** The driver boundary: elements, selectors, pages *)

Module Dom.

Record element := {
  e_tag : string;                     (* tag name, lower case *)
  e_attrs : list (string * string);   (* attributes as written in the document *)
  e_text_node : option string;        (* first text-node child: XPath text() *)
  is_visible : result bool;
  inner_text : result string;
  is_enabled : result bool;
  get_attribute_raises : bool;
  click_lands : result unit           (* the click itself, once the driver lets it go *)
}.

(** [element.click()], called without [force]: the driver first waits for
    the element to be visible and enabled and raises when that wait times
    out, as it does on a snapshot where the element is hidden or disabled. *)
Definition click (e : element) : result unit :=
  visible <~ is_visible e ;;
  enabled <~ is_enabled e ;;
  if visible && enabled then click_lands e else Raise.

Fixpoint assoc (k : string) (l : list (string * string)) : option string :=
  match l with
  | [] => None
  | (k', v) :: r => if String.eqb k k' then Some v else assoc k r
  end.

(** [element.get_attribute(name)] *)
Definition get_attribute (e : element) (name : string) : result (option string) :=
  if get_attribute_raises e then Raise else Ok (assoc name (e_attrs e)).

Inductive attr_op :=
| AttrPresent                 (* [a] *)
| AttrEquals (v : string)     (* [a="v"] *)
| AttrContains (v : string).  (* [a*="v"] *)

(** One compound selector: an optional tag and an optional attribute test. *)
Record compound := {
  c_tag : option string;
  c_attr : option (string * attr_op)
}.

Inductive selector :=
| Css (alternatives : list compound)        (* c1, c2, ... *)
| XPathButtonText (needles : list string).  (* //button[contains(text(), n1) and ...] *)

Definition attr_holds (e : element) (a : string) (op : attr_op) : bool :=
  match assoc a (e_attrs e) with
  | None => false
  | Some v =>
      match op with
      | AttrPresent => true
      | AttrEquals w => String.eqb v w
      | AttrContains w => Str.truthy w && Str.contains w v
      end
  end.

Definition compound_matches (c : compound) (e : element) : bool :=
  match c_tag c with
  | None => true
  | Some t => String.eqb t (e_tag e)
  end &&
  match c_attr c with
  | None => true
  | Some (a, op) => attr_holds e a op
  end.

Definition matches (s : selector) (e : element) : bool :=
  match s with
  | Css alts => existsb (fun c => compound_matches c e) alts
  | XPathButtonText needles =>
      String.eqb (e_tag e) "button" &&
      match e_text_node e with
      | None => false
      | Some t => forallb (fun n => Str.contains n t) needles
      end
  end.

Record page := {
  url : string;                       (* page.url *)
  body_text : result string;          (* page.inner_text('body') *)
  dom : list element;                 (* document order *)
  query_raises : selector -> bool     (* the driver raises on this query *)
}.

(** [page.query_selector_all(s)] *)
Definition query_selector_all (p : page) (s : selector) : result (list element) :=
  if query_raises p s then Raise else Ok (List.filter (matches s) (dom p)).

(** [page.query_selector(s)]: the first match in document order, or [None]. *)
Definition query_selector (p : page) (s : selector) : result (option element) :=
  if query_raises p s then Raise else Ok (find (matches s) (dom p)).

Definition tag (t : string) : compound := {| c_tag := Some t; c_attr := None |}.
Definition attr (a : string) (op : attr_op) : compound :=
  {| c_tag := None; c_attr := Some (a, op) |}.
Definition tag_attr (t a : string) (op : attr_op) : compound :=
  {| c_tag := Some t; c_attr := Some (a, op) |}.

End Dom.

(** ** [bot.py]: class [BBBVoteBot] *)

Module Bot.
Import Dom.

Inductive PageState :=
| STATE_VOTING
| STATE_CONFIRMATION
| STATE_ERROR
| STATE_LOGIN_REQUIRED
| STATE_UNKNOWN.

Definition PageState_eqb (a b : PageState) : bool :=
  match a, b with
  | STATE_VOTING, STATE_VOTING
  | STATE_CONFIRMATION, STATE_CONFIRMATION
  | STATE_ERROR, STATE_ERROR
  | STATE_LOGIN_REQUIRED, STATE_LOGIN_REQUIRED
  | STATE_UNKNOWN, STATE_UNKNOWN => true
  | _, _ => false
  end.

(** *** [detect_page_state] *)

Definition login_indicators : list string :=
  [ "authx.globoid.globo.com"; "accounts.google.com"; "goidc.globo.com";
    "/login"; "login-callback"; "Fazer Login"; "Sign in" ].

Definition login_keywords : list string :=
  [ "fazer login"; "entrar com conta globo"; "escolha uma conta";
    "sign in with google"; "fazer login com o google";
    "use sua conta google"; "prosseguir para globo.com" ].

Definition error_keywords : list string :=
  [ "algo deu errado"; "erro na verificação"; "votação encerrada";
    "parece que você está em mais de um dispositivo";
    "estamos com muitos acessos agora"; "erro na verificação do usuário" ].

(** [[class*="error"], [class*="Error"], [id*="error"], [id*="Error"]] *)
Definition sel_error : selector :=
  Css [ attr "class" (AttrContains "error"); attr "class" (AttrContains "Error");
        attr "id" (AttrContains "error"); attr "id" (AttrContains "Error") ].

(** [h1, h2, h3] *)
Definition sel_headings : selector := Css [ tag "h1"; tag "h2"; tag "h3" ].

(** [h1, [class*="success"], [class*="Success"]] *)
Definition sel_confirmation : selector :=
  Css [ tag "h1"; attr "class" (AttrContains "success");
        attr "class" (AttrContains "Success") ].

(** [button[aria-label*="..."]] *)
Definition sel_button_label_contains (v : string) : selector :=
  Css [ tag_attr "button" "aria-label" (AttrContains v) ].

Definition confirmation_selectors : list selector :=
  [ sel_button_label_contains "Votar novamente";
    sel_button_label_contains "Votar Novamente";
    sel_button_label_contains "votar novamente" ].

(** [f'button[aria-label="{self.participant_name}"]'], for a name that
    can stand between the quotes as it is ([Notions.css_plain] below): the
    selector then asks for a button with exactly this label. *)
Definition sel_button_label_exact (name : string) : selector :=
  Css [ tag_attr "button" "aria-label" (AttrEquals name) ].

(** [button[aria-label]] *)
Definition sel_button_labelled : selector :=
  Css [ tag_attr "button" "aria-label" AttrPresent ].

Definition sel_h1 : selector := Css [ tag "h1" ].
Definition sel_button : selector := Css [ tag "button" ].

(** The loop over [login_indicators] on the URL (lines 128-132). *)
Definition login_url_test (p : page) : bool :=
  existsb (fun indicator => Str.contains (Str.lower indicator) (Str.lower (url p)))
          login_indicators.

(** The body of the [try] over the page text (lines 136-152). *)
Definition login_text_test (p : page) : result bool :=
  page_text <~ body_text p ;;
  Ok (Str.any_in login_keywords (Str.lower page_text)).

(** One of the two loops of lines 174-185 and 190-201: the first visible
    element whose text holds an error keyword sets [has_visible_error]. *)
Fixpoint scan_for_error (elems : list element) : result bool :=
  match elems with
  | [] => Ok false
  | elem :: rest =>
      visible <~ is_visible elem ;;
      if visible then
        text <~ inner_text elem ;;
        if Str.any_in error_keywords (Str.lower text) then Ok true
        else scan_for_error rest
      else scan_for_error rest
  end.

(** The body of the [try] of lines 171-201; its value is [has_visible_error]. *)
Definition error_test (p : page) : result bool :=
  error_elements <~ query_selector_all p sel_error ;;
  has_visible_error <~ scan_for_error error_elements ;;
  if has_visible_error then Ok true
  else
    headings <~ query_selector_all p sel_headings ;;
    scan_for_error headings.

(** The loop of lines 215-221. *)
Fixpoint scan_for_confirmation (elems : list element) : result bool :=
  match elems with
  | [] => Ok false
  | elem :: rest =>
      visible <~ is_visible elem ;;
      if visible then
        text <~ inner_text elem ;;
        if Str.contains "Seu voto" text || Str.contains "seu voto" (Str.lower text)
        then Ok true
        else scan_for_confirmation rest
      else scan_for_confirmation rest
  end.

(** The body of the [try] of lines 210-221. *)
Definition confirmation_text_test (p : page) : result bool :=
  confirmation_elements <~ query_selector_all p sel_confirmation ;;
  scan_for_confirmation confirmation_elements.

(** The body of the [try] of lines 234-241, for one selector. *)
Definition vote_again_visible (p : page) (s : selector) : result bool :=
  element <~ query_selector p s ;;
  match element with
  | Some el => is_visible el
  | None => Ok false
  end.

(** The loop of lines 233-244: an exception moves on to the next selector. *)
Definition confirmation_button_test (p : page) : bool :=
  existsb (fun s => catch (vote_again_visible p s) false) confirmation_selectors.

(** The loop of lines 266-273. *)
Fixpoint scan_labelled_buttons (name : string) (buttons : list element) : result bool :=
  match buttons with
  | [] => Ok false
  | button :: rest =>
      visible <~ is_visible button ;;
      if visible then
        aria_label <~ get_attribute button "aria-label" ;;
        match aria_label with
        | Some l =>
            if Str.truthy l && Str.contains name l then Ok true
            else scan_labelled_buttons name rest
        | None => scan_labelled_buttons name rest
        end
      else scan_labelled_buttons name rest
  end.

(** The loop of lines 280-286. *)
Fixpoint scan_h1 (h1_elements : list element) : result bool :=
  match h1_elements with
  | [] => Ok false
  | h1 :: rest =>
      visible <~ is_visible h1 ;;
      if visible then
        text <~ inner_text h1 ;;
        if Str.contains "quem você quer eliminar" (Str.lower text) then Ok true
        else scan_h1 rest
      else scan_h1 rest
  end.

(** The body of the inner [try] of lines 276-286. *)
Definition voting_heading_test (p : page) : result bool :=
  h1_elements <~ query_selector_all p sel_h1 ;;
  scan_h1 h1_elements.

(** The body of the [try] of lines 247-288. The exact-label button is not
    probed for [is_enabled]; only [is_visible] decides. *)
Definition voting_test (p : page) (participant_name : string) : result bool :=
  exact_button <~ query_selector p (sel_button_label_exact participant_name) ;;
  exact_visible <~ match exact_button with
                   | Some b => is_visible b
                   | None => Ok false
                   end ;;
  if exact_visible then Ok true
  else
    buttons <~ query_selector_all p sel_button_labelled ;;
    labelled <~ scan_labelled_buttons participant_name buttons ;;
    if labelled then Ok true
    else Ok (catch (voting_heading_test p) false).

(** The body of the outer [try] (lines 108-293): the tests in order, each
    guarded block falling through when it raises. *)
Definition detect_page_state_body (p : page) (participant_name : string)
  : result PageState :=
  if login_url_test p then Ok STATE_LOGIN_REQUIRED
  else if catch (login_text_test p) false then Ok STATE_LOGIN_REQUIRED
  else if catch (error_test p) false then Ok STATE_ERROR
  else if catch (confirmation_text_test p) false then Ok STATE_CONFIRMATION
  else if confirmation_button_test p then Ok STATE_CONFIRMATION
  else if catch (voting_test p participant_name) false then Ok STATE_VOTING
  else Ok STATE_UNKNOWN.

(** [detect_page_state]: the outer [except] returns [STATE_UNKNOWN]. The
    [finally] block only logs. *)
Definition detect_page_state (p : page) (participant_name : string) : PageState :=
  catch (detect_page_state_body p participant_name) STATE_UNKNOWN.

(** *** [click_vote_again] *)

(** The selectors of lines 516-520. *)
Definition vote_again_selectors : list selector :=
  [ sel_button_label_contains "Votar novamente";
    sel_button_label_contains "Votar Novamente";
    sel_button_label_contains "votar novamente" ].

(** [//button[contains(text(), "Votar") and contains(text(), "Novamente")]] *)
Definition sel_vote_again_xpath : selector := XPathButtonText [ "Votar"; "Novamente" ].

(** [await button.click(); ...; return True]: the button once its click returned. *)
Definition click_it (button : element) : result (option element) :=
  _ <~ click button ;; Ok (Some button).

(** The body of the [try] of lines 524-529, for one selector. The code
    makes no [is_visible] or [is_enabled] probe of its own before the
    click; the driver makes them inside [click]. *)
Definition click_by_selector (p : page) (s : selector) : result (option element) :=
  button <~ query_selector p s ;;
  match button with
  | Some b => click_it b
  | None => Ok None
  end.

(** The loop of lines 522-531: [except: continue]. *)
Fixpoint click_by_selectors (p : page) (sels : list selector) : option element :=
  match sels with
  | [] => None
  | s :: rest =>
      match catch (click_by_selector p s) None with
      | Some b => Some b
      | None => click_by_selectors p rest
      end
  end.

(** The loop of lines 536-542; the [try] is around the whole loop, so a
    probe or a click that raises ends the scan. *)
Fixpoint scan_click_by_text (buttons : list element) : result (option element) :=
  match buttons with
  | [] => Ok None
  | button :: rest =>
      text_content <~ inner_text button ;;
      if Str.contains "votar" (Str.lower text_content)
         && Str.contains "novamente" (Str.lower text_content)
      then click_it button
      else scan_click_by_text rest
  end.

(** The body of the [try] of lines 535-542. *)
Definition click_by_text (p : page) : result (option element) :=
  buttons <~ query_selector_all p sel_button ;;
  scan_click_by_text buttons.

(** The body of the [try] of lines 548-554. *)
Definition click_by_xpath (p : page) : result (option element) :=
  click_by_selector p sel_vote_again_xpath.

(** The button whose click made [click_vote_again] return [True], if any. *)
Definition click_vote_again_target (p : page) : option element :=
  match click_by_selectors p vote_again_selectors with
  | Some b => Some b
  | None =>
      match catch (click_by_text p) None with
      | Some b => Some b
      | None => catch (click_by_xpath p) None
      end
  end.

(** [click_vote_again]: [True] exactly when some click returned. *)
Definition click_vote_again (p : page) : bool :=
  match click_vote_again_target p with
  | Some _ => true
  | None => false
  end.

(** *** The fields of a [BBBVoteBot] that its loop and the manager use *)
Record bot := {
  participant_name : string;
  vote_count : Z;
  last_confirmation_detected : bool;
  tab_number : Z;
  has_vote_callback : bool;    (* vote_callback is the manager's _on_vote_completed *)
  has_browser_manager : bool   (* browser_manager is set *)
}.

(** [BBBVoteBot.__init__] as the manager calls it (lines 45-50). *)
Definition new_bot (name : string) (tab : Z) : bot :=
  {| participant_name := name;
     vote_count := 0;
     last_confirmation_detected := false;
     tab_number := tab;
     has_vote_callback := true;
     has_browser_manager := true |}.

Definition set_vote_count (v : Z) (b : bot) : bot :=
  {| participant_name := participant_name b;
     vote_count := v;
     last_confirmation_detected := last_confirmation_detected b;
     tab_number := tab_number b;
     has_vote_callback := has_vote_callback b;
     has_browser_manager := has_browser_manager b |}.

Definition set_last_confirmation_detected (f : bool) (b : bot) : bot :=
  {| participant_name := participant_name b;
     vote_count := vote_count b;
     last_confirmation_detected := f;
     tab_number := tab_number b;
     has_vote_callback := has_vote_callback b;
     has_browser_manager := has_browser_manager b |}.

End Bot.

(** ** [browser_manager.py]: class [BrowserManager] *)

Module BrowserManager.
Import Bot.

(** A [datetime], kept as its ['%Y-%m-%d %H:%M:%S'] rendering. *)
Definition datetime := string.

(** How a write to a file ends. Every write of the manager sits in a
    [try] whose [except] logs the error and lets the caller go on. *)
Inductive write :=
| Written    (* the file holds the new contents *)
| Refused    (* an exception before or in [open]: the file is as it was *)
| Torn.      (* an exception after [open(..., 'w')] has emptied the file:
                nothing readable is left *)

Definition file_after {A} (w : write) (old : option A) (new : A) : option A :=
  match w with
  | Written => Some new
  | Refused => old
  | Torn => None
  end.

(** [vote_counter.json] *)
Record counter_file := {
  cf_total_votes : option Z;
  cf_last_updated : bool;      (* the entry is there; its value, the
                                  isoformat() of the moment of the write, is
                                  never read back *)
  cf_votes_per_tab : list Z
}.

(** One entry of ['sessoes'] in [votos_estatisticas.json]. *)
Record session_info := {
  data_inicio : option string;
  data_fim : string;
  votos_na_sessao : Z;
  votos_por_aba : list Z;
  total_ao_final : Z;
  participante : string;
  numero_abas : Z
}.

Record general_stats := {
  total_votos_historico : Z;
  total_sessoes : Z;
  votos_na_sessao_atual : Z;
  votos_por_aba_atual : list Z;
  total_votos_atual : Z
}.

(** [votos_estatisticas.json]; a key that may be missing is an [option]. *)
Record stats := {
  total_historico : option Z;
  sessoes : option (list session_info);
  ultima_atualizacao : option string;
  estatisticas_gerais : option general_stats
}.

Record manager := {
  mgr_participant_name : string;
  bots : list bot;
  total_votes : Z;
  vote_lock : option bool;              (* None: not created yet; Some held *)
  session_start_time : option datetime;
  session_start_votes : Z;
  vote_counter_json : option counter_file;  (* None: no readable file *)
  vote_stats_json : option stats            (* None: no readable file *)
}.

Definition set_bots (bs : list bot) (m : manager) : manager :=
  {| mgr_participant_name := mgr_participant_name m; bots := bs;
     total_votes := total_votes m; vote_lock := vote_lock m;
     session_start_time := session_start_time m;
     session_start_votes := session_start_votes m;
     vote_counter_json := vote_counter_json m;
     vote_stats_json := vote_stats_json m |}.

Definition set_total_votes (t : Z) (m : manager) : manager :=
  {| mgr_participant_name := mgr_participant_name m; bots := bots m;
     total_votes := t; vote_lock := vote_lock m;
     session_start_time := session_start_time m;
     session_start_votes := session_start_votes m;
     vote_counter_json := vote_counter_json m;
     vote_stats_json := vote_stats_json m |}.

Definition set_vote_lock (l : option bool) (m : manager) : manager :=
  {| mgr_participant_name := mgr_participant_name m; bots := bots m;
     total_votes := total_votes m; vote_lock := l;
     session_start_time := session_start_time m;
     session_start_votes := session_start_votes m;
     vote_counter_json := vote_counter_json m;
     vote_stats_json := vote_stats_json m |}.

Definition set_session (t : option datetime) (v : Z) (m : manager) : manager :=
  {| mgr_participant_name := mgr_participant_name m; bots := bots m;
     total_votes := total_votes m; vote_lock := vote_lock m;
     session_start_time := t;
     session_start_votes := v;
     vote_counter_json := vote_counter_json m;
     vote_stats_json := vote_stats_json m |}.

Definition set_vote_counter_json (f : option counter_file) (m : manager) : manager :=
  {| mgr_participant_name := mgr_participant_name m; bots := bots m;
     total_votes := total_votes m; vote_lock := vote_lock m;
     session_start_time := session_start_time m;
     session_start_votes := session_start_votes m;
     vote_counter_json := f;
     vote_stats_json := vote_stats_json m |}.

Definition set_vote_stats_json (f : option stats) (m : manager) : manager :=
  {| mgr_participant_name := mgr_participant_name m; bots := bots m;
     total_votes := total_votes m; vote_lock := vote_lock m;
     session_start_time := session_start_time m;
     session_start_votes := session_start_votes m;
     vote_counter_json := vote_counter_json m;
     vote_stats_json := f |}.

(** [sum(xs)] *)
Definition sum (xs : list Z) : Z := fold_right Z.add 0 xs.

(** [[bot.vote_count for bot in self.bots]] *)
Definition votes_per_tab (m : manager) : list Z := map vote_count (bots m).

(** [_load_vote_counter] (lines 82-98), on the file as found. *)
Definition _load_vote_counter (file : option counter_file) : Z :=
  match file with
  | Some data => match cf_total_votes data with Some total => total | None => 0 end
  | None => 0
  end.

(** What [_save_vote_counter] (lines 100-114) writes;
    [[...] if self.bots else []] is the same list either way. *)
Definition vote_counter_to_save (m : manager) : counter_file :=
  {| cf_total_votes := Some (total_votes m);
     cf_last_updated := true;
     cf_votes_per_tab := votes_per_tab m |}.

(** [_save_vote_counter] called at [now], its write ending as [w]: the
    [except] of lines 113-114 logs, and the call returns in every case. *)
Definition _save_vote_counter_when (w : write) (now : datetime) (m : manager) : manager :=
  set_vote_counter_json (file_after w (vote_counter_json m) (vote_counter_to_save m)) m.

(** [_save_vote_counter] when the write goes through. *)
Definition _save_vote_counter (now : datetime) (m : manager) : manager :=
  _save_vote_counter_when Written now m.

(** [_load_vote_stats] (lines 116-133). *)
Definition _load_vote_stats (file : option stats) : stats :=
  match file with
  | Some s => s
  | None => {| total_historico := Some 0; sessoes := Some [];
               ultima_atualizacao := None; estatisticas_gerais := None |}
  end.

Definition get_total_historico (s : stats) : Z :=
  match total_historico s with Some t => t | None => 0 end.

Definition get_sessoes (s : stats) : list session_info :=
  match sessoes s with Some l => l | None => [] end.

(** [s.get('data_inicio') == start] *)
Definition same_start (start : string) (s : session_info) : bool :=
  match data_inicio s with
  | Some d => String.eqb d start
  | None => false
  end.

(** Lines 175-178: overwrite the first entry with the same start, then stop. *)
Fixpoint replace_first (start : string) (info : session_info)
  (sessions : list session_info) : list session_info :=
  match sessions with
  | [] => []
  | s :: rest =>
      if same_start start s then info :: rest
      else s :: replace_first start info rest
  end.

(** Lines 167-178. *)
Definition upsert_session (start : string) (info : session_info)
  (sessions : list session_info) : list session_info :=
  if existsb (same_start start) sessions
  then replace_first start info sessions
  else sessions ++ [info].

(** [sessions[-100:]] under the guard [len(sessions) > 100] (lines 181-182). *)
Definition keep_last_100 (sessions : list session_info) : list session_info :=
  if (100 <? length sessions)%nat
  then skipn (length sessions - 100) sessions
  else sessions.

(** [session_info] of lines 154-162. *)
Definition current_session_info (now : datetime) (m : manager) (start : datetime)
  : session_info :=
  {| data_inicio := Some start;
     data_fim := now;
     votos_na_sessao := total_votes m - session_start_votes m;
     votos_por_aba := votes_per_tab m;
     total_ao_final := total_votes m;
     participante := mgr_participant_name m;
     numero_abas := Z.of_nat (length (votes_per_tab m)) |}.

(** The guard of line 153, apart from [self.session_start_time]. *)
Definition session_has_votes (m : manager) : bool :=
  (0 <? total_votes m - session_start_votes m) || (0 <? sum (votes_per_tab m)).

(** The contents that [_save_vote_stats] (lines 135-203) writes to
    [votos_estatisticas.json]. *)
Definition vote_stats_to_save (now : datetime) (m : manager) : stats :=
  let loaded := _load_vote_stats (vote_stats_json m) in
  let per_tab := votes_per_tab m in
  let votes_this_session := total_votes m - session_start_votes m in
  let historico := Z.max (get_total_historico loaded) (total_votes m) in
  let new_sessoes :=
    match session_start_time m with
    | Some start =>
        if session_has_votes m then
          let info := current_session_info now m start in
          Some (keep_last_100 (upsert_session start info (get_sessoes loaded)))
        else sessoes loaded
    | None => sessoes loaded
    end in
  {| total_historico := Some historico;
     sessoes := new_sessoes;
     ultima_atualizacao := Some now;
     estatisticas_gerais :=
       Some {| total_votos_historico := historico;
               total_sessoes :=
                 Z.of_nat (length (match new_sessoes with Some l => l | None => [] end));
               votos_na_sessao_atual := votes_this_session;
               votos_por_aba_atual := per_tab;
               total_votos_atual := total_votes m |} |}.

(** [_save_vote_stats], its write ending as [w]: the [except] of lines
    202-203 logs, and the call returns in every case. *)
Definition _save_vote_stats_when (w : write) (now : datetime) (m : manager) : manager :=
  set_vote_stats_json (file_after w (vote_stats_json m) (vote_stats_to_save now m)) m.

(** [_save_vote_stats] when the write goes through. *)
Definition _save_vote_stats (now : datetime) (m : manager) : manager :=
  _save_vote_stats_when Written now m.

(** [async with self.vote_lock]: entering. A held lock would suspend the
    caller; that is [None] here. The lock is created on first use
    (lines 1059-1060). *)
Definition enter_vote_lock (m : manager) : option manager :=
  match vote_lock m with
  | Some true => None
  | _ => Some (set_vote_lock (Some true) m)
  end.

(** [async with self.vote_lock]: leaving. *)
Definition leave_vote_lock (m : manager) : manager := set_vote_lock (Some false) m.

(** The block under the lock in [_on_vote_completed] (lines 1063-1093),
    the two writes ending as [counter_write] and [stats_write]. *)
Definition on_vote_completed_locked_when (counter_write stats_write : write)
  (now : datetime) (m : manager) : manager :=
  let calculated_total := sum (votes_per_tab m) in
  let m1 := set_total_votes calculated_total m in
  let m2 := _save_vote_counter_when counter_write now m1 in
  _save_vote_stats_when stats_write now m2.

(** [_on_vote_completed] (lines 1051-1093), the two writes ending as
    [counter_write] and [stats_write]. *)
Definition _on_vote_completed_when (counter_write stats_write : write)
  (tab_number : Z) (now : datetime) (m : manager) : option manager :=
  match enter_vote_lock m with
  | Some locked =>
      Some (leave_vote_lock
              (on_vote_completed_locked_when counter_write stats_write now locked))
  | None => None
  end.

(** The same when both writes go through. *)
Definition on_vote_completed_locked (now : datetime) (m : manager) : manager :=
  let calculated_total := sum (votes_per_tab m) in
  let m1 := set_total_votes calculated_total m in
  let m2 := _save_vote_counter now m1 in
  _save_vote_stats now m2.

Definition _on_vote_completed (tab_number : Z) (now : datetime) (m : manager)
  : option manager :=
  match enter_vote_lock m with
  | Some locked => Some (leave_vote_lock (on_vote_completed_locked now locked))
  | None => None
  end.

(** The bots that [initialize] creates (lines 629-646): tabs 1..num_tabs. *)
Fixpoint initial_bots (name : string) (first : Z) (num_tabs : nat) : list bot :=
  match num_tabs with
  | O => []
  | S n => new_bot name first :: initial_bots name (first + 1) n
  end.

(** [__init__] followed by [initialize]: the counter is seeded from
    [vote_counter.json] (line 59), every tab starts at zero. *)
Definition init (name : string) (num_tabs : nat)
  (counter : option counter_file) (statistics : option stats) : manager :=
  {| mgr_participant_name := name;
     bots := initial_bots name 1 num_tabs;
     total_votes := _load_vote_counter counter;
     vote_lock := None;
     session_start_time := None;
     session_start_votes := 0;
     vote_counter_json := counter;
     vote_stats_json := statistics |}.

(** The first lines of [start_voting] (lines 661-662). *)
Definition start_session (now : datetime) (m : manager) : manager :=
  set_session (Some now) (total_votes m) m.

End BrowserManager.

(** ** [bot.py]: [run_vote_loop], one pass of its [while True] body

    The bot is an entry of the manager's [bots] list, and the completion
    callback is the manager's [_on_vote_completed]; both live in the same
    [manager] value here, so that the callback reads the count the loop
    has just written. *)

Module VoteLoop.
Import Dom Bot BrowserManager.

(** The local variable [state]: it is not assigned before the loop. *)
Inductive local_state :=
| Unbound
| Bound (s : option PageState).

Record locals := {
  consecutive_errors : Z;
  state : local_state
}.

(** Locals on entry to [run_vote_loop] (lines 574-575). *)
Definition initial_locals : locals := {| consecutive_errors := 0; state := Unbound |}.

Definition max_consecutive_errors : Z := 5.

(** What one pass observes of the outside world. *)
Record iteration_env := {
  url_on_entry : string;       (* self.page.url at line 582 *)
  tabs_on_vote_page : bool;    (* check_all_tabs_on_vote_page() at line 595 *)
  page_on_detect : page;       (* the page read by detect_page_state at line 615 *)
  vote_succeeds : bool;        (* self.vote() at line 629 *)
  callback_time : datetime;    (* datetime.now() inside the callback *)
  page_on_click : page         (* the page read by click_vote_again at line 652 *)
}.

Definition login_urls : list string :=
  [ "authx.globoid.globo.com"; "accounts.google.com"; "goidc.globo.com" ].

Inductive control := Continue | Break.

Record outcome := {
  next_manager : manager;
  next_locals : locals;
  next_control : control;
  acted_on : option PageState;  (* the state dispatched on at lines 622-742 *)
  counted : bool                (* the pass ran the counting block, lines 640-646 *)
}.

(** [self.bots[i] = b] *)
Definition put_bot (i : nat) (b : bot) (m : manager) : manager :=
  set_bots (<[i := b]> (bots m)) m.

(** Lines 580-601. [None] is the [continue] of line 598. *)
Definition check_page (b : bot) (env : iteration_env) (lv : locals) : option local_state :=
  if has_browser_manager b then
    if Str.any_in login_urls (Str.lower (url_on_entry env))
    then Some (Bound (Some STATE_LOGIN_REQUIRED))
    else if negb (tabs_on_vote_page env) then None
    else Some (Bound None)
  else Some (state lv).

(** Lines 636-660, for the bot at index [i]. [None] when the callback
    would have to wait for the lock. *)
Definition on_confirmation (i : nat) (b : bot) (env : iteration_env) (m : manager)
  : option manager :=
  after_count <~~
    (if last_confirmation_detected b then Some (b, m)
     else
       let b1 := set_last_confirmation_detected true
                   (set_vote_count (vote_count b + 1) b) in
       let m1 := put_bot i b1 m in
       if has_vote_callback b1
       then option_map (fun m2 => (b1, m2))
                       (_on_vote_completed (tab_number b1) (callback_time env) m1)
       else Some (b1, m1)) ;;
  let '(b2, m2) := after_count in
  if click_vote_again (page_on_click env)
  then Some (put_bot i (set_last_confirmation_detected false b2) m2)
  else Some m2.

(** Lines 713-732, the counter only. *)
Definition on_error (consecutive : Z) : Z :=
  let c := consecutive + 1 in
  if max_consecutive_errors <=? c then 0 else c.

(** One pass of the body of [while True] (lines 578-752) for the bot at
    index [i] of [self.bots]. [None]: no such bot, or the callback would
    have to wait. *)
Definition run_iteration (i : nat) (max_votes : Z) (env : iteration_env)
  (m : manager) (lv : locals) : option outcome :=
  b <~~ bots m !! i ;;
  match check_page b env lv with
  | None =>
      Some {| next_manager := m; next_locals := lv;
              next_control := Continue; acted_on := None; counted := false |}
  | Some Unbound =>
      (* [state] is read before assignment: the [except] of line 750 *)
      Some {| next_manager := m; next_locals := lv;
              next_control := Continue; acted_on := None; counted := false |}
  | Some (Bound s0) =>
      let lv0 := {| consecutive_errors := consecutive_errors lv; state := Bound s0 |} in
      let login := match s0 with Some STATE_LOGIN_REQUIRED => true | _ => false end in
      if negb login && (0 <? max_votes) && (max_votes <=? vote_count b)
      then Some {| next_manager := m; next_locals := lv0;
                   next_control := Break; acted_on := None; counted := false |}
      else
        let s := match s0 with
                 | Some s => s
                 | None => detect_page_state (page_on_detect env) (participant_name b)
                 end in
        let errors := if PageState_eqb s STATE_ERROR then consecutive_errors lv else 0 in
        let finish m' errors' :=
          {| next_manager := m';
             next_locals := {| consecutive_errors := errors'; state := Bound (Some s) |};
             next_control := Continue; acted_on := Some s;
             counted := PageState_eqb s STATE_CONFIRMATION
                        && negb (last_confirmation_detected b) |} in
        match s with
        | STATE_VOTING =>
            let b1 := if last_confirmation_detected b
                      then set_last_confirmation_detected false b else b in
            Some (finish (put_bot i b1 m) errors)
        | STATE_CONFIRMATION =>
            option_map (fun m' => finish m' errors) (on_confirmation i b env m)
        | STATE_LOGIN_REQUIRED => Some (finish m errors)
        | STATE_ERROR => Some (finish m (on_error errors))
        | STATE_UNKNOWN => Some (finish m errors)
        end
  end.

(** Consecutive passes of one bot, one environment per pass, until the
    [break] of line 611. The outcomes are listed oldest first. *)
Fixpoint run_iterations (i : nat) (max_votes : Z) (envs : list iteration_env)
  (m : manager) (lv : locals) : option (list outcome) :=
  match envs with
  | [] => Some []
  | env :: rest =>
      o <~~ run_iteration i max_votes env m lv ;;
      match next_control o with
      | Break => Some [o]
      | Continue =>
          option_map (cons o)
            (run_iterations i max_votes rest (next_manager o) (next_locals o))
      end
  end.

End VoteLoop.

(** ** [captcha_handler.py]: [wait_for_captcha_solution]

    The page changes while the wait runs, so each pass of the loop has its
    own observation. Time is the event-loop clock in milliseconds. *)

Module CaptchaHandler.

(** What one pass of the loop reads from the page. *)
Record poll := {
  (* query_selector('iframe[title*="hCaptcha"]') and bounding_box()['height'],
     lines 547-550 *)
  frame_height : result (option (option Z));
  (* page.bring_to_front() in _focus_tab_for_manual_solution, line 492 *)
  bring_to_front : result unit;
  (* query_selector('textarea[name="h-captcha-response"]') and input_value() *)
  textarea_by_name : result (option (result string));
  (* query_selector_all('textarea[id*="h-captcha-response"]'), input_value() of each *)
  textareas_by_id : result (list (result string));
  (* query_selector_all('iframe[data-hcaptcha-widget-id]'),
     get_attribute('data-hcaptcha-response') of each *)
  widget_responses : result (list (result (option string)));
  (* inner_text('body') at line 596 *)
  body_text_first : result string;
  (* query_selector('iframe[title*="hCaptcha"]') and is_visible(), lines 604-606 *)
  title_frame_visible : result (option (result bool));
  (* inner_text('body') at line 611, after the pause of line 610 *)
  body_text_after_pause : result string;
  (* time the pass spends outside its own sleeps: driver calls, scheduling *)
  probe_ms : Z
}.

Definition second : Z := 1000.
Definition half_second : Z := 500.

(** [value and len(value) > 0] *)
Definition is_token (value : string) : bool := Str.truthy value.

Definition is_token_opt (value : option string) : bool :=
  match value with
  | Some v => is_token v
  | None => false
  end.

(** Lines 571-579 and 583-591: a value whose read raises is skipped. *)
Definition any_token {A} (test : A -> bool) (values : list (result A)) : bool :=
  existsb (fun v => catch (x <~ v ;; Ok (test x)) false) values.

(** Lines 595-601. *)
Definition success_text_first (o : poll) : bool :=
  catch (page_text <~ body_text_first o ;;
         Ok (Str.contains "Seu voto" page_text
             || Str.contains "seu voto foi registrado" (Str.lower page_text)))
        false.

(** Lines 609-616, after the pause. *)
Definition success_text_after_pause (o : poll) : bool :=
  catch (page_text <~ body_text_after_pause o ;; Ok (Str.contains "Seu voto" page_text))
        false.

(** The body of the [try] of lines 558-616: whether the pass returns
    [True], and the time it sleeps while deciding. *)
Definition check_solution (o : poll) : result (bool * Z) :=
  textarea <~ textarea_by_name o ;;
  by_name <~ match textarea with
             | Some value => v <~ value ;; Ok (is_token v)
             | None => Ok false
             end ;;
  if by_name then Ok (true, second)
  else
    textareas <~ textareas_by_id o ;;
    if any_token is_token textareas then Ok (true, second)
    else
      iframes <~ widget_responses o ;;
      if any_token is_token_opt iframes then Ok (true, second)
      else if success_text_first o then Ok (true, 0)
      else
        captcha_iframe <~ title_frame_visible o ;;
        match captcha_iframe with
        | Some visible =>
            is_visible <~ visible ;;
            if is_visible then Ok (false, 0)
            else Ok (success_text_after_pause o, second)
        | None => Ok (false, 0)
        end.

(** [_focus_tab_for_manual_solution] (lines 482-518): the time it sleeps.
    Its body is one [try]: when [bring_to_front] raises, the sleep of
    line 509 is skipped; the scroll in between is guarded on its own. *)
Definition focus_sleep (o : poll) : Z :=
  match bring_to_front o with
  | Ok _ => half_second
  | Raise => 0
  end.

(** The test of lines 548-550: the gate frame is there, it has a box and
    the box is taller than 200. A query or a box that raises is no find. *)
Definition sees_challenge (o : poll) : bool :=
  match frame_height o with
  | Ok (Some (Some height)) => 200 <? height
  | _ => false
  end.

(** Lines 545-555: [challenge_focused] after the pass, and the time slept
    while focusing the tab. *)
Definition focus_check (challenge_focused : bool) (o : poll) : bool * Z :=
  if challenge_focused then (true, 0)
  else if sees_challenge o then (true, focus_sleep o)
  else (false, 0).

(** [wait_for_captcha_solution] (lines 520-628). [polls k] is what pass [k]
    reads; [elapsed] is the clock reading since [start_time]. The result is
    the returned value and the clock reading at the return; [None] when the
    fuel runs out first. *)
Fixpoint wait_loop (fuel : nat) (timeout_ms : Z) (polls : nat -> poll)
  (k : nat) (elapsed : Z) (challenge_focused : bool) : option (bool * Z) :=
  match fuel with
  | O => None
  | S fuel' =>
      if timeout_ms <? elapsed then Some (false, elapsed)
      else
        let o := polls k in
        let '(focused, focus_slept) := focus_check challenge_focused o in
        let '(resolved, slept) := catch (check_solution o) (false, 0) in
        if resolved then Some (true, elapsed + probe_ms o + focus_slept + slept)
        else wait_loop fuel' timeout_ms polls (S k)
                       (elapsed + probe_ms o + focus_slept + slept + second) focused
  end.

(** [self.timeout] is in seconds. *)
Definition wait_for_captcha_solution (fuel : nat) (timeout : Z) (polls : nat -> poll)
  : option (bool * Z) :=
  wait_loop fuel (timeout * second) polls 0 0 false.

(** A resolution marker in what a pass reads: a non-empty response token,
    the success text, or an invisible gate followed by the success text. *)
Definition has_resolution_marker (o : poll) : bool :=
  match textarea_by_name o with
  | Ok (Some (Ok v)) => is_token v
  | _ => false
  end
  || match textareas_by_id o with
     | Ok values => any_token is_token values
     | Raise => false
     end
  || match widget_responses o with
     | Ok values => any_token is_token_opt values
     | Raise => false
     end
  || success_text_first o
  || match title_frame_visible o with
     | Ok (Some (Ok false)) => success_text_after_pause o
     | _ => false
     end.

(** The longest a pass can take: its driver calls, the sleep of line 509
    while the tab is focused, the pause of line 610, the sleep of line 628. *)
Definition pass_ms (probe_bound : Z) : Z := probe_bound + half_second + second + second.

End CaptchaHandler.

(** ** [bot.py]: locating and clicking the participant's button *)

Module Executor.
Import Dom Bot.

(** [_ensure_element_visible] (lines 52-97). The scroll between the two
    visibility probes may raise; it is guarded twice over (lines 73-87)
    and does not enter the result. *)
Definition _ensure_element_visible (element : option element) : bool :=
  catch (match element with
         | None => Ok false
         | Some e =>
             visible <~ is_visible e ;;
             if negb visible then Ok false
             else
               still_visible <~ is_visible e ;;
               Ok still_visible
         end) false.

(** [page.wait_for_selector(s, state='visible')] on a snapshot that does
    not change during the wait: the first match if it is visible, a
    timeout error otherwise. *)
Definition wait_for_selector_visible (p : page) (s : selector) : result (option element) :=
  found <~ query_selector p s ;;
  match found with
  | Some e =>
      visible <~ is_visible e ;;
      if visible then Ok (Some e) else Raise
  | None => Raise
  end.

(** The test every stage applies to its candidate (lines 325-334):
    visible, then enabled. *)
Definition accept (button : element) : result (option element) :=
  if _ensure_element_visible (Some button) then
    is_enabled <~ is_enabled button ;;
    Ok (if is_enabled then Some button else None)
  else Ok None.

(** Lines 317-338 and 341-357: explicit wait on a label selector. *)
Definition find_by_label (p : page) (s : selector) : option element :=
  catch (button <~ wait_for_selector_visible p s ;;
         match button with
         | Some b => accept b
         | None => Ok None
         end) None.

(** The loop of lines 364-374: [except: continue] per button. *)
Fixpoint scan_buttons_by_text (name : string) (buttons : list element) : option element :=
  match buttons with
  | [] => None
  | button :: rest =>
      match catch (text_content <~ inner_text button ;;
                   if Str.contains (Str.lower name) (Str.lower text_content)
                   then accept button
                   else Ok None) None with
      | Some b => Some b
      | None => scan_buttons_by_text name rest
      end
  end.

(** Lines 360-376. *)
Definition find_by_text (p : page) (name : string) : option element :=
  catch (buttons <~ query_selector_all p sel_button ;;
         Ok (scan_buttons_by_text name buttons)) None.

(** Lines 379-390. [xpath_hit] is what
    [query_selector('xpath=//button[contains(., "name")]')] gives. *)
Definition find_by_xpath (xpath_hit : result (option element)) : option element :=
  catch (button <~ xpath_hit ;;
         match button with
         | Some b => accept b
         | None => Ok None
         end) None.

(** [find_participant_button] (lines 305-400). *)
Definition find_participant_button (p : page) (name : string)
  (xpath_hit : result (option element)) : option element :=
  match find_by_label p (sel_button_label_exact name) with
  | Some b => Some b
  | None =>
      match find_by_label p (sel_button_label_contains name) with
      | Some b => Some b
      | None =>
          match find_by_text p name with
          | Some b => Some b
          | None => find_by_xpath xpath_hit
          end
      end
  end.

(** The wait for a login inside [run_vote_loop] (lines 672-711). *)
Definition max_wait_login : Z := 300.
Definition wait_interval : Z := 3.

Record login_check := {
  new_state : PageState;      (* detect_page_state() at line 681 *)
  back_on_vote_page : bool    (* check_all_tabs_on_vote_page() at line 686 *)
}.

(** The [while waited_time < max_wait_login] loop; the result is
    [waited_time] when the loop is left. *)
Fixpoint login_wait (fuel : nat) (has_manager : bool) (checks : nat -> login_check)
  (k : nat) (waited_time : Z) : option Z :=
  match fuel with
  | O => None
  | S fuel' =>
      if waited_time <? max_wait_login then
        let waited := waited_time + wait_interval in
        let c := checks k in
        if PageState_eqb (new_state c) STATE_LOGIN_REQUIRED
        then login_wait fuel' has_manager checks (S k) waited
        else if has_manager then
               if back_on_vote_page c then Some waited
               else login_wait fuel' has_manager checks (S k) waited
             else Some waited
      else Some waited_time
  end.

End Executor.

(** ** [browser_manager.py]: statistics log, tabs, accounts *)

Module Fleet.
Import Bot BrowserManager.



(** [s.split('?')[0]] *)
Fixpoint before_query (s : string) : string :=
  match s with
  | EmptyString => EmptyString
  | String c r => if Ascii.eqb c "?" then EmptyString else String c (before_query r)
  end.

(** The indicators of lines 524-530. *)
Definition tab_login_indicators : list string :=
  [ "authx.globoid.globo.com"; "accounts.google.com"; "goidc.globo.com";
    "/login"; "login-callback" ].

(** The body of the loop of lines 533-553 for one tab. *)
Definition tab_on_vote_page (expected_vote_url current_url : string) : bool :=
  if existsb (fun login_indicator =>
                Str.contains (Str.lower login_indicator) (Str.lower current_url))
             tab_login_indicators
  then false
  else
    let expected_base := before_query expected_vote_url in
    let current_base := before_query current_url in
    negb (negb (Str.contains expected_base current_base)
          && negb (Str.contains current_base expected_base)).

(** [check_all_tabs_on_vote_page] (lines 509-559), on the URLs of
    [self.pages]. *)
Definition check_all_tabs_on_vote_page (expected_vote_url : string) (urls : list string)
  : bool :=
  match urls with
  | [] => false
  | _ => forallb (tab_on_vote_page expected_vote_url) urls
  end.

(** The state of the task that runs a bot's loop. *)
Inductive task := Running | Done.

(** [self.expected_vote_url in page.url.lower()] (lines 394-395, 455-456). *)
Definition on_expected_url (expected_vote_url current_url : string) : bool :=
  Str.contains expected_vote_url (Str.lower current_url).

(** The body of the loop of [_recover_stopped_tabs] for one bot (lines
    390-410): the bot's task afterwards. *)
Definition recover_tab (expected_vote_url : string) (current_url : string)
  (t : option task) : option task :=
  if on_expected_url expected_vote_url current_url then
    match t with
    | Some Done => Some Running
    | _ => t
    end
  else t.

(** [_recover_stopped_tabs] (lines 378-435): [bot_tasks_map] afterwards,
    as a list aligned with [self.bots]; [tabs] pairs each bot's page URL
    with its task. The probe and the reload of lines 421-431 leave both
    untouched. *)
Definition _recover_stopped_tabs (has_context : bool) (expected_vote_url : string)
  (tabs : list (string * option task)) : list (option task) :=
  if negb has_context || match tabs with [] => true | _ => false end
  then map snd tabs
  else map (fun tab => recover_tab expected_vote_url (fst tab) (snd tab)) tabs.

(** [s.replace(old, new)] for a one-character [old]. *)
Fixpoint replace_char (old : ascii) (new : string) (s : string) : string :=
  match s with
  | EmptyString => EmptyString
  | String c r =>
      if Ascii.eqb c old then String.append new (replace_char old new r)
      else String c (replace_char old new r)
  end.

(** Line 223. *)
Definition safe_email (email : string) : string :=
  replace_char "." "_" (replace_char "@" "_at_" email).

Definition accounts_dir : string := "google_accounts".

(** [_get_account_filename] (lines 212-224); [path_join] is
    [os.path.join] of the platform. *)
Definition _get_account_filename (path_join : string -> string -> string)
  (email : string) : string :=
  path_join accounts_dir (String.append (safe_email email) ".json").

(** One entry of ['accounts'] in [google_accounts.json]. *)
Record account_info := {
  acc_email : option string;
  acc_last_used : string;
  acc_file : string
}.

(** [google_accounts.json]; the key may be missing. *)
Record accounts_index := {
  accounts : option (list account_info)
}.

(** [_load_accounts_index] (lines 226-239). *)
Definition _load_accounts_index (file : option accounts_index) : accounts_index :=
  match file with
  | Some idx => idx
  | None => {| accounts := Some [] |}
  end.

Definition get_accounts (idx : accounts_index) : list account_info :=
  match accounts idx with Some l => l | None => [] end.

(** [list_saved_accounts] (lines 950-958). *)
Definition list_saved_accounts (file : option accounts_index) : list account_info :=
  get_accounts (_load_accounts_index file).

(** [acc.get('email') == account_email] *)
Definition same_email (account_email : string) (acc : account_info) : bool :=
  match acc_email acc with
  | Some e => String.eqb e account_email
  | None => false
  end.

(** Lines 868-872: overwrite the first entry with that email, then stop. *)
Fixpoint replace_first_account (account_email : string) (info : account_info)
  (l : list account_info) : list account_info :=
  match l with
  | [] => []
  | acc :: rest =>
      if same_email account_email acc then info :: rest
      else acc :: replace_first_account account_email info rest
  end.

(** Lines 866-877. *)
Definition update_accounts_index (account_email : string) (info : account_info)
  (idx : accounts_index) : accounts_index :=
  if existsb (same_email account_email) (get_accounts idx)
  then {| accounts := Some (replace_first_account account_email info (get_accounts idx)) |}
  else {| accounts := Some (get_accounts idx ++ [info]) |}.

(** What a call of [save_auth_cache] meets. *)
Record auth_env := {
  has_context : bool;               (* self.context is set *)
  detected_email : option string;   (* _detect_account_email(), which never raises *)
  storage_state_raises : bool;      (* context.storage_state(path=...) *)
  index_write : write;              (* the write in _save_accounts_index *)
  auth_now : string                 (* datetime.now().isoformat() *)
}.

Record auth_saved := {
  saved_ok : bool;                           (* the value returned *)
  index_after : option accounts_index;       (* google_accounts.json afterwards *)
  current_account_email : option string      (* self.current_account_email afterwards *)
}.

(** Truth value of an optional string: [None] and the empty string are falsy. *)
Definition truthy_opt (s : option string) : option string :=
  match s with
  | Some e => if Str.truthy e then Some e else None
  | None => None
  end.

(** [save_auth_cache] (lines 840-903). [_save_accounts_index] (lines
    241-252) catches a failing write itself and logs it, so the lines after
    it run all the same. *)
Definition save_auth_cache (path_join : string -> string -> string) (env : auth_env)
  (account_email : option string) (index_file : option accounts_index)
  (current : option string) : auth_saved :=
  let unchanged ok :=
    {| saved_ok := ok; index_after := index_file; current_account_email := current |} in
  if negb (has_context env) then unchanged false
  else
    let email := match truthy_opt account_email with
                 | Some e => Some e
                 | None => detected_email env
                 end in
    match truthy_opt email with
    | Some e =>
        if storage_state_raises env then unchanged false
        else
          let info := {| acc_email := Some e;
                         acc_last_used := auth_now env;
                         acc_file := _get_account_filename path_join e |} in
          {| saved_ok := true;
             index_after :=
               file_after (index_write env) index_file
                 (update_accounts_index e info (_load_accounts_index index_file));
             current_account_email := Some e |}
    | None =>
        if storage_state_raises env then unchanged false else unchanged true
    end.

End Fleet.

(** ** [captcha_handler.py]: [is_captcha_resolved] *)

Module CaptchaCheck.
Import CaptchaHandler.



End CaptchaCheck.

(** ** [image_recognition.py]: challenge type and grid selection *)

Module ImageRecognition.

Definition mouse_patterns : list string :=
  [ "itens comumente usados com o item mostrado"; "itens comumente usados";
    "mouse"; "teclado"; "computador" ].

Definition passarinho_patterns : list string :=
  [ "criaturas que poderiam se abrigar"; "criaturas que poderiam";
    "passarinho"; "pássaro"; "ave"; "bird" ].

(** [detect_challenge_type] (lines 99-143). *)
Definition detect_challenge_type (page_text : string) : option string :=
  let page_text_lower := Str.lower page_text in
  if Str.any_in mouse_patterns page_text_lower then Some "mouse"
  else if Str.any_in passarinho_patterns page_text_lower then Some "passarinho"
  else None.

(** The detectors of one challenge type, applied to an image: the model
    and the OpenCV heuristics behind them are outside this development;
    a call may raise. *)
Record detectors (image : Type) := {
  detect_positive : image -> result bool;
  detect_negative : image -> result bool
}.
Arguments detect_positive {image} d.
Arguments detect_negative {image} d.

(** The loop of lines 402-415, from index [i] on. *)
Fixpoint select_images {image : Type} (d : detectors image) (i : Z) (images : list image)
  : list Z :=
  match images with
  | [] => []
  | image_array :: rest =>
      match catch (negative <~ detect_negative d image_array ;;
                   if negative then Ok false
                   else detect_positive d image_array) false with
      | true => i :: select_images d (i + 1) rest
      | false => select_images d (i + 1) rest
      end
  end.

(** [process_image_grid] (lines 379-418); [mouse] and [passarinho] are
    the two pairs of detectors chosen at lines 393-398. *)
Definition process_image_grid {image : Type} (mouse passarinho : detectors image)
  (images : list image) (challenge_type : string) : list Z :=
  if String.eqb challenge_type "mouse" then select_images mouse 0 images
  else if String.eqb challenge_type "passarinho" then select_images passarinho 0 images
  else [].

End ImageRecognition.

(** ** Notions used to state further properties *)

Module Notions.
Import Bot BrowserManager VoteLoop Executor.

(** A check of the login wait that ends the wait (lines 683-701). *)
Definition login_resolved (has_manager : bool) (c : login_check) : bool :=
  negb (PageState_eqb (new_state c) STATE_LOGIN_REQUIRED)
  && (negb has_manager || back_on_vote_page c).

(** The URL shows one of the login providers the loop looks for. *)
Definition on_login_url (current_url : string) : bool :=
  Str.any_in login_urls (Str.lower current_url).

(** The characters of a string. *)
Fixpoint chars (s : string) : list ascii :=
  match s with
  | EmptyString => []
  | String c r => c :: chars r
  end.

(** An upper-case letter A-Z. *)
Definition is_upper (c : ascii) : bool :=
  let n := nat_of_ascii c in (Nat.leb 65 n && Nat.leb n 90)%bool.

(** A character that cannot stand as it is between the double quotes of
    a CSS string: the quote, the backslash, a line break (LF, FF, CR) and
    NUL. *)
Definition css_special (c : ascii) : bool :=
  existsb (Nat.eqb (nat_of_ascii c)) [ 34; 92; 10; 12; 13; 0 ]%nat.

(** The name can be pasted into [button[aria-label="..."]] as it is: the
    selector then asks for exactly this attribute value. For other names
    the pasted text is another selector, or none, which the development
    does not follow; statements about what the exact-label query matches
    assume a plain name. *)
Definition css_plain (name : string) : bool :=
  forallb (fun c => negb (css_special c)) (chars name).

End Notions.

(** ** What the claims speak of, in the words of the specification *)

Module Spec.
Import Dom Bot.

(** The URL matches a login-provider pattern. *)
Definition url_has_login_pattern (p : page) : Prop :=
  exists indicator, In indicator login_indicators
    /\ Str.contains (Str.lower indicator) (Str.lower (url p)) = true.

(** The visible text matches a login-provider pattern. *)
Definition text_has_login_pattern (p : page) : Prop :=
  exists page_text keyword, body_text p = Ok page_text
    /\ In keyword login_keywords
    /\ Str.contains keyword (Str.lower page_text) = true.

(** [b] is a button whose accessible label contains [name]. *)
Definition label_matches (name : string) (b : element) : Prop :=
  e_tag b = "button"
  /\ exists l, assoc "aria-label" (e_attrs b) = Some l /\ Str.contains name l = true.

(** [b] is a button whose accessible label is exactly [name]. *)
Definition label_is (name : string) (b : element) : Prop :=
  e_tag b = "button" /\ assoc "aria-label" (e_attrs b) = Some name.

(** The snapshot shows a voting control for [name]. *)
Definition has_visible_voting_control (p : page) (name : string) : Prop :=
  exists b, In b (dom p) /\ label_matches name b /\ is_visible b = Ok true.

(** No probe of the element raises. *)
Definition calm (e : element) : Prop :=
  (exists v, is_visible e = Ok v) /\ (exists t, inner_text e = Ok t)
  /\ get_attribute_raises e = false.

(** No driver call on the snapshot raises. *)
Definition quiet (p : page) : Prop :=
  (forall s, query_raises p s = false)
  /\ (exists t, body_text p = Ok t)
  /\ Forall calm (dom p).

(** None of the tests placed before the voting test matches: no login,
    error or confirmation marker is seen. *)
Definition no_earlier_match (p : page) : Prop :=
  login_url_test p = false
  /\ login_text_test p <> Ok true
  /\ error_test p <> Ok true
  /\ confirmation_text_test p <> Ok true
  /\ confirmation_button_test p = false.

(** A visible element that carries an error class or id, or a visible
    heading, shows one of the error messages. *)
Definition shows_error (p : page) : Prop :=
  exists e t keyword, In e (dom p)
    /\ (matches sel_error e = true \/ matches sel_headings e = true)
    /\ is_visible e = Ok true /\ inner_text e = Ok t
    /\ In keyword error_keywords /\ Str.contains keyword (Str.lower t) = true.

(** A visible [h1] or success-class element speaks of "your vote". *)
Definition shows_confirmation_text (p : page) : Prop :=
  exists e t, In e (dom p) /\ matches sel_confirmation e = true
    /\ is_visible e = Ok true /\ inner_text e = Ok t
    /\ (Str.contains "Seu voto" t = true \/ Str.contains "seu voto" (Str.lower t) = true).

(** A button labelled "vote again" is visible. *)
Definition shows_vote_again_button (p : page) : Prop :=
  exists s b, In s confirmation_selectors /\ In b (dom p)
    /\ matches s b = true /\ is_visible b = Ok true.

(** A visible [h1] asks whom to vote out. *)
Definition shows_voting_heading (p : page) : Prop :=
  exists h t, In h (dom p) /\ e_tag h = "h1"
    /\ is_visible h = Ok true /\ inner_text h = Ok t
    /\ Str.contains "quem você quer eliminar" (Str.lower t) = true.

(** The snapshot shows no login, error or confirmation marker. *)
Definition no_markers (p : page) : Prop :=
  ~ url_has_login_pattern p /\ ~ text_has_login_pattern p
  /\ ~ shows_error p /\ ~ shows_confirmation_text p /\ ~ shows_vote_again_button p.

(** The guarded tests of the classifier in priority order, each with the
    state it stands for. *)
Definition guarded_tests (p : page) (name : string) : list (result bool * PageState) :=
  [ (Ok (login_url_test p), STATE_LOGIN_REQUIRED);
    (login_text_test p, STATE_LOGIN_REQUIRED);
    (error_test p, STATE_ERROR);
    (confirmation_text_test p, STATE_CONFIRMATION) ]
  ++ map (fun s => (vote_again_visible p s, STATE_CONFIRMATION)) confirmation_selectors
  ++ [ (voting_test p name, STATE_VOTING) ].

(** First match wins; a test that raises counts as no match; no match at
    all is [STATE_UNKNOWN]. *)
Fixpoint first_match (tests : list (result bool * PageState)) : PageState :=
  match tests with
  | [] => STATE_UNKNOWN
  | (r, s) :: rest => if catch r false then s else first_match rest
  end.

(** [b] is what one of the three stages of [click_vote_again] looks for. *)
Definition vote_again_candidate (b : element) : Prop :=
  (exists s, In s vote_again_selectors /\ matches s b = true)
  \/ (exists t, inner_text b = Ok t
        /\ Str.contains "votar" (Str.lower t) = true
        /\ Str.contains "novamente" (Str.lower t) = true)
  \/ matches sel_vote_again_xpath b = true.

(** The text of a button reads "votar ... novamente", letter case aside. *)
Definition reads_vote_again (b : element) : Prop :=
  exists t, inner_text b = Ok t
    /\ Str.contains "votar" (Str.lower t) = true
    /\ Str.contains "novamente" (Str.lower t) = true.

(** The text of a button can be read and does not read "votar ...
    novamente". *)
Definition reads_something_else (b : element) : Prop :=
  exists t, inner_text b = Ok t
    /\ Str.contains "votar" (Str.lower t) && Str.contains "novamente" (Str.lower t) = false.

(** The element is probed visible and enabled. *)
Definition visible_and_enabled (b : element) : Prop :=
  is_visible b = Ok true /\ is_enabled b = Ok true.

End Spec.

Module FleetSpec.
Import Bot BrowserManager VoteLoop.

(** Nobody holds the vote lock. *)
Definition lock_free (m : manager) : Prop := vote_lock m <> Some true.

(** [sum(bot.vote_count for bot in self.bots)] *)
Definition sum_of_vote_counts (m : manager) : Z := sum (map vote_count (bots m)).

(** What the workers do to the shared counters, in the order it happens. *)
Inductive event :=
| Counted (i : nat)                       (* bot [i] runs line 640 of its loop *)
| Completed (tab : Z) (now : datetime).   (* [_on_vote_completed(tab)] runs and returns *)

(** [self.vote_count += 1] in the bot at index [i]. *)
Definition count_vote (i : nat) (m : manager) : manager :=
  match bots m !! i with
  | Some b => put_bot i (set_vote_count (vote_count b + 1) b) m
  | None => m
  end.

(** The manager as it is right after each return of the completion
    handler, oldest first. [None] if some call would have to wait. *)
Fixpoint after_completions (events : list event) (m : manager) : option (list manager) :=
  match events with
  | [] => Some []
  | Counted i :: rest => after_completions rest (count_vote i m)
  | Completed tab now :: rest =>
      m' <~~ _on_vote_completed tab now m ;;
      option_map (cons m') (after_completions rest m')
  end.

Definition is_completion (e : event) : bool :=
  match e with
  | Completed _ _ => true
  | Counted _ => false
  end.

(** The historical maximum that a statistics file holds: zero when there
    is no readable file or the file has no such entry. *)
Definition persisted_historico (file : option stats) : Z :=
  match file with
  | Some s => match total_historico s with Some t => t | None => 0 end
  | None => 0
  end.

(** The session records that a statistics file holds, oldest first. *)
Definition persisted_sessions (file : option stats) : list session_info :=
  match file with
  | Some s => match sessoes s with Some l => l | None => [] end
  | None => []
  end.

(** The [n] most recent entries of a list kept oldest first. *)
Definition most_recent {A} (n : nat) (l : list A) : list A := skipn (length l - n) l.

(** [put_in start info before after]: [after] is [before] with the record
    [info] put in, in the place of the first record that starts at
    [start], or at the end when no record starts there. *)
Inductive put_in (start : string) (info : session_info)
  : list session_info -> list session_info -> Prop :=
| put_in_place (l1 l2 : list session_info) (old : session_info) :
    Forall (fun x => data_inicio x <> Some start) l1 ->
    data_inicio old = Some start ->
    put_in start info (l1 ++ old :: l2) (l1 ++ info :: l2)
| put_at_end (l : list session_info) :
    Forall (fun x => data_inicio x <> Some start) l ->
    put_in start info l (l ++ [info]).

(** At most 100 session records, no start timestamp twice. *)
Definition within_bounds (l : list session_info) : Prop :=
  (length l <= 100)%nat /\ NoDup (map data_inicio l).

(** The session has started at [start] and has votes to show: the guard
    of line 153. *)
Definition session_to_record (m : manager) (start : string) : Prop :=
  session_start_time m = Some start
  /\ (0 < total_votes m - session_start_votes m \/ 0 < sum_of_vote_counts m).

(** [votos_estatisticas.json] after a series of calls of
    [_save_vote_stats], each made with the manager as it is at that
    moment and with its own end of the write, oldest first. *)
Fixpoint file_after_saves (saves : list (write * datetime * manager)) (file : option stats)
  : option stats :=
  match saves with
  | [] => file
  | (w, now, m) :: rest =>
      file_after_saves rest
        (vote_stats_json (_save_vote_stats_when w now (set_vote_stats_json file m)))
  end.

(** A pass made in [env] by a bot with a manager reaches the classifier,
    finds the confirmation page, and its [click_vote_again] fails. *)
Definition confirmation_pass (name : string) (env : iteration_env) : Prop :=
  Str.any_in login_urls (Str.lower (url_on_entry env)) = false
  /\ tabs_on_vote_page env = true
  /\ Bot.detect_page_state (page_on_detect env) name = STATE_CONFIRMATION
  /\ Bot.click_vote_again (page_on_click env) = false.

(** How often the counting block ran in a series of passes. *)
Definition times_counted (outs : list outcome) : nat := length (List.filter counted outs).

End FleetSpec.

(** ** Concrete snapshots *)

Module Examples.
Import Dom Bot.

(** A [<button aria-label=label>] with the given visibility and enabled
    state; nothing else stands in the way of a click. *)
Definition button (label : string) (visible enabled : bool) : element :=
  {| e_tag := "button";
     e_attrs := [ ("aria-label", label) ];
     e_text_node := Some label;
     is_visible := Ok visible;
     inner_text := Ok label;
     is_enabled := Ok enabled;
     get_attribute_raises := false;
     click_lands := Ok tt |}.

Definition page_of (address : string) (text : string) (elements : list element) : page :=
  {| url := address;
     body_text := Ok text;
     dom := elements;
     query_raises := fun _ => false |}.

Definition vote_url : string := "https://gshow.globo.com/realities/bbb/votacao/paredao.ghtml".

(** The voting page with an enabled, visible control for Alice. *)
Definition alice_page : page :=
  page_of vote_url "Alice Bruno" [ button "Alice" true true; button "Bruno" true true ].

(** The same control on a login-provider URL. *)
Definition alice_on_login_page : page :=
  page_of "https://accounts.google.com/signin" "Alice" [ button "Alice" true true ].

(** The voting page whose only control for Alice is visible but disabled. *)
Definition disabled_alice_page : page :=
  page_of vote_url "Alice" [ button "Alice" true false ].

(** The confirmation page whose "vote again" button is neither visible
    nor enabled. *)
Definition hidden_vote_again_page : page :=
  page_of vote_url "" [ button "Votar novamente" false false ].

(** The confirmation page: its heading is shown, no "vote again" button
    is in the document yet. *)
Definition heading (text : string) : element :=
  {| e_tag := "h1";
     e_attrs := [];
     e_text_node := Some text;
     is_visible := Ok true;
     inner_text := Ok text;
     is_enabled := Ok true;
     get_attribute_raises := false;
     click_lands := Ok tt |}.

Definition confirmation_page_without_button : page :=
  page_of vote_url "Seu voto foi computado" [ heading "Seu voto foi computado" ].

(** The voting page while the page text cannot be read. *)
Definition alice_page_unreadable : page :=
  {| url := vote_url;
     body_text := Raise;
     dom := [ button "Alice" true true ];
     query_raises := fun _ => false |}.

(** A button that has gone from the document when it is probed:
    [is_visible] raises. *)
Definition detached_button (label : string) : element :=
  {| e_tag := "button";
     e_attrs := [ ("aria-label", label) ];
     e_text_node := Some label;
     is_visible := Raise;
     inner_text := Ok label;
     is_enabled := Raise;
     get_attribute_raises := false;
     click_lands := Raise |}.

(** The voting page under its heading, the control for Alice not shown. *)
Definition heading_and_hidden_alice : page :=
  page_of vote_url "Quem você quer eliminar?"
          [ heading "Quem você quer eliminar?"; button "Alice" false true ].

(** The same page when the probe of that control raises. *)
Definition heading_and_detached_alice : page :=
  page_of vote_url "Quem você quer eliminar?"
          [ heading "Quem você quer eliminar?"; detached_button "Alice" ].

(** The confirmation page with its "vote again" button. *)
Definition vote_again_page : page :=
  page_of vote_url "Seu voto foi computado"
          [ heading "Seu voto foi computado"; button "Votar novamente" true true ].

End Examples.

Module CaptchaExamples.
Import CaptchaHandler.

(** The gate frame is in the page but hidden, no token, no success text;
    the driver answers at once. *)
Definition invisible_gate_poll : poll :=
  {| frame_height := Ok (Some (Some 78));
     bring_to_front := Ok tt;
     textarea_by_name := Ok (Some (Ok ""));
     textareas_by_id := Ok [];
     widget_responses := Ok [ Ok None ];
     body_text_first := Ok "Quem deve ser eliminado?";
     title_frame_visible := Ok (Some (Ok false));
     body_text_after_pause := Ok "Quem deve ser eliminado?";
     probe_ms := 0 |}.

(** The gate is shown and unsolved; reading the token field raises. *)
Definition unsolved_poll : poll :=
  {| frame_height := Ok (Some (Some 600));
     bring_to_front := Ok tt;
     textarea_by_name := Raise;
     textareas_by_id := Ok [ Raise ];
     widget_responses := Ok [];
     body_text_first := Raise;
     title_frame_visible := Ok (Some (Ok true));
     body_text_after_pause := Raise;
     probe_ms := 0 |}.

End CaptchaExamples.

Module FleetExamples.
Import Bot BrowserManager VoteLoop Examples.

(** A pass that finds the confirmation page and cannot click on. *)
Definition confirmation_env : iteration_env :=
  {| url_on_entry := vote_url;
     tabs_on_vote_page := true;
     page_on_detect := confirmation_page_without_button;
     vote_succeeds := false;
     callback_time := "2026-02-03 21:00:07";
     page_on_click := confirmation_page_without_button |}.

(** A pass that finds the voting page. *)
Definition voting_env : iteration_env :=
  {| url_on_entry := vote_url;
     tabs_on_vote_page := true;
     page_on_detect := alice_page;
     vote_succeeds := true;
     callback_time := "2026-02-03 21:00:30";
     page_on_click := alice_page |}.

(** Two tabs, nothing on disk, session started. *)
Definition fresh_manager : manager :=
  start_session "2026-02-03 21:00:00" (init "Alice" 2 None None).

(** [vote_counter.json] holding 40 votes of earlier runs. *)
Definition counter_40 : counter_file :=
  {| cf_total_votes := Some 40;
     cf_last_updated := true;
     cf_votes_per_tab := [ 25; 15 ] |}.

(** Two tabs, the counter seeded with 40, session started. *)
Definition seeded_manager : manager :=
  start_session "2026-02-03 21:00:00" (init "Alice" 2 (Some counter_40) None).

(** A session record of an earlier run. *)
Definition old_session (start : string) : session_info :=
  {| data_inicio := Some start;
     data_fim := "2026-01-01 02:00:00";
     votos_na_sessao := 7;
     votos_por_aba := [ 4; 3 ];
     total_ao_final := 7;
     participante := "Alice";
     numero_abas := 2 |}.

Definition two_digits (k : nat) : string :=
  String (ascii_of_nat (48 + k / 10)) (String (ascii_of_nat (48 + k mod 10)) "").

(** [n] records of earlier runs, one started every second from
    2026-01-01 00:00:00 on. *)
Definition old_sessions (n : nat) : list session_info :=
  map (fun k => old_session
                  (String.append "2026-01-01 00:0"
                     (String.append (String (ascii_of_nat (48 + k / 60)) ":")
                                    (two_digits (k mod 60)))))
      (seq 0 n).

Definition stats_with (sessions : list session_info) : stats :=
  {| total_historico := Some 7;
     sessoes := Some sessions;
     ultima_atualizacao := Some "2026-01-01 02:00:00";
     estatisticas_gerais := None |}.

(** A statistics file in which one record has been pasted 101 times. *)
Definition crowded_stats : stats :=
  stats_with (repeat (old_session "2026-01-01 00:00:00") 101).

(** A statistics file that is full: 100 records, all with their own
    start. *)
Definition full_stats : stats := stats_with (old_sessions 100).

(** The first tab has counted a confirmation and not yet clicked on. *)
Definition counted_bot : bot :=
  set_last_confirmation_detected true (set_vote_count 1 (new_bot "Alice" 1)).

Definition counted_manager : manager :=
  set_total_votes 1 (put_bot 0 counted_bot fresh_manager).

End FleetExamples.

Module MoreExamples.
Import Dom Bot BrowserManager VoteLoop Examples FleetExamples.

(** The page shows an error heading. *)
Definition error_page : page :=
  page_of vote_url "Algo deu errado" [ heading "Algo deu errado" ].

(** A pass that finds the error page. *)
Definition error_env : iteration_env :=
  {| url_on_entry := vote_url;
     tabs_on_vote_page := true;
     page_on_detect := error_page;
     vote_succeeds := false;
     callback_time := "2026-02-03 21:02:00";
     page_on_click := error_page |}.

(** A bot made by hand, without a manager behind it. *)
Definition lone_bot : bot :=
  {| participant_name := "Alice";
     vote_count := 0;
     last_confirmation_detected := false;
     tab_number := 0;
     has_vote_callback := false;
     has_browser_manager := false |}.

Definition lone_bot_manager : manager :=
  set_bots [ lone_bot ] (init "Alice" 0 None None).

(** A browser context is open and its state can be written. *)
Definition auth_ready : Fleet.auth_env :=
  {| Fleet.has_context := true;
     Fleet.detected_email := None;
     Fleet.storage_state_raises := false;
     Fleet.index_write := Written;
     Fleet.auth_now := "2026-02-03T21:10:00" |}.

(** The same while the index cannot be opened for writing. *)
Definition auth_index_locked : Fleet.auth_env :=
  {| Fleet.has_context := true;
     Fleet.detected_email := None;
     Fleet.storage_state_raises := false;
     Fleet.index_write := Refused;
     Fleet.auth_now := "2026-02-03T21:10:00" |}.

(** [os.path.join] with a forward slash. *)
Definition slash_join (a b : string) : string := String.append a (String.append "/" b).

(** An index that lists one account. *)
Definition one_account : Fleet.accounts_index :=
  {| Fleet.accounts :=
       Some [ {| Fleet.acc_email := Some "ana@example.com";
                 Fleet.acc_last_used := "2026-02-01T09:00:00";
                 Fleet.acc_file := "google_accounts/ana_at_example_com.json" |} ] |}.


End MoreExamples.

(** * Properties *)

(** ** Strings and the result monad *)

Lemma prefix_refl (s : string) : String.prefix s s = true.
Proof.
  induction s as [|c s IH]; simpl; [reflexivity|].
  destruct (ascii_dec c c); [exact IH | congruence].
Qed.

Lemma contains_refl (s : string) : Str.contains s s = true.
Proof.
  destruct s as [|c s]; simpl; [reflexivity|].
  rewrite prefix_refl. destruct (ascii_dec c c); [reflexivity | congruence].
Qed.

Lemma truthy_nonempty (s : string) : s <> "" -> Str.truthy s = true.
Proof.
  intros H. unfold Str.truthy.
  destruct (String.eqb_spec s ""); [contradiction | reflexivity].
Qed.

Lemma any_in_true (needles : list string) (hay : string) :
  Str.any_in needles hay = true <->
  exists k, In k needles /\ Str.contains k hay = true.
Proof. unfold Str.any_in. apply existsb_exists. Qed.

(** ** The classifier *)

Section Classifier.
Import Dom Bot Spec.
Variable p : page.
Variable name : string.

Lemma login_url_test_spec : login_url_test p = true <-> url_has_login_pattern p.
Proof. unfold login_url_test, url_has_login_pattern. apply existsb_exists. Qed.

Lemma login_text_test_spec : login_text_test p = Ok true <-> text_has_login_pattern p.
Proof.
  unfold login_text_test, text_has_login_pattern. split.
  - destruct (body_text p) as [t|] eqn:E; cbn [rbind]; [|discriminate].
    intros H.
    assert (H' : Str.any_in login_keywords (Str.lower t) = true) by congruence.
    apply any_in_true in H' as (k & Hk & Hc).
    exists t, k. auto.
  - intros (t & k & E & Hk & Hc). rewrite E. cbn [rbind]. f_equal.
    apply any_in_true. eauto.
Qed.

(** The classifier's control flow is "first match wins" over its guarded
    tests. *)
Lemma detect_body_first_match :
  detect_page_state_body p name = Ok (first_match (guarded_tests p name)).
Proof.
  unfold detect_page_state_body, guarded_tests, confirmation_button_test,
    confirmation_selectors.
  cbn [first_match app map existsb catch].
  destruct (login_url_test p); [reflexivity|].
  destruct (catch (login_text_test p) false); [reflexivity|].
  destruct (catch (error_test p) false); [reflexivity|].
  destruct (catch (confirmation_text_test p) false); [reflexivity|].
  destruct (catch (vote_again_visible p _) false); [reflexivity|].
  destruct (catch (vote_again_visible p _) false); [reflexivity|].
  destruct (catch (vote_again_visible p _) false); [reflexivity|].
  cbn [orb].
  destruct (catch (voting_test p name) false); reflexivity.
Qed.

Lemma detect_first_match :
  detect_page_state p name = first_match (guarded_tests p name).
Proof. unfold detect_page_state. rewrite detect_body_first_match. reflexivity. Qed.

End Classifier.

Lemma first_match_skips_raise (before after : list (result bool * Bot.PageState))
  (st : Bot.PageState) :
  Spec.first_match (before ++ (Raise, st) :: after) = Spec.first_match (before ++ after).
Proof.
  induction before as [|[r s] before IH]; simpl; [reflexivity|].
  destruct (catch r false); [reflexivity | exact IH].
Qed.

Lemma first_match_unknown (tests : list (result bool * Bot.PageState)) :
  Forall (fun t => snd t <> Bot.STATE_UNKNOWN) tests ->
  (Spec.first_match tests = Bot.STATE_UNKNOWN
   <-> Forall (fun t => fst t <> Ok true) tests).
Proof.
  induction 1 as [|[r s] tests Hs _ IH]; simpl.
  - split; auto.
  - destruct r as [[]|]; simpl in *.
    + split; [congruence|]. intros H. inversion H; subst. simpl in *. congruence.
    + rewrite IH. split; intros H; [constructor; [simpl; congruence | exact H]|].
      inversion H; assumption.
    + rewrite IH. split; intros H; [constructor; [simpl; congruence | exact H]|].
      inversion H; assumption.
Qed.

Lemma guarded_tests_states (p : Dom.page) (name : string) :
  Forall (fun t => snd t <> Bot.STATE_UNKNOWN) (Spec.guarded_tests p name).
Proof.
  unfold Spec.guarded_tests, Bot.confirmation_selectors. simpl.
  repeat constructor; simpl; discriminate.
Qed.

(** C3. A snapshot that matches a login-provider pattern, in its URL or in
    its visible text, and also shows a visible voting control for the
    target label is classified [STATE_LOGIN_REQUIRED], never
    [STATE_VOTING]: the login test comes first and nothing after it is
    consulted. *)
Theorem C3_login_wins_over_voting (p : Dom.page) (name : string) :
  Spec.url_has_login_pattern p \/ Spec.text_has_login_pattern p ->
  Spec.has_visible_voting_control p name ->
  Bot.detect_page_state p name = Bot.STATE_LOGIN_REQUIRED
  /\ Bot.detect_page_state p name <> Bot.STATE_VOTING.
Proof.
  intros Hlogin _.
  assert (E : Bot.detect_page_state p name = Bot.STATE_LOGIN_REQUIRED).
  { unfold Bot.detect_page_state, Bot.detect_page_state_body.
    destruct Hlogin as [Hu | Ht].
    - apply login_url_test_spec in Hu. rewrite Hu. reflexivity.
    - apply login_text_test_spec in Ht. rewrite Ht. simpl.
      destruct (Bot.login_url_test p); reflexivity. }
  rewrite E. split; [reflexivity | discriminate].
Qed.

(** C6, as stated, fails. On this page the control labelled "Alice" has
    gone from the document when the classifier probes it: [is_visible]
    raises at line 254. The raise ends the whole guarded block of the
    voting test, so the heading test further down in the same block is
    never run, although it would match on its own; the result is
    [STATE_UNKNOWN]. Had the probe answered "not visible", the same page
    would be classified [STATE_VOTING]. *)
Lemma C6_raising_probe_forces_unknown :
  Dom.query_selector Examples.heading_and_detached_alice (Bot.sel_button_label_exact "Alice")
  = Ok (Some (Examples.detached_button "Alice"))
  /\ Dom.is_visible (Examples.detached_button "Alice") = Raise
  /\ Bot.voting_heading_test Examples.heading_and_detached_alice = Ok true
  /\ Bot.detect_page_state Examples.heading_and_detached_alice "Alice" = Bot.STATE_UNKNOWN
  /\ Bot.detect_page_state Examples.heading_and_hidden_alice "Alice" = Bot.STATE_VOTING.
Proof. repeat split; vm_compute; reflexivity. Qed.

(** C6, amended. [detect_page_state] always returns one of the five
    states and no exception leaves it. A probe that raises ends the
    guarded block ([try]) it stands in, and that block counts as "no
    match": the blocks after it decide as if it were absent, and
    [STATE_UNKNOWN] comes out exactly when no block matches. The probes
    that follow the raising one inside the same block are not run: when
    the visibility probe of the exact-label button raises, the voting
    block is lost with its label scan and its heading test, and the
    result is not [STATE_VOTING] whatever they would have found. *)
Theorem C6_classifier_total_and_block_raise_is_no_match (p : Dom.page) (name : string) :
  (exists s, Bot.detect_page_state_body p name = Ok s
             /\ Bot.detect_page_state p name = s
             /\ In s [ Bot.STATE_VOTING; Bot.STATE_CONFIRMATION; Bot.STATE_ERROR;
                       Bot.STATE_LOGIN_REQUIRED; Bot.STATE_UNKNOWN ])
  /\ (Notions.css_plain name = true ->
      (forall (before after : list (result bool * Bot.PageState)) st,
         Spec.guarded_tests p name = before ++ (Raise, st) :: after ->
         Bot.detect_page_state p name = Spec.first_match (before ++ after))
      /\ (Bot.detect_page_state p name = Bot.STATE_UNKNOWN
          <-> Forall (fun t => fst t <> Ok true) (Spec.guarded_tests p name))
      /\ (forall b,
            Dom.query_selector p (Bot.sel_button_label_exact name) = Ok (Some b) ->
            Dom.is_visible b = Raise ->
            Bot.voting_test p name = Raise
            /\ Bot.detect_page_state p name <> Bot.STATE_VOTING)).
Proof.
  split; [|intros _; split; [|split]].
  - exists (Spec.first_match (Spec.guarded_tests p name)).
    split; [apply detect_body_first_match|].
    split; [apply detect_first_match|].
    destruct (Spec.first_match _); simpl; auto 6.
  - intros before after st E.
    rewrite detect_first_match, E. apply first_match_skips_raise.
  - rewrite detect_first_match.
    apply first_match_unknown, guarded_tests_states.
  - intros b Hq Hv.
    assert (Hraise : Bot.voting_test p name = Raise).
    { unfold Bot.voting_test. rewrite Hq. cbn [rbind]. rewrite Hv. reflexivity. }
    split; [exact Hraise|].
    unfold Bot.detect_page_state, Bot.detect_page_state_body. rewrite Hraise.
    destruct (Bot.login_url_test p); [discriminate|].
    destruct (catch (Bot.login_text_test p) false); [discriminate|].
    destruct (catch (Bot.error_test p) false); [discriminate|].
    destruct (catch (Bot.confirmation_text_test p) false); [discriminate|].
    destruct (Bot.confirmation_button_test p); discriminate.
Qed.

Section VotingTest.
Import Dom Bot Spec.

Lemma tag_eqb_button (e : element) : String.eqb "button" (e_tag e) = true <-> e_tag e = "button".
Proof. rewrite String.eqb_eq. split; congruence. Qed.

Lemma matches_label_exact (name : string) (e : element) :
  matches (sel_button_label_exact name) e = true <-> label_is name e.
Proof.
  unfold sel_button_label_exact, label_is, matches, compound_matches, tag_attr, attr_holds.
  cbn [existsb c_tag c_attr]. rewrite orb_false_r, andb_true_iff, tag_eqb_button.
  destruct (assoc "aria-label" (e_attrs e)) as [v|].
  - rewrite String.eqb_eq. split; intros [? ?]; split; congruence.
  - split; intros [? ?]; discriminate.
Qed.

Lemma matches_labelled (e : element) :
  matches sel_button_labelled e = true <->
  e_tag e = "button" /\ exists l, assoc "aria-label" (e_attrs e) = Some l.
Proof.
  unfold sel_button_labelled, matches, compound_matches, tag_attr, attr_holds.
  cbn [existsb c_tag c_attr]. rewrite orb_false_r, andb_true_iff, tag_eqb_button.
  destruct (assoc "aria-label" (e_attrs e)) as [v|].
  - split; intros [? ?]; split; eauto.
  - split; [intros [? ?]; discriminate | intros [? [l ?]]; discriminate].
Qed.

Lemma scan_labelled_buttons_hit (name : string) (buttons : list element) :
  scan_labelled_buttons name buttons = Ok true ->
  exists b l, In b buttons /\ is_visible b = Ok true
    /\ assoc "aria-label" (e_attrs b) = Some l /\ Str.contains name l = true.
Proof.
  induction buttons as [|b rest IH]; cbn [scan_labelled_buttons]; [discriminate|].
  assert (Hrest : scan_labelled_buttons name rest = Ok true ->
                  exists b0 l, In b0 (b :: rest) /\ is_visible b0 = Ok true
                    /\ assoc "aria-label" (e_attrs b0) = Some l
                    /\ Str.contains name l = true).
  { intros H. destruct (IH H) as (b0 & l & Hin & Hrest). exists b0, l. split; [right; exact Hin | exact Hrest]. }
  destruct (is_visible b) as [[]|] eqn:Ev; cbn [rbind]; [|exact Hrest|discriminate].
  unfold get_attribute. destruct (get_attribute_raises b); cbn [rbind]; [discriminate|].
  destruct (assoc "aria-label" (e_attrs b)) as [l|] eqn:El; [|exact Hrest].
  destruct (Str.truthy l && Str.contains name l) eqn:Ec; [|exact Hrest].
  intros _. apply andb_true_iff in Ec as [_ Ec].
  exists b, l. split; [left; reflexivity | auto].
Qed.

Lemma scan_labelled_buttons_finds (name : string) (buttons : list element) (b : element) :
  name <> "" ->
  Forall calm buttons ->
  In b buttons -> is_visible b = Ok true ->
  assoc "aria-label" (e_attrs b) = Some name ->
  scan_labelled_buttons name buttons = Ok true.
Proof.
  intros Hname Hcalm Hin Hv Hl.
  induction buttons as [|b0 rest IH]; [contradiction|].
  inversion Hcalm as [|? ? ((v & Ev) & _ & Ea) Hcalm']; subst.
  cbn [scan_labelled_buttons]. rewrite Ev. cbn [rbind].
  destruct Hin as [-> | Hin].
  - rewrite Hv in Ev. injection Ev as <-.
    unfold get_attribute. rewrite Ea, Hl. cbn [rbind].
    rewrite truthy_nonempty, contains_refl by assumption. reflexivity.
  - specialize (IH Hcalm' Hin).
    destruct v; [|exact IH].
    unfold get_attribute. rewrite Ea. cbn [rbind].
    destruct (assoc "aria-label" (e_attrs b0)) as [l|]; [|exact IH].
    destruct (Str.truthy l && Str.contains name l); [reflexivity | exact IH].
Qed.

Lemma voting_test_hit (p : page) (name : string) :
  voting_test p name = Ok true ->
  catch (voting_heading_test p) false = false ->
  has_visible_voting_control p name.
Proof.
  unfold voting_test, query_selector, query_selector_all, has_visible_voting_control.
  intros H Hh.
  destruct (query_raises p (sel_button_label_exact name)); cbn [rbind] in H; [discriminate|].
  destruct (find (matches (sel_button_label_exact name)) (dom p)) as [b|] eqn:Ef.
  - apply find_some in Ef as [Hin Hm]. apply matches_label_exact in Hm as [Ht Hl].
    destruct (is_visible b) as [[]|] eqn:Ev; cbn [rbind] in H; [| |discriminate].
    + exists b. split; [exact Hin|]. split; [|exact Ev].
      split; [exact Ht|]. exists name. split; [exact Hl | apply contains_refl].
    + destruct (query_raises p sel_button_labelled); cbn [rbind] in H; [discriminate|].
      destruct (scan_labelled_buttons name _) as [[]|] eqn:Es; cbn [rbind] in H;
        [| congruence | discriminate].
      apply scan_labelled_buttons_hit in Es as (b0 & l & Hin0 & Hv0 & Hl0 & Hc0).
      apply filter_In in Hin0 as [Hin0 Hm0]. apply matches_labelled in Hm0 as [Ht0 _].
      exists b0. split; [exact Hin0|]. split; [|exact Hv0]. split; [exact Ht0|]. eauto.
  - cbn [rbind] in H.
    destruct (query_raises p sel_button_labelled); cbn [rbind] in H; [discriminate|].
    destruct (scan_labelled_buttons name _) as [[]|] eqn:Es; cbn [rbind] in H;
      [| congruence | discriminate].
    apply scan_labelled_buttons_hit in Es as (b0 & l & Hin0 & Hv0 & Hl0 & Hc0).
    apply filter_In in Hin0 as [Hin0 Hm0]. apply matches_labelled in Hm0 as [Ht0 _].
    exists b0. split; [exact Hin0|]. split; [|exact Hv0]. split; [exact Ht0|]. eauto.
Qed.

Lemma voting_test_finds (p : page) (name : string) (b : element) :
  name <> "" -> quiet p ->
  In b (dom p) -> label_is name b -> is_visible b = Ok true ->
  voting_test p name = Ok true.
Proof.
  intros Hname (Hq & _ & Hcalm) Hin Hlab Hv.
  unfold voting_test, query_selector, query_selector_all. rewrite !Hq. cbn [rbind].
  destruct (find (matches (sel_button_label_exact name)) (dom p)) as [b0|] eqn:Ef.
  - assert (Hin0 : In b0 (dom p)) by (apply find_some in Ef; tauto).
    rewrite List.Forall_forall in Hcalm.
    destruct (Hcalm b0 Hin0) as ((v & Ev) & _). rewrite Ev. cbn [rbind].
    destruct v; [reflexivity|].
    assert (Hscan : scan_labelled_buttons name
                      (List.filter (matches sel_button_labelled) (dom p)) = Ok true).
    { apply (scan_labelled_buttons_finds name _ b); try assumption.
      - apply List.Forall_forall. intros e He. apply filter_In in He as [He _].
        apply Hcalm, He.
      - apply filter_In. split; [exact Hin|]. apply matches_labelled.
        destruct Hlab as [Ht Hl]. eauto.
      - apply Hlab. }
    rewrite Hscan. reflexivity.
  - exfalso. apply (find_none _ _ Ef) in Hin.
    apply matches_label_exact in Hlab. congruence.
Qed.

End VotingTest.

Lemma catch_not_true (r : result bool) : r <> Ok true -> catch r false = false.
Proof. destruct r as [[]|]; simpl; congruence. Qed.

Section Markers.
Import Dom Bot Spec.

Lemma query_all_In (p : page) (s : selector) (elems : list element) (e : element) :
  query_selector_all p s = Ok elems -> In e elems -> In e (dom p) /\ matches s e = true.
Proof.
  unfold query_selector_all. destruct (query_raises p s); [discriminate|].
  intros H. injection H as <-. apply filter_In.
Qed.

Lemma scan_for_error_hit (elems : list element) :
  scan_for_error elems = Ok true ->
  exists e t keyword, In e elems /\ is_visible e = Ok true /\ inner_text e = Ok t
    /\ In keyword error_keywords /\ Str.contains keyword (Str.lower t) = true.
Proof.
  induction elems as [|e rest IH]; cbn [scan_for_error]; [discriminate|].
  assert (Hrest : scan_for_error rest = Ok true ->
            exists e0 t keyword, In e0 (e :: rest) /\ is_visible e0 = Ok true
              /\ inner_text e0 = Ok t /\ In keyword error_keywords
              /\ Str.contains keyword (Str.lower t) = true).
  { intros H. destruct (IH H) as (e0 & t & k & Hin & Hr).
    exists e0, t, k. split; [right; exact Hin | exact Hr]. }
  destruct (is_visible e) as [[]|] eqn:Ev; cbn [rbind]; [|exact Hrest|discriminate].
  destruct (inner_text e) as [t|] eqn:Et; cbn [rbind]; [|discriminate].
  destruct (Str.any_in error_keywords (Str.lower t)) eqn:Ek; [|exact Hrest].
  intros _. apply any_in_true in Ek as (k & Hk & Hc).
  exists e, t, k. split; [left; reflexivity | auto].
Qed.

Lemma error_test_hit (p : page) : error_test p = Ok true -> shows_error p.
Proof.
  unfold error_test, shows_error.
  destruct (query_selector_all p sel_error) as [errs|] eqn:Eq; cbn [rbind]; [|discriminate].
  destruct (scan_for_error errs) as [[]|] eqn:Es; cbn [rbind]; [| |discriminate].
  - intros _. apply scan_for_error_hit in Es as (e & t & k & Hin & Hv & Ht & Hk & Hc).
    destruct (query_all_In p _ _ e Eq Hin) as [Hdom Hm].
    exists e, t, k. repeat split; auto.
  - destruct (query_selector_all p sel_headings) as [hs|] eqn:Eh; cbn [rbind]; [|discriminate].
    intros H. apply scan_for_error_hit in H as (e & t & k & Hin & Hv & Ht & Hk & Hc).
    destruct (query_all_In p _ _ e Eh Hin) as [Hdom Hm].
    exists e, t, k. repeat split; auto.
Qed.

Lemma scan_for_confirmation_hit (elems : list element) :
  scan_for_confirmation elems = Ok true ->
  exists e t, In e elems /\ is_visible e = Ok true /\ inner_text e = Ok t
    /\ (Str.contains "Seu voto" t = true \/ Str.contains "seu voto" (Str.lower t) = true).
Proof.
  induction elems as [|e rest IH]; cbn [scan_for_confirmation]; [discriminate|].
  assert (Hrest : scan_for_confirmation rest = Ok true ->
            exists e0 t, In e0 (e :: rest) /\ is_visible e0 = Ok true
              /\ inner_text e0 = Ok t
              /\ (Str.contains "Seu voto" t = true
                  \/ Str.contains "seu voto" (Str.lower t) = true)).
  { intros H. destruct (IH H) as (e0 & t & Hin & Hr).
    exists e0, t. split; [right; exact Hin | exact Hr]. }
  destruct (is_visible e) as [[]|] eqn:Ev; cbn [rbind]; [|exact Hrest|discriminate].
  destruct (inner_text e) as [t|] eqn:Et; cbn [rbind]; [|discriminate].
  destruct (Str.contains "Seu voto" t || Str.contains "seu voto" (Str.lower t)) eqn:Ek;
    [|exact Hrest].
  intros _. apply orb_true_iff in Ek.
  exists e, t. split; [left; reflexivity | auto].
Qed.

Lemma confirmation_text_test_hit (p : page) :
  confirmation_text_test p = Ok true -> shows_confirmation_text p.
Proof.
  unfold confirmation_text_test, shows_confirmation_text.
  destruct (query_selector_all p sel_confirmation) as [elems|] eqn:Eq; cbn [rbind];
    [|discriminate].
  intros H. apply scan_for_confirmation_hit in H as (e & t & Hin & Hv & Ht & Hc).
  destruct (query_all_In p _ _ e Eq Hin) as [Hdom Hm].
  exists e, t. auto.
Qed.

Lemma confirmation_button_test_hit (p : page) :
  confirmation_button_test p = true -> shows_vote_again_button p.
Proof.
  unfold confirmation_button_test, shows_vote_again_button. intros H.
  apply existsb_exists in H as (s & Hs & Hc).
  unfold vote_again_visible, query_selector in Hc.
  destruct (query_raises p s); cbn [rbind catch] in Hc; [discriminate|].
  destruct (find (matches s) (dom p)) as [b|] eqn:Ef; [|discriminate].
  apply find_some in Ef as [Hin Hm].
  destruct (is_visible b) as [[]|] eqn:Ev; cbn [catch] in Hc; try discriminate.
  exists s, b. auto.
Qed.

Lemma scan_h1_hit (elems : list element) :
  scan_h1 elems = Ok true ->
  exists h t, In h elems /\ is_visible h = Ok true /\ inner_text h = Ok t
    /\ Str.contains "quem você quer eliminar" (Str.lower t) = true.
Proof.
  induction elems as [|e rest IH]; cbn [scan_h1]; [discriminate|].
  assert (Hrest : scan_h1 rest = Ok true ->
            exists h t, In h (e :: rest) /\ is_visible h = Ok true /\ inner_text h = Ok t
              /\ Str.contains "quem você quer eliminar" (Str.lower t) = true).
  { intros H. destruct (IH H) as (h & t & Hin & Hr).
    exists h, t. split; [right; exact Hin | exact Hr]. }
  destruct (is_visible e) as [[]|] eqn:Ev; cbn [rbind]; [|exact Hrest|discriminate].
  destruct (inner_text e) as [t|] eqn:Et; cbn [rbind]; [|discriminate].
  destruct (Str.contains "quem você quer eliminar" (Str.lower t)) eqn:Ek; [|exact Hrest].
  intros _. exists e, t. split; [left; reflexivity | auto].
Qed.

Lemma voting_heading_test_hit (p : page) :
  voting_heading_test p = Ok true -> shows_voting_heading p.
Proof.
  unfold voting_heading_test, shows_voting_heading.
  destruct (query_selector_all p sel_h1) as [elems|] eqn:Eq; cbn [rbind]; [|discriminate].
  intros H. apply scan_h1_hit in H as (h & t & Hin & Hv & Ht & Hc).
  destruct (query_all_In p _ _ h Eq Hin) as [Hdom Hm].
  exists h, t. split; [exact Hdom|]. split; [|auto].
  unfold sel_h1, matches, compound_matches, tag in Hm. cbn [existsb c_tag c_attr] in Hm.
  rewrite orb_false_r, andb_true_r in Hm. apply String.eqb_eq in Hm. congruence.
Qed.

(** A snapshot without markers passes every test placed before the
    voting test. *)
Lemma no_markers_no_earlier_match (p : page) : no_markers p -> no_earlier_match p.
Proof.
  intros (Hurl & Htext & Herr & Hconf & Hbutton). unfold no_earlier_match.
  split.
  { destruct (login_url_test p) eqn:E; [|reflexivity].
    exfalso. apply Hurl, login_url_test_spec, E. }
  split; [intros E; apply Htext, login_text_test_spec, E|].
  split; [intros E; apply Herr, error_test_hit, E|].
  split; [intros E; apply Hconf, confirmation_text_test_hit, E|].
  destruct (confirmation_button_test p) eqn:E; [|reflexivity].
  exfalso. apply Hbutton, confirmation_button_test_hit, E.
Qed.

End Markers.

Lemma C3_witness :
  Bot.detect_page_state Examples.alice_on_login_page "Alice" = Bot.STATE_LOGIN_REQUIRED
  /\ Bot.detect_page_state Examples.alice_on_login_page "Alice" <> Bot.STATE_VOTING.
Proof.
  apply (C3_login_wins_over_voting Examples.alice_on_login_page "Alice").
  - left. exists "accounts.google.com". split; [simpl; tauto | vm_compute; reflexivity].
  - exists (Examples.button "Alice" true true).
    split; [simpl; tauto|]. split; [|reflexivity].
    split; [reflexivity|]. exists "Alice". split; reflexivity.
Defined.

(** C5, as stated, fails: the only control labelled "Alice" is disabled,
    no heading stands in for it, and the snapshot is still classified
    [STATE_VOTING] by the label step. *)
Lemma C5_disabled_control_is_voting :
  (forall b, In b (Dom.dom Examples.disabled_alice_page) ->
             Spec.label_matches "Alice" b -> Dom.is_enabled b = Ok false)
  /\ Bot.voting_heading_test Examples.disabled_alice_page = Ok false
  /\ Bot.detect_page_state Examples.disabled_alice_page "Alice" = Bot.STATE_VOTING.
Proof.
  split; [|split]; [|vm_compute; reflexivity..].
  intros b [<- | []] _. reflexivity.
Qed.

(** C5, amended. For a target label that can stand in the selector as it
    is, the label step of the classifier looks at presence and
    visibility only. If the result is [STATE_VOTING] and no visible
    heading asks whom to vote out, a button whose label contains the
    target label is present and visible. Conversely, with a non-empty
    target label, no driver call raising and the page showing no login,
    error or confirmation marker, a visible button labelled exactly with
    the target label gives [STATE_VOTING], whatever its enabled state. *)
Theorem C5_voting_by_visible_label (p : Dom.page) (name : string) :
  Notions.css_plain name = true ->
  (Bot.detect_page_state p name = Bot.STATE_VOTING ->
   ~ Spec.shows_voting_heading p ->
   Spec.has_visible_voting_control p name)
  /\ (name <> "" -> Spec.quiet p -> Spec.no_markers p ->
      (exists b, In b (Dom.dom p) /\ Spec.label_is name b /\ Dom.is_visible b = Ok true) ->
      Bot.detect_page_state p name = Bot.STATE_VOTING).
Proof.
  intros _. split.
  - unfold Bot.detect_page_state, Bot.detect_page_state_body. intros H Hh.
    apply voting_test_hit.
    + destruct (Bot.login_url_test p); [discriminate|].
      destruct (catch (Bot.login_text_test p) false); [discriminate|].
      destruct (catch (Bot.error_test p) false); [discriminate|].
      destruct (catch (Bot.confirmation_text_test p) false); [discriminate|].
      destruct (Bot.confirmation_button_test p); [discriminate|].
      destruct (Bot.voting_test p name) as [[]|]; simpl in H; congruence.
    + destruct (Bot.voting_heading_test p) as [[]|] eqn:E; [|reflexivity..].
      exfalso. apply Hh, voting_heading_test_hit, E.
  - intros Hname Hq Hno (b & Hin & Hlab & Hv).
    destruct (no_markers_no_earlier_match p Hno) as (H1 & H2 & H3 & H4 & H5).
    unfold Bot.detect_page_state, Bot.detect_page_state_body.
    rewrite H1, (catch_not_true _ H2), (catch_not_true _ H3), (catch_not_true _ H4), H5.
    rewrite (voting_test_finds p name b); auto.
Qed.

Lemma C5_witness :
  Bot.detect_page_state Examples.alice_page "Alice" = Bot.STATE_VOTING
  /\ Spec.has_visible_voting_control Examples.alice_page "Alice".
Proof.
  assert (H : Bot.detect_page_state Examples.alice_page "Alice" = Bot.STATE_VOTING).
  { apply (proj2 (C5_voting_by_visible_label Examples.alice_page "Alice" eq_refl)).
    - discriminate.
    - split; [reflexivity|]. split; [eexists; reflexivity|].
      repeat constructor; eexists; reflexivity.
    - split; [|split; [|split; [|split]]].
      + intros (ind & Hin & Hc). unfold Bot.login_indicators in Hin.
        repeat (destruct Hin as [<- | Hin]; [vm_compute in Hc; discriminate|]).
        exact Hin.
      + intros (t & k & Ht & Hin & Hc). injection Ht as <-.
        unfold Bot.login_keywords in Hin.
        repeat (destruct Hin as [<- | Hin]; [vm_compute in Hc; discriminate|]).
        exact Hin.
      + intros (e & t & k & Hin & Hm & _).
        destruct Hin as [<- | [<- | []]]; destruct Hm as [Hm | Hm]; discriminate Hm.
      + intros (e & t & Hin & Hm & _).
        destruct Hin as [<- | [<- | []]]; discriminate Hm.
      + intros (s & b & Hs & Hin & Hm & _).
        destruct Hs as [<- | [<- | [<- | []]]];
          destruct Hin as [<- | [<- | []]]; discriminate Hm.
    - exists (Examples.button "Alice" true true).
      split; [simpl; tauto|]. repeat split. }
  split; [exact H|].
  apply (proj1 (C5_voting_by_visible_label Examples.alice_page "Alice" eq_refl) H).
  intros (h & t & Hin & Htag & _).
  destruct Hin as [<- | [<- | []]]; discriminate Htag.
Defined.

(** ** [click_vote_again] *)

Section ClickVoteAgain.
Import Dom Bot Spec.

(** A click returns only on an element that is visible and enabled. *)
Lemma click_ok_actionable (b : element) :
  click b = Ok tt -> is_visible b = Ok true /\ is_enabled b = Ok true /\ click_lands b = Ok tt.
Proof.
  unfold click.
  destruct (is_visible b) as [[]|]; cbn [rbind]; try discriminate;
    destruct (is_enabled b) as [[]|]; cbn [rbind andb]; try discriminate.
  auto.
Qed.

Lemma click_raises_unless_actionable (b : element) :
  ~ visible_and_enabled b -> click b = Raise.
Proof.
  unfold visible_and_enabled, click. intros Hnot.
  destruct (is_visible b) as [[]|]; cbn [rbind]; try reflexivity;
    destruct (is_enabled b) as [[]|]; cbn [rbind andb]; try reflexivity.
  exfalso. apply Hnot. split; reflexivity.
Qed.

Lemma click_lands_when_actionable (b : element) :
  visible_and_enabled b -> click_lands b = Ok tt -> click b = Ok tt.
Proof.
  unfold visible_and_enabled, click. intros [Hv He] Hlands.
  rewrite Hv, He. exact Hlands.
Qed.

Lemma click_it_ok (b b' : element) :
  click_it b = Ok (Some b') -> b' = b /\ click b = Ok tt.
Proof.
  unfold click_it. destruct (click b) as [[]|]; cbn [rbind]; [|discriminate].
  intros H. split; congruence.
Qed.

Lemma click_by_selector_ok (p : page) (s : selector) (b : element) :
  click_by_selector p s = Ok (Some b) ->
  In b (dom p) /\ matches s b = true /\ click b = Ok tt.
Proof.
  unfold click_by_selector, query_selector.
  destruct (query_raises p s); cbn [rbind]; [discriminate|].
  destruct (find (matches s) (dom p)) as [b0|] eqn:Ef; [|discriminate].
  intros H. apply click_it_ok in H as [-> Hc].
  apply find_some in Ef as [Hin Hm]. auto.
Qed.

Lemma click_by_selectors_ok (p : page) (sels : list selector) (b : element) :
  click_by_selectors p sels = Some b ->
  exists s, In s sels /\ In b (dom p) /\ matches s b = true /\ click b = Ok tt.
Proof.
  induction sels as [|s rest IH]; cbn [click_by_selectors]; [discriminate|].
  destruct (click_by_selector p s) as [[b0|]|] eqn:E; cbn [catch].
  - intros H. injection H as ->. exists s. split; [left; reflexivity|].
    apply click_by_selector_ok, E.
  - intros H. destruct (IH H) as (s0 & Hs0 & Hrest). exists s0. split; [right|]; assumption.
  - intros H. destruct (IH H) as (s0 & Hs0 & Hrest). exists s0. split; [right|]; assumption.
Qed.

Lemma scan_click_by_text_ok (buttons : list element) (b : element) :
  scan_click_by_text buttons = Ok (Some b) ->
  In b buttons /\ click b = Ok tt
  /\ exists t, inner_text b = Ok t
       /\ Str.contains "votar" (Str.lower t) = true
       /\ Str.contains "novamente" (Str.lower t) = true.
Proof.
  induction buttons as [|b0 rest IH]; cbn [scan_click_by_text]; [discriminate|].
  destruct (inner_text b0) as [t|] eqn:Et; cbn [rbind]; [|discriminate].
  destruct (Str.contains "votar" (Str.lower t) && Str.contains "novamente" (Str.lower t))
    eqn:Ec.
  - intros H. apply click_it_ok in H as [-> Hc].
    apply andb_true_iff in Ec as [E1 E2].
    split; [left; reflexivity|]. split; [exact Hc|]. exists t. auto.
  - intros H. destruct (IH H) as (Hin & Hrest). split; [right; exact Hin | exact Hrest].
Qed.

Lemma vote_again_selector_button (s : selector) (b : element) :
  In s vote_again_selectors -> matches s b = true -> e_tag b = "button".
Proof.
  intros Hs Hm. apply tag_eqb_button.
  simpl in Hs. destruct Hs as [<- | [<- | [<- | []]]];
    unfold sel_button_label_contains, matches, compound_matches, tag_attr in Hm;
    cbn [existsb c_tag c_attr] in Hm;
    rewrite orb_false_r in Hm; apply andb_true_iff in Hm as [Hm _]; exact Hm.
Qed.

Lemma click_target_ok (p : page) (b : element) :
  click_vote_again_target p = Some b ->
  In b (dom p) /\ e_tag b = "button" /\ vote_again_candidate b /\ click b = Ok tt.
Proof.
  unfold click_vote_again_target.
  destruct (click_by_selectors p vote_again_selectors) as [b1|] eqn:E1.
  - intros H. injection H as ->.
    apply click_by_selectors_ok in E1 as (s & Hs & Hin & Hm & Hc).
    split; [exact Hin|]. split; [exact (vote_again_selector_button s b Hs Hm)|].
    split; [left; eauto | exact Hc].
  - destruct (click_by_text p) as [[b2|]|] eqn:E2; cbn [catch].
    + intros H. injection H as ->.
      unfold click_by_text, query_selector_all in E2.
      destruct (query_raises p sel_button); cbn [rbind] in E2; [discriminate|].
      apply scan_click_by_text_ok in E2 as (Hin & Hc & Ht).
      apply filter_In in Hin as [Hin Hm].
      split; [exact Hin|]. split; [|split; [right; left; exact Ht | exact Hc]].
      apply tag_eqb_button.
      unfold sel_button, matches, compound_matches, tag in Hm.
      cbn [existsb c_tag c_attr] in Hm.
      rewrite orb_false_r, andb_true_r in Hm. exact Hm.
    + intros H. unfold click_by_xpath in H.
      destruct (click_by_selector p sel_vote_again_xpath) as [[b3|]|] eqn:E3;
        cbn [catch] in H; try discriminate.
      injection H as ->. apply click_by_selector_ok in E3 as (Hin & Hm & Hc).
      split; [exact Hin|]. split; [|split; [right; right; exact Hm | exact Hc]].
      unfold sel_vote_again_xpath, matches in Hm.
      apply andb_true_iff in Hm as [Hm _]. apply String.eqb_eq in Hm. exact Hm.
    + intros H. unfold click_by_xpath in H.
      destruct (click_by_selector p sel_vote_again_xpath) as [[b3|]|] eqn:E3;
        cbn [catch] in H; try discriminate.
      injection H as ->. apply click_by_selector_ok in E3 as (Hin & Hm & Hc).
      split; [exact Hin|]. split; [|split; [right; right; exact Hm | exact Hc]].
      unfold sel_vote_again_xpath, matches in Hm.
      apply andb_true_iff in Hm as [Hm _]. apply String.eqb_eq in Hm. exact Hm.
Qed.

End ClickVoteAgain.

(** C8. [click_vote_again] walks its stages in order: three label
    selectors, a text scan over the buttons, an XPath query. It has no
    probe of its own; the test on the candidate is the one the driver
    makes inside [click], which raises on a button that is hidden or
    disabled. So whatever button it ends up clicking is a button of the
    page that one of the stages looks for and that is visible and
    enabled. A stage clicks its candidate when the candidate is visible
    and enabled and the click lands; a candidate that is hidden or
    disabled makes the stage end without a click, and the next stage is
    tried. This holds for every selector stage, where the candidate is
    the first match of the selector, and for the text scan, where it is
    the first button whose text reads "votar ... novamente". The
    function returns [True]
    exactly when some stage clicked, [False] exactly when all three ended
    without a click, and [False] in particular when every candidate on
    the page is hidden or disabled. The first candidate of the first
    stage, when it is visible and enabled and its click lands, is the
    button clicked. *)
Theorem C8_click_vote_again_accepts_visible_enabled (p : Dom.page) :
  (forall b, Bot.click_vote_again_target p = Some b ->
     In b (Dom.dom p) /\ Dom.e_tag b = "button" /\ Spec.vote_again_candidate b
     /\ Spec.visible_and_enabled b /\ Dom.click b = Ok tt)
  /\ (Bot.click_vote_again p = true <-> exists b, Bot.click_vote_again_target p = Some b)
  /\ (Bot.click_vote_again p = false <->
        Bot.click_by_selectors p Bot.vote_again_selectors = None
        /\ catch (Bot.click_by_text p) None = None
        /\ catch (Bot.click_by_xpath p) None = None)
  /\ (forall s b, Dom.query_selector p s = Ok (Some b) ->
        (Spec.visible_and_enabled b -> Dom.click_lands b = Ok tt ->
         catch (Bot.click_by_selector p s) None = Some b)
        /\ (~ Spec.visible_and_enabled b ->
            catch (Bot.click_by_selector p s) None = None))
  /\ (forall before b after,
        Dom.query_selector_all p Bot.sel_button = Ok (before ++ b :: after) ->
        Forall Spec.reads_something_else before ->
        Spec.reads_vote_again b ->
        (Spec.visible_and_enabled b -> Dom.click_lands b = Ok tt ->
         catch (Bot.click_by_text p) None = Some b)
        /\ (~ Spec.visible_and_enabled b ->
            catch (Bot.click_by_text p) None = None))
  /\ ((forall b, In b (Dom.dom p) -> Spec.vote_again_candidate b ->
                  ~ Spec.visible_and_enabled b) ->
      Bot.click_vote_again p = false)
  /\ (forall s rest b, Bot.vote_again_selectors = s :: rest ->
        Dom.query_selector p s = Ok (Some b) ->
        Spec.visible_and_enabled b -> Dom.click_lands b = Ok tt ->
        Bot.click_vote_again_target p = Some b /\ Bot.click_vote_again p = true).
Proof.
  assert (Htarget : forall b, Bot.click_vote_again_target p = Some b ->
            In b (Dom.dom p) /\ Dom.e_tag b = "button" /\ Spec.vote_again_candidate b
            /\ Spec.visible_and_enabled b /\ Dom.click b = Ok tt).
  { intros b E. apply click_target_ok in E as (Hin & Htag & Hcand & Hclick).
    pose proof (click_ok_actionable b Hclick) as (Hv & He & _).
    repeat split; assumption. }
  split; [exact Htarget|].
  split; [|split; [|split; [|split; [|split]]]].
  - unfold Bot.click_vote_again. destruct (Bot.click_vote_again_target p) as [b|].
    + split; eauto.
    + split; [discriminate | intros [b H]; discriminate].
  - unfold Bot.click_vote_again, Bot.click_vote_again_target.
    destruct (Bot.click_by_selectors p Bot.vote_again_selectors).
    + split; [discriminate | intros [H _]; discriminate].
    + destruct (catch (Bot.click_by_text p) None).
      * split; [discriminate | intros (_ & H & _); discriminate].
      * destruct (catch (Bot.click_by_xpath p) None).
        -- split; [discriminate | intros (_ & _ & H); discriminate].
        -- split; auto.
  - intros s b Hq. unfold Bot.click_by_selector. rewrite Hq. cbn [rbind].
    unfold Bot.click_it. split.
    + intros Hacc Hlands. rewrite (click_lands_when_actionable b Hacc Hlands). reflexivity.
    + intros Hnot. rewrite (click_raises_unless_actionable b Hnot). reflexivity.
  - intros before b after Hq Hbefore Hreads.
    unfold Bot.click_by_text. rewrite Hq. cbn [rbind]. clear Hq.
    assert (Hscan : Bot.scan_click_by_text (before ++ b :: after) = Bot.click_it b).
    { induction Hbefore as [|e before (t & Et & Hno) _ IH];
        cbn [app Bot.scan_click_by_text].
      - destruct Hreads as (t & Et & H1 & H2). rewrite Et. cbn [rbind].
        rewrite H1, H2. reflexivity.
      - rewrite Et. cbn [rbind]. rewrite Hno. exact IH. }
    rewrite Hscan. unfold Bot.click_it. split.
    + intros Hacc Hlands. rewrite (click_lands_when_actionable b Hacc Hlands). reflexivity.
    + intros Hnot. rewrite (click_raises_unless_actionable b Hnot). reflexivity.
  - intros Hnone. unfold Bot.click_vote_again.
    destruct (Bot.click_vote_again_target p) as [b|] eqn:E; [|reflexivity].
    destruct (Htarget b eq_refl) as (Hin & _ & Hcand & Hacc & _).
    exfalso. exact (Hnone b Hin Hcand Hacc).
  - intros s rest b Hsels Hq [Hv He] Hlands.
    assert (E : Bot.click_vote_again_target p = Some b).
    { unfold Bot.click_vote_again_target. rewrite Hsels. cbn [Bot.click_by_selectors].
      unfold Bot.click_by_selector. rewrite Hq. cbn [rbind].
      unfold Bot.click_it, Dom.click. rewrite Hv, He. cbn [rbind andb].
      rewrite Hlands. reflexivity. }
    split; [exact E|]. unfold Bot.click_vote_again. rewrite E. reflexivity.
Qed.

(** ** The completion callback and the worker loop *)

Section Loop.
Import Dom Bot BrowserManager VoteLoop FleetSpec.

Lemma on_vote_completed_returns (tab : Z) (now : datetime) (m : manager) :
  lock_free m ->
  exists m', _on_vote_completed tab now m = Some m'
    /\ bots m' = bots m
    /\ total_votes m' = sum_of_vote_counts m
    /\ vote_lock m' = Some false
    /\ session_start_votes m' = session_start_votes m.
Proof.
  intros Hfree. unfold _on_vote_completed, enter_vote_lock.
  unfold lock_free in Hfree.
  destruct (vote_lock m) as [[]|]; [congruence| | ];
    (eexists; split; [reflexivity|]; repeat split).
Qed.

Lemma sum_map_insert (f : bot -> Z) (l : list bot) (i : nat) (x y : bot) :
  l !! i = Some x -> sum (map f (<[i := y]> l)) = sum (map f l) - f x + f y.
Proof.
  unfold sum. revert i. induction l as [|a l IH]; intros [|i] H; try discriminate.
  - injection H as ->. cbn. lia.
  - specialize (IH i H).
    change (f a + foldr Z.add 0 (map f (<[i := y]> l))
            = f a + foldr Z.add 0 (map f l) - f x + f y).
    rewrite IH. lia.
Qed.

Lemma put_bot_lookup (i : nat) (b b0 : bot) (m : manager) :
  bots m !! i = Some b0 -> bots (put_bot i b m) !! i = Some b.
Proof.
  intros H. unfold put_bot. cbn [bots set_bots].
  apply list_lookup_insert_eq. apply lookup_lt_Some in H. exact H.
Qed.

Lemma on_confirmation_returns (i : nat) (b : bot) (env : iteration_env) (m : manager) :
  bots m !! i = Some b -> lock_free m ->
  exists m' b', on_confirmation i b env m = Some m'
    /\ lock_free m'
    /\ bots m' !! i = Some b'
    /\ vote_count b' = vote_count b + (if last_confirmation_detected b then 0 else 1)
    /\ last_confirmation_detected b' = negb (click_vote_again (page_on_click env))
    /\ bots m' = <[i := b']> (bots m)
    /\ (last_confirmation_detected b = false -> has_vote_callback b = true ->
        total_votes m' = sum_of_vote_counts m').
Proof.
  intros Hb Hfree. unfold on_confirmation.
  destruct (last_confirmation_detected b) eqn:Eflag.
  - destruct (click_vote_again (page_on_click env)).
    + eexists; eexists. split; [reflexivity|]. split; [exact Hfree|].
      split; [eapply put_bot_lookup; exact Hb|]. cbn.
      split; [lia|]. split; [reflexivity|]. split; [reflexivity | discriminate].
    + exists m, b. split; [reflexivity|]. split; [exact Hfree|].
      split; [exact Hb|]. split; [lia|]. split; [exact Eflag|].
      split; [symmetry; apply list_insert_id, Hb | discriminate].
  - set (b1 := set_last_confirmation_detected true (set_vote_count (vote_count b + 1) b)).
    assert (Hb1 : bots (put_bot i b1 m) !! i = Some b1) by (eapply put_bot_lookup; exact Hb).
    assert (Hfree1 : lock_free (put_bot i b1 m)) by exact Hfree.
    destruct (on_vote_completed_returns (tab_number b1) (callback_time env) _ Hfree1)
      as (m2 & E2 & Hbots2 & Htotal2 & Hlock2 & _).
    assert (Hfree2 : lock_free m2) by (unfold lock_free; rewrite Hlock2; discriminate).
    assert (Hb2 : bots m2 !! i = Some b1) by (rewrite Hbots2; exact Hb1).
    assert (Hsum2 : total_votes m2 = sum_of_vote_counts m2).
    { rewrite Htotal2. unfold sum_of_vote_counts. rewrite Hbots2. reflexivity. }
    change (has_vote_callback b1) with (has_vote_callback b).
    destruct (has_vote_callback b) eqn:Ecb.
    + rewrite E2. cbn [option_map].
      destruct (click_vote_again (page_on_click env)).
      * eexists; eexists. split; [reflexivity|]. split; [exact Hfree2|].
        split; [eapply put_bot_lookup; exact Hb2|].
        split; [reflexivity|]. split; [reflexivity|].
        split; [cbn [put_bot bots set_bots]; rewrite Hbots2; apply list_insert_insert_eq|].
        intros _ _. cbn [put_bot total_votes set_bots]. rewrite Hsum2.
        unfold sum_of_vote_counts, put_bot. cbn [bots set_bots].
        rewrite (sum_map_insert vote_count _ i b1) by exact Hb2.
        cbn. lia.
      * exists m2, b1. split; [reflexivity|]. split; [exact Hfree2|].
        split; [exact Hb2|]. split; [reflexivity|]. split; [reflexivity|].
        split; [exact Hbots2 | intros _ _; exact Hsum2].
    + destruct (click_vote_again (page_on_click env)).
      * eexists; eexists. split; [reflexivity|]. split; [exact Hfree1|].
        split; [eapply put_bot_lookup; exact Hb1|].
        split; [reflexivity|]. split; [reflexivity|].
        split; [apply list_insert_insert_eq | discriminate].
      * exists (put_bot i b1 m), b1. split; [reflexivity|]. split; [exact Hfree1|].
        split; [exact Hb1|]. split; [reflexivity|]. split; [reflexivity|].
        split; [reflexivity | discriminate].
Qed.

(** What one pass does to the count and to the flag of its bot, by the
    state it acted on. *)
Lemma run_iteration_returns (i : nat) (max_votes : Z) (env : iteration_env)
  (m : manager) (lv : locals) (b : bot) :
  bots m !! i = Some b -> lock_free m ->
  exists o b', run_iteration i max_votes env m lv = Some o
    /\ lock_free (next_manager o)
    /\ bots (next_manager o) !! i = Some b'
    /\ bots (next_manager o) = <[i := b']> (bots m)
    /\ (counted o = true -> has_vote_callback b = true ->
        total_votes (next_manager o) = sum_of_vote_counts (next_manager o))
    /\ match acted_on o with
       | Some STATE_CONFIRMATION =>
           vote_count b' = vote_count b + (if last_confirmation_detected b then 0 else 1)
           /\ last_confirmation_detected b' = negb (click_vote_again (page_on_click env))
           /\ counted o = negb (last_confirmation_detected b)
           /\ next_control o = Continue
       | Some STATE_VOTING =>
           vote_count b' = vote_count b /\ last_confirmation_detected b' = false
           /\ counted o = false
       | _ =>
           vote_count b' = vote_count b
           /\ last_confirmation_detected b' = last_confirmation_detected b
           /\ counted o = false
       end.
Proof.
  intros Hb Hfree. unfold run_iteration. rewrite Hb.
  assert (Hid : bots m = <[i := b]> (bots m)) by (symmetry; apply list_insert_id, Hb).
  destruct (check_page b env lv) as [[|s0]|].
  - eexists; exists b. split; [reflexivity|]. cbn. repeat split; auto; discriminate.
  - match goal with |- context [if ?c then _ else _] => destruct c end.
    + eexists; exists b. split; [reflexivity|]. cbn. repeat split; auto; discriminate.
    + set (s := match s0 with Some s => s | None => _ end).
      destruct s eqn:Es.
      * eexists; eexists. split; [reflexivity|]. cbn [next_manager acted_on counted].
        split; [exact Hfree|]. split; [eapply put_bot_lookup; exact Hb|].
        split; [reflexivity|]. split; [cbn; discriminate|].
        destruct (last_confirmation_detected b) eqn:Ef; cbn; auto.
      * destruct (on_confirmation_returns i b env m Hb Hfree)
          as (m' & b' & E & Hfree' & Hb' & Hcount & Hflag & Hbots & Htotal).
        rewrite E. cbn [option_map].
        eexists; exists b'. split; [reflexivity|]. cbn.
        repeat split; try assumption.
        intros Hc Hcb. apply Htotal; [|exact Hcb].
        destruct (last_confirmation_detected b); [discriminate | reflexivity].
      * eexists; exists b. split; [reflexivity|]. cbn. repeat split; auto; discriminate.
      * eexists; exists b. split; [reflexivity|]. cbn. repeat split; auto; discriminate.
      * eexists; exists b. split; [reflexivity|]. cbn. repeat split; auto; discriminate.
  - eexists; exists b. split; [reflexivity|]. cbn. repeat split; auto; discriminate.
Qed.

End Loop.

Section CountingOnce.
Import Dom Bot BrowserManager VoteLoop FleetSpec.

(** One pass on the confirmation page whose click fails. *)
Lemma confirmation_pass_runs (i : nat) (max_votes : Z) (env : iteration_env)
  (m : manager) (lv : locals) (b : bot) :
  bots m !! i = Some b -> lock_free m -> has_browser_manager b = true ->
  max_votes <= 0 \/ vote_count b < max_votes ->
  confirmation_pass (participant_name b) env ->
  exists o b', run_iteration i max_votes env m lv = Some o
    /\ next_control o = Continue
    /\ acted_on o = Some STATE_CONFIRMATION
    /\ counted o = negb (last_confirmation_detected b)
    /\ lock_free (next_manager o)
    /\ bots (next_manager o) !! i = Some b'
    /\ b' = (if last_confirmation_detected b then b
             else set_last_confirmation_detected true
                    (set_vote_count (vote_count b + 1) b)).
Proof.
  intros Hb Hfree Hbm Hcap (Hurl & Htabs & Hstate & Hclick).
  unfold run_iteration. rewrite Hb. unfold check_page. rewrite Hbm, Hurl, Htabs.
  cbn [negb andb].
  assert (Ecap : (0 <? max_votes) && (max_votes <=? vote_count b) = false).
  { destruct Hcap as [Hcap | Hcap].
    - apply andb_false_iff. left. apply Z.ltb_ge. exact Hcap.
    - apply andb_false_iff. right. apply Z.leb_gt. exact Hcap. }
  rewrite Ecap, Hstate.
  unfold on_confirmation. rewrite Hclick.
  destruct (last_confirmation_detected b) eqn:Eflag.
  - cbn [option_map]. eexists; exists b. repeat split; try assumption; reflexivity.
  - set (b1 := set_last_confirmation_detected true (set_vote_count (vote_count b + 1) b)).
    assert (Hb1 : bots (put_bot i b1 m) !! i = Some b1) by (eapply put_bot_lookup; exact Hb).
    change (has_vote_callback b1) with (has_vote_callback b).
    destruct (has_vote_callback b).
    + destruct (on_vote_completed_returns (tab_number b1) (callback_time env)
                  (put_bot i b1 m) Hfree) as (m2 & E2 & Hbots2 & _ & Hlock2 & _).
      rewrite E2. cbn [option_map]. eexists; exists b1.
      split; [reflexivity|]. cbn [next_control acted_on counted next_manager].
      repeat split.
      * unfold lock_free. rewrite Hlock2. discriminate.
      * rewrite Hbots2. exact Hb1.
    + cbn [option_map]. eexists; exists b1.
      split; [reflexivity|]. cbn [next_control acted_on counted next_manager].
      repeat split; [exact Hfree | exact Hb1].
Qed.

(** A run of passes on the confirmation page, no click succeeding: which
    passes count, and what the bot is like at the end. *)
Lemma confirmation_run (i : nat) (max_votes : Z) (envs : list iteration_env) :
  forall (m : manager) (lv : locals) (b : bot),
  envs <> [] ->
  bots m !! i = Some b -> lock_free m -> has_browser_manager b = true ->
  max_votes <= 0 \/ vote_count b + (if last_confirmation_detected b then 0 else 1)
                   < max_votes ->
  Forall (confirmation_pass (participant_name b)) envs ->
  exists outs o b',
    run_iterations i max_votes envs m lv = Some outs
    /\ length outs = length envs
    /\ Forall (fun o => acted_on o = Some STATE_CONFIRMATION) outs
    /\ map counted outs
       = negb (last_confirmation_detected b) :: repeat false (length envs - 1)
    /\ last outs = Some o
    /\ bots (next_manager o) !! i = Some b'
    /\ vote_count b' = vote_count b + (if last_confirmation_detected b then 0 else 1)
    /\ last_confirmation_detected b' = true.
Proof.
  induction envs as [|env rest IH]; intros m lv b Hne Hb Hfree Hbm Hcap Hall;
    [congruence|].
  inversion Hall as [|? ? Henv Hrest]; subst.
  assert (Hcap1 : max_votes <= 0 \/ vote_count b < max_votes).
  { destruct Hcap as [Hcap | Hcap]; [left; exact Hcap | right].
    destruct (last_confirmation_detected b); lia. }
  destruct (confirmation_pass_runs i max_votes env m lv b Hb Hfree Hbm Hcap1 Henv)
    as (o1 & b1 & E1 & Hctl & Hact & Hcounted & Hfree1 & Hb1 & Eb1).
  cbn [run_iterations]. rewrite E1, Hctl.
  assert (Hcount1 : vote_count b1
                    = vote_count b + (if last_confirmation_detected b then 0 else 1)).
  { rewrite Eb1. destruct (last_confirmation_detected b); cbn; lia. }
  assert (Hflag1 : last_confirmation_detected b1 = true).
  { rewrite Eb1. destruct (last_confirmation_detected b) eqn:Ef; [exact Ef | reflexivity]. }
  assert (Hname1 : participant_name b1 = participant_name b).
  { rewrite Eb1. destruct (last_confirmation_detected b); reflexivity. }
  assert (Hbm1 : has_browser_manager b1 = true).
  { rewrite Eb1. destruct (last_confirmation_detected b); exact Hbm. }
  destruct rest as [|env2 rest'].
  - exists [o1], o1, b1. cbn [run_iterations option_map length map repeat Nat.sub].
    split; [reflexivity|]. split; [reflexivity|].
    split; [constructor; [exact Hact | constructor]|].
    split; [rewrite Hcounted; reflexivity|].
    split; [reflexivity|]. split; [exact Hb1|]. split; assumption.
  - destruct (IH (next_manager o1) (next_locals o1) b1) as
      (outs & o & b' & E & Hlen & Hacts & Hcounts & Hlast & Hb' & Hcount' & Hflag').
    + discriminate.
    + exact Hb1.
    + exact Hfree1.
    + exact Hbm1.
    + rewrite Hflag1, Hcount1. destruct Hcap as [Hcap | Hcap]; [left; exact Hcap | right; lia].
    + rewrite Hname1. exact Hrest.
    + rewrite E. cbn [option_map]. exists (o1 :: outs), o, b'.
      split; [reflexivity|]. split; [cbn [length]; rewrite Hlen; reflexivity|].
      split; [constructor; assumption|].
      split.
      { cbn [map]. rewrite Hcounted, Hcounts, Hflag1. cbn [negb length Nat.sub].
        rewrite Nat.sub_0_r. reflexivity. }
      split.
      { destruct outs as [|o2 outs']; [discriminate Hlen | exact Hlast]. }
      split; [exact Hb'|]. rewrite Hcount', Hflag1, Hcount1.
      split; [lia | exact Hflag'].
Qed.

Lemma times_counted_by_map (outs : list outcome) :
  times_counted outs = length (List.filter (fun c : bool => c) (map counted outs)).
Proof.
  unfold times_counted. induction outs as [|o outs IH]; [reflexivity|].
  cbn [List.filter map]. destruct (counted o); cbn [length]; rewrite IH; reflexivity.
Qed.

Lemma filter_repeat_false (n : nat) :
  List.filter (fun c : bool => c) (repeat false n) = [].
Proof. induction n as [|n IH]; [reflexivity | exact IH]. Qed.

End CountingOnce.

(** C2, as stated, fails. From a fresh worker: the first pass counts the
    confirmation and sets the flag, its click failing; the second pass
    lands on the error page, which leaves the flag alone; then three
    passes in a row classify the page as confirmation, no click
    succeeding. Across those three the count is not raised at all. *)
Lemma C2_counted_confirmation_is_not_counted_again :
  exists o1 o2 o3 o4 o5 b2 b5,
    VoteLoop.run_iterations 0 (-1)
      [ FleetExamples.confirmation_env; MoreExamples.error_env;
        FleetExamples.confirmation_env; FleetExamples.confirmation_env;
        FleetExamples.confirmation_env ]
      FleetExamples.fresh_manager VoteLoop.initial_locals = Some [ o1; o2; o3; o4; o5 ]
    /\ VoteLoop.acted_on o2 = Some Bot.STATE_ERROR
    /\ Forall (fun o => VoteLoop.acted_on o = Some Bot.STATE_CONFIRMATION) [ o3; o4; o5 ]
    /\ Bot.click_vote_again (VoteLoop.page_on_click FleetExamples.confirmation_env) = false
    /\ BrowserManager.bots (VoteLoop.next_manager o2) !! 0%nat = Some b2
    /\ BrowserManager.bots (VoteLoop.next_manager o5) !! 0%nat = Some b5
    /\ Bot.vote_count b2 = 1
    /\ Bot.vote_count b5 = 1
    /\ FleetSpec.times_counted [ o3; o4; o5 ] = 0%nat.
Proof.
  do 7 eexists. split; [vm_compute; reflexivity|].
  split; [reflexivity|]. split; [repeat constructor|].
  repeat split; vm_compute; reflexivity.
Qed.

(** C2, amended. For every N >= 1: let a bot with a manager make N passes
    in a row, each of which reaches the classifier, finds the
    confirmation page and fails to click on, the cap on votes being out
    of reach. Then all N passes return and act on [STATE_CONFIRMATION],
    and the count goes up at most once: the first pass runs the counting
    block (increment, flag, callback) exactly when the "already counted"
    flag is unset as the run begins, and no later pass runs it. So the
    count ends one higher when the flag was unset and unchanged when it
    was set, and the flag is set at the end either way. *)
Theorem C2_confirmation_counted_at_most_once (i : nat) (max_votes : Z)
  (envs : list VoteLoop.iteration_env) (m : BrowserManager.manager)
  (lv : VoteLoop.locals) (b : Bot.bot) :
  envs <> [] ->
  BrowserManager.bots m !! i = Some b ->
  FleetSpec.lock_free m ->
  Bot.has_browser_manager b = true ->
  max_votes <= 0 \/ Bot.vote_count b + 1 < max_votes ->
  Forall (FleetSpec.confirmation_pass (Bot.participant_name b)) envs ->
  exists outs o b',
    VoteLoop.run_iterations i max_votes envs m lv = Some outs
    /\ length outs = length envs
    /\ Forall (fun o => VoteLoop.acted_on o = Some Bot.STATE_CONFIRMATION) outs
    /\ map VoteLoop.counted outs
       = negb (Bot.last_confirmation_detected b) :: repeat false (length envs - 1)
    /\ FleetSpec.times_counted outs
       = (if Bot.last_confirmation_detected b then 0 else 1)%nat
    /\ last outs = Some o
    /\ BrowserManager.bots (VoteLoop.next_manager o) !! i = Some b'
    /\ Bot.vote_count b'
       = Bot.vote_count b + (if Bot.last_confirmation_detected b then 0 else 1)
    /\ Bot.last_confirmation_detected b' = true.
Proof.
  intros Hne Hb Hfree Hbm Hcap Hall.
  destruct (confirmation_run i max_votes envs m lv b Hne Hb Hfree Hbm) as
    (outs & o & b' & E & Hlen & Hacts & Hcounts & Hlast & Hb' & Hcount & Hflag).
  - destruct Hcap as [Hcap | Hcap]; [left; exact Hcap | right].
    destruct (Bot.last_confirmation_detected b); lia.
  - exact Hall.
  - exists outs, o, b'. repeat split; try assumption.
    rewrite times_counted_by_map, Hcounts. cbn [List.filter].
    destruct (Bot.last_confirmation_detected b); cbn [negb];
      rewrite filter_repeat_false; reflexivity.
Qed.

Lemma C2_witness :
  (exists outs o b',
     VoteLoop.run_iterations 0 (-1)
       [ FleetExamples.confirmation_env; FleetExamples.confirmation_env;
         FleetExamples.confirmation_env ]
       FleetExamples.fresh_manager VoteLoop.initial_locals = Some outs
     /\ length outs = 3%nat
     /\ map VoteLoop.counted outs = [ true; false; false ]
     /\ last outs = Some o
     /\ BrowserManager.bots (VoteLoop.next_manager o) !! 0%nat = Some b'
     /\ Bot.vote_count b' = 1)
  /\ (exists outs o b',
       VoteLoop.run_iterations 0 (-1)
         [ FleetExamples.confirmation_env; FleetExamples.confirmation_env;
           FleetExamples.confirmation_env ]
         FleetExamples.counted_manager VoteLoop.initial_locals = Some outs
       /\ map VoteLoop.counted outs = [ false; false; false ]
       /\ last outs = Some o
       /\ BrowserManager.bots (VoteLoop.next_manager o) !! 0%nat = Some b'
       /\ Bot.vote_count b' = 1).
Proof.
  assert (Hpass : Forall (FleetSpec.confirmation_pass "Alice")
                    [ FleetExamples.confirmation_env; FleetExamples.confirmation_env;
                      FleetExamples.confirmation_env ])
    by (repeat constructor; vm_compute; reflexivity).
  split.
  - destruct (C2_confirmation_counted_at_most_once 0 (-1)
                [ FleetExamples.confirmation_env; FleetExamples.confirmation_env;
                  FleetExamples.confirmation_env ]
                FleetExamples.fresh_manager VoteLoop.initial_locals (Bot.new_bot "Alice" 1)
                ltac:(discriminate) ltac:(reflexivity)
                ltac:(unfold FleetSpec.lock_free; vm_compute; discriminate)
                ltac:(reflexivity) ltac:(left; lia) Hpass)
      as (outs & o & b' & E & Hlen & _ & Hcounts & _ & Hlast & Hb' & Hcount & _).
    exists outs, o, b'. repeat split; assumption.
  - destruct (C2_confirmation_counted_at_most_once 0 (-1)
                [ FleetExamples.confirmation_env; FleetExamples.confirmation_env;
                  FleetExamples.confirmation_env ]
                FleetExamples.counted_manager VoteLoop.initial_locals
                FleetExamples.counted_bot
                ltac:(discriminate) ltac:(reflexivity)
                ltac:(unfold FleetSpec.lock_free; vm_compute; discriminate)
                ltac:(reflexivity) ltac:(left; lia) Hpass)
      as (outs & o & b' & E & _ & _ & Hcounts & _ & Hlast & Hb' & Hcount & _).
    exists outs, o, b'. repeat split; assumption.
Defined.

(** C4, as stated, fails. From a fresh worker: the first pass counts the
    confirmation and sets the flag, its click failing; the second pass
    finds the voting page and clears the flag, although no
    [click_vote_again] has succeeded in either pass. *)
Lemma C4_voting_pass_clears_flag :
  exists o1 o2 b1 b2,
    VoteLoop.run_iterations 0 (-1)
      [ FleetExamples.confirmation_env; FleetExamples.voting_env ]
      FleetExamples.fresh_manager VoteLoop.initial_locals = Some [ o1; o2 ]
    /\ BrowserManager.bots (VoteLoop.next_manager o1) !! 0%nat = Some b1
    /\ Bot.last_confirmation_detected b1 = true
    /\ BrowserManager.bots (VoteLoop.next_manager o2) !! 0%nat = Some b2
    /\ Bot.last_confirmation_detected b2 = false
    /\ VoteLoop.acted_on o2 = Some Bot.STATE_VOTING
    /\ Bot.click_vote_again (VoteLoop.page_on_click FleetExamples.confirmation_env) = false
    /\ Bot.click_vote_again (VoteLoop.page_on_click FleetExamples.voting_env) = false.
Proof.
  do 4 eexists. split; [vm_compute; reflexivity|].
  repeat split; vm_compute; reflexivity.
Qed.

(** C4, amended. Within one pass of the loop a set flag is cleared in two
    places only: where [click_vote_again] has just succeeded on a page
    classified [STATE_CONFIRMATION], and where the page is classified
    [STATE_VOTING] (a new voting cycle). Every other pass leaves a set
    flag set. *)
Theorem C4_flag_cleared_by_click_or_voting (i : nat) (max_votes : Z)
  (env : VoteLoop.iteration_env) (m : BrowserManager.manager) (lv : VoteLoop.locals)
  (b b' : Bot.bot) (o : VoteLoop.outcome) :
  BrowserManager.bots m !! i = Some b ->
  VoteLoop.run_iteration i max_votes env m lv = Some o ->
  BrowserManager.bots (VoteLoop.next_manager o) !! i = Some b' ->
  Bot.last_confirmation_detected b = true ->
  Bot.last_confirmation_detected b' = false ->
  (VoteLoop.acted_on o = Some Bot.STATE_CONFIRMATION
   /\ Bot.click_vote_again (VoteLoop.page_on_click env) = true)
  \/ VoteLoop.acted_on o = Some Bot.STATE_VOTING.
Proof.
  intros Hb Hrun Hb' Hset Hclear.
  unfold VoteLoop.run_iteration in Hrun. rewrite Hb in Hrun.
  assert (Hsame : forall o0, o = o0 -> VoteLoop.next_manager o0 = m -> False).
  { intros o0 -> Hm. rewrite Hm, Hb in Hb'. congruence. }
  destruct (VoteLoop.check_page b env lv) as [[|s0]|].
  - injection Hrun as Hrun. exfalso. apply (Hsame _ (eq_sym Hrun)). reflexivity.
  - match type of Hrun with context [if ?c then _ else _] => destruct c end.
    + injection Hrun as Hrun. exfalso. apply (Hsame _ (eq_sym Hrun)). reflexivity.
    + match type of Hrun with context [match ?x with Bot.STATE_VOTING => _ | _ => _ end] =>
        destruct x eqn:Es end.
      * injection Hrun as <-. right. reflexivity.
      * unfold VoteLoop.on_confirmation in Hrun. rewrite Hset in Hrun.
        destruct (Bot.click_vote_again (VoteLoop.page_on_click env)) eqn:Eclick.
        -- cbn [option_map] in Hrun. injection Hrun as <-. left. split; reflexivity.
        -- cbn [option_map] in Hrun. injection Hrun as Hrun. exfalso.
           apply (Hsame _ (eq_sym Hrun)). reflexivity.
      * injection Hrun as Hrun. exfalso. apply (Hsame _ (eq_sym Hrun)). reflexivity.
      * injection Hrun as Hrun. exfalso. apply (Hsame _ (eq_sym Hrun)). reflexivity.
      * injection Hrun as Hrun. exfalso. apply (Hsame _ (eq_sym Hrun)). reflexivity.
  - injection Hrun as Hrun. exfalso. apply (Hsame _ (eq_sym Hrun)). reflexivity.
Qed.

Lemma C4_witness :
  exists o,
    VoteLoop.run_iteration 0 (-1) FleetExamples.voting_env
      FleetExamples.counted_manager VoteLoop.initial_locals = Some o
    /\ ((VoteLoop.acted_on o = Some Bot.STATE_CONFIRMATION
         /\ Bot.click_vote_again (VoteLoop.page_on_click FleetExamples.voting_env) = true)
        \/ VoteLoop.acted_on o = Some Bot.STATE_VOTING).
Proof.
  eexists. split; [vm_compute; reflexivity|].
  apply (C4_flag_cleared_by_click_or_voting 0 (-1) FleetExamples.voting_env
           FleetExamples.counted_manager VoteLoop.initial_locals
           FleetExamples.counted_bot
           (Bot.set_last_confirmation_detected false FleetExamples.counted_bot)).
  - reflexivity.
  - vm_compute. reflexivity.
  - reflexivity.
  - reflexivity.
  - reflexivity.
Defined.

(** ** The fleet counter *)

Section FleetCounter.
Import Bot BrowserManager VoteLoop FleetSpec.

Lemma count_vote_lock_free (i : nat) (m : manager) :
  lock_free m -> lock_free (count_vote i m).
Proof. unfold count_vote. destruct (bots m !! i); intros H; exact H. Qed.

Lemma after_completions_sound (events : list event) :
  forall m, lock_free m ->
  exists snapshots, after_completions events m = Some snapshots
    /\ length snapshots = length (List.filter is_completion events)
    /\ Forall (fun m' => total_votes m' = sum_of_vote_counts m' /\ lock_free m') snapshots.
Proof.
  induction events as [|[i | tab now] rest IH]; intros m Hfree.
  - exists []. repeat split. constructor.
  - cbn [after_completions List.filter is_completion].
    apply IH, count_vote_lock_free, Hfree.
  - cbn [after_completions List.filter is_completion].
    destruct (on_vote_completed_returns tab now m Hfree) as (m' & E & Hbots & Htotal & Hlock & _).
    assert (Hfree' : lock_free m') by (unfold lock_free; rewrite Hlock; discriminate).
    destruct (IH m' Hfree') as (snaps & Es & Hlen & Hall).
    rewrite E, Es. exists (m' :: snaps). split; [reflexivity|].
    split; [cbn; congruence|].
    constructor; [|exact Hall]. split; [|exact Hfree'].
    rewrite Htotal. unfold sum_of_vote_counts. rewrite Hbots. reflexivity.
Qed.

Lemma initial_bots_lookup (name : string) (n : nat) :
  forall (first : Z) (i : nat), (i < n)%nat ->
  initial_bots name first n !! i = Some (new_bot name (first + Z.of_nat i)).
Proof.
  induction n as [|n IH]; intros first i Hi; [lia|].
  destruct i as [|i]; cbn [initial_bots].
  - cbn. do 2 f_equal. lia.
  - change ((new_bot name first :: initial_bots name (first + 1) n) !! S i)
      with (initial_bots name (first + 1) n !! i).
    rewrite IH by lia. do 2 f_equal. lia.
Qed.

Lemma initial_bots_zero (name : string) (n : nat) :
  forall first, Forall (fun b => vote_count b = 0) (initial_bots name first n).
Proof. induction n as [|n IH]; intros first; constructor; [reflexivity | apply IH]. Qed.

Lemma sum_all_zero (l : list bot) :
  Forall (fun b => vote_count b = 0) l -> sum (map vote_count l) = 0.
Proof.
  unfold sum. induction 1 as [|b l Hb _ IH]; [reflexivity|].
  cbn [map fold_right]. rewrite Hb, IH. reflexivity.
Qed.

End FleetCounter.

(** C1. Whatever the workers have counted and in whatever order their
    completion callbacks arrive, every call of [_on_vote_completed]
    returns, and right after each return [total_votes] is the sum of
    [vote_count] over all workers. The handler takes the vote lock, sets
    the total to that sum whatever the total was before (no increment, no
    delta), and gives the lock back. The same holds at the end of every
    pass of a worker's loop that has counted a vote and called back. *)
Theorem C1_total_is_sum_after_each_completion
  (events : list FleetSpec.event) (m : BrowserManager.manager) :
  FleetSpec.lock_free m ->
  (exists snapshots, FleetSpec.after_completions events m = Some snapshots
     /\ length snapshots = length (List.filter FleetSpec.is_completion events)
     /\ Forall (fun m' => BrowserManager.total_votes m' = FleetSpec.sum_of_vote_counts m'
                          /\ FleetSpec.lock_free m') snapshots)
  /\ (forall tab now previous_total,
        option_map BrowserManager.total_votes
          (BrowserManager._on_vote_completed tab now
             (BrowserManager.set_total_votes previous_total m))
        = Some (FleetSpec.sum_of_vote_counts m))
  /\ (forall tab now m',
        BrowserManager._on_vote_completed tab now m = Some m' ->
        exists held, BrowserManager.enter_vote_lock m = Some held
          /\ BrowserManager.vote_lock held = Some true
          /\ m' = BrowserManager.leave_vote_lock
                    (BrowserManager.on_vote_completed_locked now held))
  /\ (forall i max_votes env lv b,
        BrowserManager.bots m !! i = Some b ->
        Bot.has_vote_callback b = true ->
        exists o, VoteLoop.run_iteration i max_votes env m lv = Some o
          /\ (VoteLoop.counted o = true ->
              BrowserManager.total_votes (VoteLoop.next_manager o)
              = FleetSpec.sum_of_vote_counts (VoteLoop.next_manager o))).
Proof.
  intros Hfree. split; [apply after_completions_sound, Hfree|].
  split; [|split; [|
    intros i max_votes env lv b Hb Hcb;
    destruct (run_iteration_returns i max_votes env m lv b Hb Hfree)
      as (o & b' & E & _ & _ & _ & Htotal & _);
    exists o; split; [exact E | intros Hc; exact (Htotal Hc Hcb)]]].
  - intros tab now t.
    assert (Hfree' : FleetSpec.lock_free (BrowserManager.set_total_votes t m)) by exact Hfree.
    destruct (on_vote_completed_returns tab now _ Hfree') as (m' & E & _ & Htotal & _).
    rewrite E. cbn [option_map]. rewrite Htotal. reflexivity.
  - intros tab now m'. unfold BrowserManager._on_vote_completed.
    destruct (BrowserManager.enter_vote_lock m) as [held|] eqn:E; [|discriminate].
    intros H. injection H as <-. exists held. split; [reflexivity|]. split; [|reflexivity].
    unfold BrowserManager.enter_vote_lock in E.
    destruct (BrowserManager.vote_lock m) as [[]|]; try discriminate;
      injection E as <-; reflexivity.
Qed.

Lemma C1_witness :
  exists snapshots,
    FleetSpec.after_completions
      [ FleetSpec.Counted 0; FleetSpec.Counted 1;
        FleetSpec.Completed 2 "2026-02-03 21:00:07";
        FleetSpec.Completed 1 "2026-02-03 21:00:07";
        FleetSpec.Counted 1; FleetSpec.Completed 2 "2026-02-03 21:01:15" ]
      FleetExamples.seeded_manager = Some snapshots
    /\ map BrowserManager.total_votes snapshots = [ 2; 2; 3 ]
    /\ Forall (fun m' => BrowserManager.total_votes m' = FleetSpec.sum_of_vote_counts m'
                         /\ FleetSpec.lock_free m') snapshots.
Proof.
  destruct (proj1 (C1_total_is_sum_after_each_completion
             [ FleetSpec.Counted 0; FleetSpec.Counted 1;
               FleetSpec.Completed 2 "2026-02-03 21:00:07";
               FleetSpec.Completed 1 "2026-02-03 21:00:07";
               FleetSpec.Counted 1; FleetSpec.Completed 2 "2026-02-03 21:01:15" ]
             FleetExamples.seeded_manager
             ltac:(unfold FleetSpec.lock_free; vm_compute; discriminate)))
    as (snapshots & E & _ & Hall).
  exists snapshots. split; [exact E|]. split; [|exact Hall].
  vm_compute in E. injection E as <-. reflexivity.
Defined.

(** C10. The counter is seeded from the persisted file, every worker
    starts at zero, and the first completed-vote callback of the session
    replaces the total by the sum of the workers' counts: with any
    positive seed S the total after that first completion is 1, not S + 1;
    the seed is dropped, not built upon. *)
Theorem C10_seed_dropped_at_first_completion
  (name : string) (num_tabs : nat)
  (counter : option BrowserManager.counter_file)
  (statistics : option BrowserManager.stats) (start : BrowserManager.datetime)
  (i : nat) (max_votes : Z) (env : VoteLoop.iteration_env) (lv : VoteLoop.locals) :
  0 < BrowserManager._load_vote_counter counter ->
  (i < num_tabs)%nat ->
  BrowserManager.total_votes
    (BrowserManager.start_session start (BrowserManager.init name num_tabs counter statistics))
  = BrowserManager._load_vote_counter counter
  /\ Forall (fun b => Bot.vote_count b = 0)
       (BrowserManager.bots
          (BrowserManager.start_session start
             (BrowserManager.init name num_tabs counter statistics)))
  /\ exists o,
       VoteLoop.run_iteration i max_votes env
         (BrowserManager.start_session start
            (BrowserManager.init name num_tabs counter statistics)) lv = Some o
       /\ (VoteLoop.counted o = true ->
           BrowserManager.total_votes (VoteLoop.next_manager o) = 1
           /\ BrowserManager.total_votes (VoteLoop.next_manager o)
              < BrowserManager._load_vote_counter counter + 1).
Proof.
  intros Hseed Hi.
  set (m := BrowserManager.start_session start
              (BrowserManager.init name num_tabs counter statistics)).
  assert (Hzero : Forall (fun b => Bot.vote_count b = 0) (BrowserManager.bots m))
    by apply initial_bots_zero.
  split; [reflexivity|]. split; [exact Hzero|].
  assert (Hb : BrowserManager.bots m !! i = Some (Bot.new_bot name (1 + Z.of_nat i)))
    by (apply initial_bots_lookup; exact Hi).
  assert (Hfree : FleetSpec.lock_free m) by (unfold FleetSpec.lock_free; cbn; discriminate).
  destruct (run_iteration_returns i max_votes env m lv _ Hb Hfree)
    as (o & b' & E & _ & _ & Hbots & Htotal & Hcase).
  exists o. split; [exact E|]. intros Hcounted.
  assert (H1 : BrowserManager.total_votes (VoteLoop.next_manager o) = 1).
  { rewrite (Htotal Hcounted eq_refl). unfold FleetSpec.sum_of_vote_counts.
    rewrite Hbots, (sum_map_insert Bot.vote_count _ i _ b' Hb), (sum_all_zero _ Hzero).
    destruct (VoteLoop.acted_on o) as [[]|]; cbn in Hcase;
      destruct Hcase as (Hc & _ & Hn & _) || destruct Hcase as (Hc & _ & Hn);
      try congruence.
    rewrite Hc. reflexivity. }
  rewrite H1. split; [reflexivity | lia].
Qed.

Lemma C10_witness :
  exists o,
    VoteLoop.run_iteration 1 (-1) FleetExamples.confirmation_env
      FleetExamples.seeded_manager VoteLoop.initial_locals = Some o
    /\ VoteLoop.counted o = true
    /\ BrowserManager.total_votes FleetExamples.seeded_manager = 40
    /\ BrowserManager.total_votes (VoteLoop.next_manager o) = 1.
Proof.
  destruct (C10_seed_dropped_at_first_completion "Alice" 2
              (Some FleetExamples.counter_40) None "2026-02-03 21:00:00"
              1 (-1) FleetExamples.confirmation_env VoteLoop.initial_locals
              ltac:(reflexivity) ltac:(lia))
    as (Hseed & _ & o & E & Htotal).
  exists o. split; [exact E|].
  assert (Hc : VoteLoop.counted o = true).
  { vm_compute in E. injection E as <-. reflexivity. }
  split; [exact Hc|]. split; [exact Hseed|]. apply (Htotal Hc).
Defined.

(** ** The persisted statistics *)

Section Statistics.
Import Bot BrowserManager FleetSpec.

Lemma same_start_true (start : string) (s : session_info) :
  same_start start s = true <-> data_inicio s = Some start.
Proof.
  unfold same_start. destruct (data_inicio s) as [d|].
  - rewrite String.eqb_eq. split; congruence.
  - split; discriminate.
Qed.

Lemma replace_first_starts (start : string) (info : session_info) (l : list session_info) :
  data_inicio info = Some start ->
  map data_inicio (replace_first start info l) = map data_inicio l.
Proof.
  intros Hinfo. induction l as [|s l IH]; [reflexivity|].
  cbn [replace_first]. destruct (same_start start s) eqn:E.
  - apply same_start_true in E. cbn [map]. congruence.
  - cbn [map]. rewrite IH. reflexivity.
Qed.

Lemma replace_first_length (start : string) (info : session_info) (l : list session_info) :
  length (replace_first start info l) = length l.
Proof.
  induction l as [|s l IH]; [reflexivity|].
  cbn [replace_first]. destruct (same_start start s); cbn [length]; congruence.
Qed.

Lemma replace_first_In (start : string) (info : session_info) (l : list session_info) :
  existsb (same_start start) l = true -> In info (replace_first start info l).
Proof.
  induction l as [|s l IH]; [discriminate|].
  cbn [existsb replace_first]. destruct (same_start start s); cbn [orb].
  - intros _. left. reflexivity.
  - intros H. right. apply IH, H.
Qed.

Lemma no_same_start (start : string) (l : list session_info) :
  existsb (same_start start) l = false -> ~ In (Some start) (map data_inicio l).
Proof.
  induction l as [|s l IH]; cbn [existsb map]; [intros _ []|].
  intros H. apply orb_false_iff in H as [Hs Hl]. intros [Hin | Hin].
  - apply same_start_true in Hin. congruence.
  - exact (IH Hl Hin).
Qed.

Lemma NoDup_snoc_fresh {A} (l : list A) (x : A) :
  NoDup l -> ~ In x l -> NoDup (l ++ [x]).
Proof.
  intros Hl Hx. apply NoDup_app. split; [exact Hl|]. split; [|apply NoDup_singleton].
  intros a Ha Hax. apply list_elem_of_In in Ha, Hax.
  destruct Hax as [<- | []]. exact (Hx Ha).
Qed.

Lemma upsert_session_starts_NoDup (start : string) (info : session_info)
  (l : list session_info) :
  data_inicio info = Some start ->
  NoDup (map data_inicio l) -> NoDup (map data_inicio (upsert_session start info l)).
Proof.
  intros Hinfo Hl. unfold upsert_session.
  destruct (existsb (same_start start) l) eqn:E.
  - rewrite replace_first_starts by exact Hinfo. exact Hl.
  - rewrite map_app. cbn [map]. rewrite Hinfo.
    apply NoDup_snoc_fresh; [exact Hl | apply no_same_start, E].
Qed.

Lemma upsert_session_length (start : string) (info : session_info) (l : list session_info) :
  length (upsert_session start info l)
  = if existsb (same_start start) l then length l else S (length l).
Proof.
  unfold upsert_session. destruct (existsb (same_start start) l).
  - apply replace_first_length.
  - rewrite length_app. cbn. lia.
Qed.

Lemma keep_last_100_suffix (l : list session_info) :
  exists older, l = older ++ keep_last_100 l.
Proof.
  unfold keep_last_100. destruct (100 <? length l)%nat.
  - exists (firstn (length l - 100) l). symmetry. apply firstn_skipn.
  - exists []. reflexivity.
Qed.

Lemma keep_last_100_length (l : list session_info) : (length (keep_last_100 l) <= 100)%nat.
Proof.
  unfold keep_last_100. destruct (100 <? length l)%nat eqn:E.
  - rewrite length_skipn. lia.
  - apply Nat.ltb_ge in E. exact E.
Qed.

Lemma keep_last_100_NoDup (l : list session_info) :
  NoDup (map data_inicio l) -> NoDup (map data_inicio (keep_last_100 l)).
Proof.
  destruct (keep_last_100_suffix l) as (older & E). intros H.
  rewrite E, map_app in H. apply NoDup_app in H. tauto.
Qed.

Lemma keep_last_100_In_last (l : list session_info) (x : session_info) :
  In x (keep_last_100 (l ++ [x])).
Proof.
  unfold keep_last_100. destruct (100 <? length (l ++ [x]))%nat eqn:E.
  - rewrite length_app in *. cbn [length] in *. apply Nat.ltb_lt in E.
    rewrite skipn_app.
    replace (length l + 1 - 100 - length l)%nat with 0%nat by lia.
    apply in_or_app. right. left. reflexivity.
  - apply in_or_app. right. left. reflexivity.
Qed.

Lemma keep_last_100_small (l : list session_info) :
  (length l <= 100)%nat -> keep_last_100 l = l.
Proof.
  intros H. unfold keep_last_100.
  destruct (100 <? length l)%nat eqn:E; [|reflexivity].
  apply Nat.ltb_lt in E. lia.
Qed.

Lemma persisted_sessions_loaded (file : option stats) :
  get_sessoes (_load_vote_stats file) = persisted_sessions file.
Proof. destruct file as [s|]; reflexivity. Qed.

Lemma persisted_historico_loaded (file : option stats) :
  get_total_historico (_load_vote_stats file) = persisted_historico file.
Proof. destruct file as [s|]; reflexivity. Qed.

Lemma keep_last_100_most_recent (l : list session_info) :
  keep_last_100 l = most_recent 100 l.
Proof.
  unfold keep_last_100, most_recent. destruct (100 <? length l)%nat eqn:E; [reflexivity|].
  apply Nat.ltb_ge in E. replace (length l - 100)%nat with 0%nat by lia. reflexivity.
Qed.

Lemma same_start_false (start : string) (s : session_info) :
  same_start start s = false <-> data_inicio s <> Some start.
Proof.
  rewrite <- same_start_true. destruct (same_start start s); split; congruence.
Qed.

Lemma no_same_start_Forall (start : string) (l : list session_info) :
  existsb (same_start start) l = false ->
  Forall (fun x => data_inicio x <> Some start) l.
Proof.
  induction l as [|s l IH]; cbn [existsb]; [constructor|].
  intros H. apply orb_false_iff in H as [Hs Hl].
  constructor; [apply same_start_false, Hs | apply IH, Hl].
Qed.

Lemma replace_first_split (start : string) (info : session_info) (l : list session_info) :
  existsb (same_start start) l = true ->
  exists l1 old l2,
    l = l1 ++ old :: l2
    /\ Forall (fun x => data_inicio x <> Some start) l1
    /\ data_inicio old = Some start
    /\ replace_first start info l = l1 ++ info :: l2.
Proof.
  induction l as [|s l IH]; [discriminate|].
  cbn [existsb replace_first]. destruct (same_start start s) eqn:Es.
  - intros _. apply same_start_true in Es.
    exists [], s, l. split; [reflexivity|]. split; [constructor|]. split; [exact Es|].
    reflexivity.
  - cbn [orb]. intros H. destruct (IH H) as (l1 & old & l2 & El & Hl1 & Hold & Er).
    apply same_start_false in Es.
    exists (s :: l1), old, l2. split; [rewrite El; reflexivity|].
    split; [constructor; assumption|]. split; [exact Hold|].
    rewrite Er. reflexivity.
Qed.

(** [upsert_session] puts the record in. *)
Lemma upsert_session_put_in (start : string) (info : session_info) (l : list session_info) :
  put_in start info l (upsert_session start info l).
Proof.
  unfold upsert_session. destruct (existsb (same_start start) l) eqn:E.
  - destruct (replace_first_split start info l E) as (l1 & old & l2 & El & Hl1 & Hold & Er).
    rewrite Er, El. apply put_in_place; assumption.
  - apply put_at_end, no_same_start_Forall, E.
Qed.

Lemma session_has_votes_true (m : manager) :
  session_has_votes m = true <->
  0 < total_votes m - session_start_votes m \/ 0 < sum_of_vote_counts m.
Proof.
  unfold session_has_votes, sum_of_vote_counts, votes_per_tab.
  rewrite orb_true_iff, !Z.ltb_lt. reflexivity.
Qed.

(** The session list that a save writes, by the two cases of line 153. *)
Lemma saved_sessions (now : datetime) (m : manager) :
  (forall start, session_to_record m start ->
     get_sessoes (vote_stats_to_save now m)
     = most_recent 100
         (upsert_session start (current_session_info now m start)
            (persisted_sessions (vote_stats_json m))))
  /\ ((forall start, ~ session_to_record m start) ->
      sessoes (vote_stats_to_save now m) = sessoes (_load_vote_stats (vote_stats_json m))).
Proof.
  unfold session_to_record, vote_stats_to_save. cbn [sessoes]. split.
  - intros start [Hstart Hvotes]. apply session_has_votes_true in Hvotes.
    rewrite Hstart, Hvotes. cbn [get_sessoes sessoes].
    rewrite keep_last_100_most_recent, persisted_sessions_loaded. reflexivity.
  - intros Hnone. destruct (session_start_time m) as [start|]; [|reflexivity].
    destruct (session_has_votes m) eqn:Hvotes; [|reflexivity].
    exfalso. apply (Hnone start). split; [reflexivity|].
    apply session_has_votes_true, Hvotes.
Qed.

Lemma most_recent_within (l : list session_info) :
  NoDup (map data_inicio l) -> within_bounds (most_recent 100 l).
Proof.
  intros Hnd. rewrite <- keep_last_100_most_recent.
  split; [apply keep_last_100_length | apply keep_last_100_NoDup, Hnd].
Qed.

(** A save, however its write ends, keeps the list within bounds if it
    was within bounds. *)
Lemma save_keeps_within_bounds (w : write) (now : datetime) (m : manager) :
  within_bounds (persisted_sessions (vote_stats_json m)) ->
  within_bounds (persisted_sessions (vote_stats_json (_save_vote_stats_when w now m))).
Proof.
  intros Hok. unfold _save_vote_stats_when. cbn [vote_stats_json set_vote_stats_json].
  destruct w; cbn [file_after]; [|exact Hok|split; [cbn; lia | constructor]].
  change (within_bounds (get_sessoes (vote_stats_to_save now m))).
  destruct (session_start_time m) as [start|] eqn:Hstart.
  - destruct (session_has_votes m) eqn:Hvotes.
    + rewrite (proj1 (saved_sessions now m) start)
        by (split; [exact Hstart | apply session_has_votes_true, Hvotes]).
      apply most_recent_within, upsert_session_starts_NoDup; [reflexivity | apply Hok].
    + unfold get_sessoes. rewrite (proj2 (saved_sessions now m)).
      * fold (get_sessoes (_load_vote_stats (vote_stats_json m))).
        rewrite persisted_sessions_loaded. exact Hok.
      * intros s0 [_ H]. apply session_has_votes_true in H. congruence.
  - unfold get_sessoes. rewrite (proj2 (saved_sessions now m)).
    + fold (get_sessoes (_load_vote_stats (vote_stats_json m))).
      rewrite persisted_sessions_loaded. exact Hok.
    + intros s0 [H _]. congruence.
Qed.

Lemma file_after_saves_within (saves : list (write * datetime * manager)) :
  forall file, within_bounds (persisted_sessions file) ->
  within_bounds (persisted_sessions (file_after_saves saves file)).
Proof.
  induction saves as [|[[w now] m] rest IH]; intros file Hok; [exact Hok|].
  cbn [file_after_saves]. apply IH.
  apply (save_keeps_within_bounds w now (set_vote_stats_json file m)). exact Hok.
Qed.

Lemma most_recent_In_last {A} (n : nat) (l : list A) (x : A) :
  (0 < n)%nat -> In x (most_recent n (l ++ [x])).
Proof.
  intros Hn. unfold most_recent. rewrite length_app. cbn [length].
  rewrite skipn_app. apply in_or_app. right.
  replace (length l + 1 - n - length l)%nat with 0%nat by lia. left. reflexivity.
Qed.

End Statistics.

(** C9, as stated, fails. A statistics file in which one record stands
    101 times is loaded and written back by a save that has no session
    to record: the persisted list still has 101 records, more than 100,
    and the same start timestamp many times. A save that does record its
    session cuts the list to 100 records, of which the first two still
    share their start. *)
Lemma C9_crowded_file_stays_crowded :
  (exists after,
     BrowserManager.vote_stats_json
       (BrowserManager._save_vote_stats "2026-02-03 21:05:00"
          (BrowserManager.set_vote_stats_json (Some FleetExamples.crowded_stats)
             FleetExamples.fresh_manager)) = Some after
     /\ length (BrowserManager.get_sessoes after) = 101%nat
     /\ exists a b rest, BrowserManager.get_sessoes after = a :: b :: rest
          /\ BrowserManager.data_inicio a = BrowserManager.data_inicio b)
  /\ (exists after,
       BrowserManager.vote_stats_json
         (BrowserManager._save_vote_stats "2026-02-03 21:05:00"
            (BrowserManager.set_vote_stats_json (Some FleetExamples.crowded_stats)
               FleetExamples.counted_manager)) = Some after
       /\ length (BrowserManager.get_sessoes after) = 100%nat
       /\ exists a b rest, BrowserManager.get_sessoes after = a :: b :: rest
            /\ BrowserManager.data_inicio a = BrowserManager.data_inicio b).
Proof.
  split; (eexists; split; [reflexivity|]; split; [vm_compute; reflexivity|]);
    do 3 eexists; (split; [vm_compute; reflexivity | reflexivity]).
Qed.

(** C9, amended. A call of [_save_vote_stats] whose write goes through
    leaves a file in which the historical maximum is the larger of the
    value the file held (zero without a readable file) and the current
    total, so the maximum never goes down. If the session has started and
    has votes, its record is put in, in the place of the first record
    with the same start or at the end when there is none, and the list
    written is the most recent 100 records of the result, all of them
    when there are no more; otherwise the list is written back as
    loaded. The list written is within bounds (at most 100 records, no
    start twice) whenever the list loaded was, and then holds the record
    of the session; this is so after any series of saves that begins
    without a file, however their writes end. A write that fails leaves
    the file as it was, or unreadable. *)
Theorem C9_saved_statistics (w : BrowserManager.write)
  (now : BrowserManager.datetime) (m : BrowserManager.manager) :
  (w = BrowserManager.Written ->
   exists after,
     BrowserManager.vote_stats_json (BrowserManager._save_vote_stats_when w now m)
     = Some after
     /\ BrowserManager.total_historico after
        = Some (Z.max (FleetSpec.persisted_historico (BrowserManager.vote_stats_json m))
                      (BrowserManager.total_votes m))
     /\ FleetSpec.persisted_historico (BrowserManager.vote_stats_json m)
        <= FleetSpec.persisted_historico (Some after)
     /\ (forall start, FleetSpec.session_to_record m start ->
           exists info updated,
             BrowserManager.data_inicio info = Some start
             /\ BrowserManager.data_fim info = now
             /\ BrowserManager.votos_na_sessao info
                = BrowserManager.total_votes m - BrowserManager.session_start_votes m
             /\ BrowserManager.total_ao_final info = BrowserManager.total_votes m
             /\ FleetSpec.put_in start info
                  (FleetSpec.persisted_sessions (BrowserManager.vote_stats_json m)) updated
             /\ FleetSpec.persisted_sessions (Some after)
                = FleetSpec.most_recent 100 updated
             /\ (FleetSpec.within_bounds
                   (FleetSpec.persisted_sessions (BrowserManager.vote_stats_json m)) ->
                 In info (FleetSpec.persisted_sessions (Some after))))
     /\ ((forall start, ~ FleetSpec.session_to_record m start) ->
         FleetSpec.persisted_sessions (Some after)
         = FleetSpec.persisted_sessions (BrowserManager.vote_stats_json m)))
  /\ (w = BrowserManager.Refused ->
      BrowserManager.vote_stats_json (BrowserManager._save_vote_stats_when w now m)
      = BrowserManager.vote_stats_json m)
  /\ (w = BrowserManager.Torn ->
      BrowserManager.vote_stats_json (BrowserManager._save_vote_stats_when w now m) = None)
  /\ (FleetSpec.within_bounds
        (FleetSpec.persisted_sessions (BrowserManager.vote_stats_json m)) ->
      FleetSpec.within_bounds
        (FleetSpec.persisted_sessions
           (BrowserManager.vote_stats_json (BrowserManager._save_vote_stats_when w now m))))
  /\ (forall saves,
        FleetSpec.within_bounds
          (FleetSpec.persisted_sessions (FleetSpec.file_after_saves saves None))).
Proof.
  split; [|split; [|split; [|split]]].
  - intros ->. eexists. split; [reflexivity|].
    split; [|split; [|split]].
    + cbn [BrowserManager.vote_stats_to_save BrowserManager.total_historico].
      rewrite persisted_historico_loaded. reflexivity.
    + cbn [FleetSpec.persisted_historico BrowserManager.vote_stats_to_save
           BrowserManager.total_historico].
      rewrite persisted_historico_loaded. apply Z.le_max_l.
    + intros start Hrec.
      exists (BrowserManager.current_session_info now m start),
             (BrowserManager.upsert_session start
                (BrowserManager.current_session_info now m start)
                (FleetSpec.persisted_sessions (BrowserManager.vote_stats_json m))).
      split; [reflexivity|]. split; [reflexivity|]. split; [reflexivity|].
      split; [reflexivity|]. split; [apply upsert_session_put_in|].
      assert (Esaved : FleetSpec.persisted_sessions
                         (Some (BrowserManager.vote_stats_to_save now m))
                       = FleetSpec.most_recent 100
                           (BrowserManager.upsert_session start
                              (BrowserManager.current_session_info now m start)
                              (FleetSpec.persisted_sessions
                                 (BrowserManager.vote_stats_json m))))
        by exact (proj1 (saved_sessions now m) start Hrec).
      split; [exact Esaved|].
      intros [Hlen _]. rewrite Esaved. unfold BrowserManager.upsert_session.
      destruct (existsb (BrowserManager.same_start start)
                  (FleetSpec.persisted_sessions (BrowserManager.vote_stats_json m))) eqn:E.
      * rewrite <- keep_last_100_most_recent.
        rewrite keep_last_100_small by (rewrite replace_first_length; exact Hlen).
        apply replace_first_In, E.
      * apply most_recent_In_last. lia.
    + intros Hnone.
      pose proof (proj2 (saved_sessions now m) Hnone) as E.
      change (BrowserManager.get_sessoes (BrowserManager.vote_stats_to_save now m)
              = FleetSpec.persisted_sessions (BrowserManager.vote_stats_json m)).
      unfold BrowserManager.get_sessoes. rewrite E.
      apply persisted_sessions_loaded.
  - intros ->. reflexivity.
  - intros ->. reflexivity.
  - apply save_keeps_within_bounds.
  - intros saves. apply file_after_saves_within. split; [cbn; lia | constructor].
Qed.

(** ** The wait for the challenge *)

Section CaptchaWait.
Import CaptchaHandler.

(** A pass that gives up without sleeping: its guarded block raised, or
    there was nothing to see. *)
Ltac falls_through :=
  solve [ exists 0; split; [reflexivity|]; split; [left; reflexivity | intros _; reflexivity] ].

(** Without a marker a pass does not return [True], whatever raises in
    it; it sleeps inside only when it found the gate frame invisible. *)
Lemma no_marker_no_return (o : poll) :
  has_resolution_marker o = false ->
  exists slept, catch (check_solution o) (false, 0) = (false, slept)
    /\ (slept = 0 \/ slept = second)
    /\ (title_frame_visible o <> Ok (Some (Ok false)) -> slept = 0).
Proof.
  unfold has_resolution_marker, check_solution. intros H.
  apply orb_false_iff in H as [H H5]. apply orb_false_iff in H as [H H4].
  apply orb_false_iff in H as [H H3]. apply orb_false_iff in H as [H1 H2].
  revert H1 H2 H3 H5.
  destruct (textarea_by_name o) as [[[v|]|]|]; intros H1; cbn [rbind catch];
    try (intros; falls_through).
  all: try rewrite H1.
  all: destruct (textareas_by_id o) as [ids|]; intros H2; cbn [rbind catch];
    try (intros; falls_through).
  all: rewrite H2.
  all: destruct (widget_responses o) as [ws|]; intros H3; cbn [rbind catch];
    try (intros; falls_through).
  all: rewrite H3, H4.
  all: destruct (title_frame_visible o) as [[[[]|]|]|]; intros H5; cbn [rbind catch];
    try falls_through.
  all: rewrite H5; exists second; split; [reflexivity|]; split; [right; reflexivity|].
  all: intros Hne; congruence.
Qed.

Lemma focus_check_sleep (focused : bool) (o : poll) :
  exists focused' slept, focus_check focused o = (focused', slept)
    /\ (slept = 0 \/ slept = half_second)
    /\ (sees_challenge o = false -> slept = 0).
Proof.
  unfold focus_check, focus_sleep. destruct focused.
  - exists true, 0. auto.
  - destruct (sees_challenge o).
    + destruct (bring_to_front o).
      * exists true, half_second. split; [reflexivity|]. split; [auto | discriminate].
      * exists true, 0. auto.
    + exists false, 0. auto.
Qed.

Lemma wait_loop_times_out (timeout_ms probe_bound : Z) (polls : nat -> poll) :
  (forall k, has_resolution_marker (polls k) = false) ->
  (forall k, 0 <= probe_ms (polls k) <= probe_bound) ->
  forall (pause focus : Z),
  (pause = second \/
   pause = 0 /\ forall k, title_frame_visible (polls k) <> Ok (Some (Ok false))) ->
  (focus = half_second \/
   focus = 0 /\ forall k, sees_challenge (polls k) = false) ->
  forall (fuel k : nat) (elapsed : Z) (focused : bool),
  (1 <= fuel)%nat ->
  timeout_ms - elapsed < second * (Z.of_nat fuel - 1) ->
  elapsed <= timeout_ms + probe_bound + focus + pause + second ->
  exists t, wait_loop fuel timeout_ms polls k elapsed focused = Some (false, t)
    /\ timeout_ms < t <= timeout_ms + probe_bound + focus + pause + second.
Proof.
  intros Hmark Hprobe pause focus Hpause Hfocus.
  induction fuel as [|fuel IH]; intros k elapsed focused Hfuel Hleft Hbound; [lia|].
  cbn [wait_loop]. destruct (timeout_ms <? elapsed) eqn:E.
  - apply Z.ltb_lt in E. exists elapsed. split; [reflexivity | lia].
  - apply Z.ltb_ge in E.
    destruct (focus_check_sleep focused (polls k)) as (focused' & fs & Ef & Hfs & Hnone).
    rewrite Ef.
    destruct (no_marker_no_return (polls k) (Hmark k)) as (slept & Ecatch & Hslept & Hvis).
    rewrite Ecatch. specialize (Hprobe k). unfold second, half_second in *.
    assert (Hs : 0 <= slept <= pause).
    { destruct Hpause as [-> | [-> Hnever]]; [lia|].
      rewrite (Hvis (Hnever k)). lia. }
    assert (Hf : 0 <= fs <= focus).
    { destruct Hfocus as [-> | [-> Hnever]]; [lia|].
      rewrite (Hnone (Hnever k)). lia. }
    apply IH; lia.
Qed.

Lemma wait_loop_more_fuel (timeout_ms : Z) (polls : nat -> poll) :
  forall (f1 f2 k : nat) (e : Z) (c : bool) (r : bool * Z),
  (f1 <= f2)%nat ->
  wait_loop f1 timeout_ms polls k e c = Some r ->
  wait_loop f2 timeout_ms polls k e c = Some r.
Proof.
  induction f1 as [|f1 IH]; intros f2 k e c r Hle Hr; [discriminate|].
  destruct f2 as [|f2]; [lia|]. cbn [wait_loop] in *.
  destruct (timeout_ms <? e); [exact Hr|].
  destruct (focus_check c (polls k)) as [focused fs].
  destruct (catch (check_solution (polls k)) (false, 0)) as [[] slept]; [exact Hr|].
  apply IH; [lia | exact Hr].
Qed.

End CaptchaWait.

(** C7, as stated, fails: with a timeout of 2 seconds, a hidden gate frame
    and no marker, and driver calls that take no time, every pass lasts two
    seconds (the pause of line 610 and the sleep of line 628); the wait
    returns [False] at 4 seconds, later than the timeout plus one
    1-second poll interval. The frame is 78 high, so the tab is never
    focused and no other sleep comes in. *)
Lemma C7_returns_after_timeout_plus_one_poll :
  CaptchaHandler.has_resolution_marker CaptchaExamples.invisible_gate_poll = false
  /\ CaptchaHandler.sees_challenge CaptchaExamples.invisible_gate_poll = false
  /\ CaptchaHandler.wait_for_captcha_solution 10 2
       (fun _ => CaptchaExamples.invisible_gate_poll) = Some (false, 4000)
  /\ 2 * CaptchaHandler.second + CaptchaHandler.second < 4000.
Proof. repeat split; vm_compute; reflexivity. Qed.

(** C7, amended. If no resolution marker ever appears, the wait with
    timeout T >= 0 returns [False], whatever raises in its probes; it does
    so at the first check that finds the elapsed time above T, hence
    strictly after T, and no later than T plus the length of one pass: the
    time of the pass's driver calls, the half second slept in the pass
    that focuses the tab, the 1-second pause taken when the gate frame is
    found invisible, and the 1-second sleep. When no pass finds the gate
    frame invisible the pause drops out of the bound; when no pass finds a
    challenge frame to focus on, the half second does; with neither, the
    bound is T plus the driver calls plus one 1-second sleep. *)
Theorem C7_wait_returns_false_within_one_pass
  (timeout probe_bound : Z) (polls : nat -> CaptchaHandler.poll) :
  0 <= timeout ->
  (forall k, CaptchaHandler.has_resolution_marker (polls k) = false) ->
  (forall k, 0 <= CaptchaHandler.probe_ms (polls k) <= probe_bound) ->
  exists t,
    (forall fuel, (Z.to_nat timeout + 2 <= fuel)%nat ->
       CaptchaHandler.wait_for_captcha_solution fuel timeout polls = Some (false, t))
    /\ timeout * CaptchaHandler.second < t
    /\ t <= timeout * CaptchaHandler.second + CaptchaHandler.pass_ms probe_bound
    /\ ((forall k, CaptchaHandler.title_frame_visible (polls k) <> Ok (Some (Ok false))) ->
        t <= timeout * CaptchaHandler.second + probe_bound
             + CaptchaHandler.half_second + CaptchaHandler.second)
    /\ ((forall k, CaptchaHandler.sees_challenge (polls k) = false) ->
        t <= timeout * CaptchaHandler.second + probe_bound
             + CaptchaHandler.second + CaptchaHandler.second)
    /\ ((forall k, CaptchaHandler.title_frame_visible (polls k) <> Ok (Some (Ok false))) ->
        (forall k, CaptchaHandler.sees_challenge (polls k) = false) ->
        t <= timeout * CaptchaHandler.second + probe_bound + CaptchaHandler.second).
Proof.
  intros Ht Hmark Hprobe.
  assert (Hb : 0 <= probe_bound) by (specialize (Hprobe 0%nat); lia).
  assert (Hrun : forall pause focus,
            (pause = CaptchaHandler.second \/
             pause = 0 /\ forall k,
               CaptchaHandler.title_frame_visible (polls k) <> Ok (Some (Ok false))) ->
            (focus = CaptchaHandler.half_second \/
             focus = 0 /\ forall k, CaptchaHandler.sees_challenge (polls k) = false) ->
            forall fuel, (Z.to_nat timeout + 2 <= fuel)%nat ->
            exists t, CaptchaHandler.wait_for_captcha_solution fuel timeout polls
                      = Some (false, t)
              /\ timeout * CaptchaHandler.second < t
                 <= timeout * CaptchaHandler.second + probe_bound + focus + pause
                    + CaptchaHandler.second).
  { intros pause focus Hpause Hfocus fuel Hfuel.
    unfold CaptchaHandler.wait_for_captcha_solution.
    apply (wait_loop_times_out _ probe_bound polls Hmark Hprobe pause focus Hpause Hfocus);
      unfold CaptchaHandler.second, CaptchaHandler.half_second in *; [lia | lia |].
    destruct Hpause as [-> | [-> _]]; destruct Hfocus as [-> | [-> _]]; lia. }
  destruct (Hrun CaptchaHandler.second CaptchaHandler.half_second
              (or_introl eq_refl) (or_introl eq_refl) (Z.to_nat timeout + 2)%nat
              (Nat.le_refl _)) as (t & E & Hlo & Hhi).
  exists t. split; [|split; [exact Hlo|split; [|split; [|split]]]].
  - intros fuel Hfuel.
    unfold CaptchaHandler.wait_for_captcha_solution in *.
    apply (wait_loop_more_fuel _ polls _ fuel) in E; [exact E | exact Hfuel].
  - unfold CaptchaHandler.pass_ms. lia.
  - intros Hnever.
    destruct (Hrun 0 CaptchaHandler.half_second (or_intror (conj eq_refl Hnever))
                (or_introl eq_refl) (Z.to_nat timeout + 2)%nat (Nat.le_refl _))
      as (t0 & E0 & _ & Hhi0).
    assert (t0 = t) by congruence. subst t0. lia.
  - intros Hnone.
    destruct (Hrun CaptchaHandler.second 0 (or_introl eq_refl)
                (or_intror (conj eq_refl Hnone)) (Z.to_nat timeout + 2)%nat (Nat.le_refl _))
      as (t0 & E0 & _ & Hhi0).
    assert (t0 = t) by congruence. subst t0. lia.
  - intros Hnever Hnone.
    destruct (Hrun 0 0 (or_intror (conj eq_refl Hnever))
                (or_intror (conj eq_refl Hnone)) (Z.to_nat timeout + 2)%nat (Nat.le_refl _))
      as (t0 & E0 & _ & Hhi0).
    assert (t0 = t) by congruence. subst t0. lia.
Qed.

Lemma C7_witness :
  (forall fuel, (5 <= fuel)%nat ->
     CaptchaHandler.wait_for_captcha_solution fuel 3
       (fun _ => CaptchaExamples.unsolved_poll) = Some (false, 3500))
  /\ 3 * CaptchaHandler.second < 3500
       <= 3 * CaptchaHandler.second + CaptchaHandler.pass_ms 0.
Proof.
  destruct (C7_wait_returns_false_within_one_pass 3 0
              (fun _ => CaptchaExamples.unsolved_poll)
              ltac:(lia) ltac:(intros k; reflexivity) ltac:(intros k; simpl; lia))
    as (t & Hrun & Hlo & Hhi & _).
  assert (Et : t = 3500).
  { specialize (Hrun 5%nat ltac:(simpl; lia)). vm_compute in Hrun. congruence. }
  subst t. split; [|split; assumption].
  intros fuel Hfuel. apply Hrun. simpl. lia.
Defined.

(** ** The theorems at work on concrete snapshots *)

Lemma C6_witness :
  Bot.detect_page_state Examples.alice_page_unreadable "Alice" = Bot.STATE_VOTING
  /\ Bot.login_text_test Examples.alice_page_unreadable = Raise
  /\ Bot.detect_page_state Examples.heading_and_detached_alice "Alice" <> Bot.STATE_VOTING.
Proof.
  split; [|split; [reflexivity|]].
  - rewrite (proj1 (proj2 (C6_classifier_total_and_block_raise_is_no_match
                             Examples.alice_page_unreadable "Alice") eq_refl)
               [ (Ok (Bot.login_url_test Examples.alice_page_unreadable),
                  Bot.STATE_LOGIN_REQUIRED) ]
               (skipn 2 (Spec.guarded_tests Examples.alice_page_unreadable "Alice"))
               Bot.STATE_LOGIN_REQUIRED).
    + vm_compute. reflexivity.
    + vm_compute. reflexivity.
  - apply (proj2 (proj2 (proj2 (C6_classifier_total_and_block_raise_is_no_match
                                  Examples.heading_and_detached_alice "Alice") eq_refl))
             (Examples.detached_button "Alice")).
    + vm_compute. reflexivity.
    + reflexivity.
Defined.

Lemma C8_witness :
  (exists b, Bot.click_vote_again_target Examples.vote_again_page = Some b
     /\ Dom.e_tag b = "button" /\ Spec.visible_and_enabled b
     /\ Bot.click_vote_again Examples.vote_again_page = true)
  /\ Bot.click_vote_again Examples.hidden_vote_again_page = false.
Proof.
  split.
  - exists (Examples.button "Votar novamente" true true).
    destruct (proj2 (proj2 (proj2 (proj2 (proj2 (proj2
                (C8_click_vote_again_accepts_visible_enabled Examples.vote_again_page))))))
                (Bot.sel_button_label_contains "Votar novamente") _
                (Examples.button "Votar novamente" true true)
                eq_refl ltac:(vm_compute; reflexivity)
                ltac:(split; reflexivity) eq_refl) as (E & Htrue).
    split; [exact E|]. split; [reflexivity|]. split; [split; reflexivity | exact Htrue].
  - apply (proj1 (proj2 (proj2 (proj2 (proj2 (proj2
             (C8_click_vote_again_accepts_visible_enabled
                Examples.hidden_vote_again_page))))))).
    intros b [<- | []] _ [Hv _]. discriminate.
Defined.

Lemma C9_witness :
  exists after info,
    BrowserManager.vote_stats_json
      (BrowserManager._save_vote_stats "2026-02-03 21:05:00"
         (BrowserManager.set_vote_stats_json (Some FleetExamples.full_stats)
            FleetExamples.counted_manager)) = Some after
    /\ BrowserManager.total_historico after = Some 7
    /\ length (FleetSpec.persisted_sessions (Some after)) = 100%nat
    /\ last (FleetSpec.persisted_sessions (Some after)) = Some info
    /\ BrowserManager.data_inicio info = Some "2026-02-03 21:00:00"
    /\ BrowserManager.votos_na_sessao info = 1
    /\ option_map BrowserManager.data_inicio
         (head (FleetSpec.persisted_sessions (Some after)))
       = Some (Some "2026-01-01 00:00:01").
Proof.
  destruct (proj1 (C9_saved_statistics BrowserManager.Written "2026-02-03 21:05:00"
                     (BrowserManager.set_vote_stats_json (Some FleetExamples.full_stats)
                        FleetExamples.counted_manager)) eq_refl)
    as (after & E & Hmax & _ & Hrec & _).
  destruct (Hrec "2026-02-03 21:00:00"
              ltac:(split; [reflexivity | left; vm_compute; reflexivity]))
    as (info & updated & Hstart & _ & Hvotes & _ & Hput & Hsaved & _).
  assert (Hput' : FleetSpec.put_in "2026-02-03 21:00:00" info
                    (FleetExamples.old_sessions 100) updated) by exact Hput.
  assert (Hfresh : Forall (fun x => BrowserManager.data_inicio x
                                    <> Some "2026-02-03 21:00:00")
                     (FleetExamples.old_sessions 100))
    by (vm_compute; repeat constructor; discriminate).
  assert (Hupdated : updated = FleetExamples.old_sessions 100 ++ [info]).
  { remember (FleetExamples.old_sessions 100) as olds eqn:Eolds. clear Eolds Hput.
    inversion Hput' as [l1 l2 old Hl1 Hold Hl Hr | l0 Hl0 Hl Hr]; [|reflexivity].
    exfalso. subst olds. apply Forall_app in Hfresh as [_ Hfresh].
    inversion Hfresh as [|? ? Hne _]. exact (Hne Hold). }
  exists after, info. split; [exact E|].
  split; [rewrite Hmax; reflexivity|].
  rewrite Hsaved, Hupdated. unfold FleetSpec.most_recent.
  rewrite length_app. change (length (FleetExamples.old_sessions 100)) with 100%nat.
  cbn [length Nat.add Nat.sub].
  split; [rewrite length_skipn, length_app; reflexivity|].
  split; [|split; [exact Hstart|split; [rewrite Hvotes; reflexivity|]]].
  - replace (skipn 1 (FleetExamples.old_sessions 100 ++ [info]))
      with (skipn 1 (FleetExamples.old_sessions 100) ++ [info]) by reflexivity.
    apply last_snoc.
  - reflexivity.
Defined.

(** * Further properties of the code around the claims *)

(** ** Locating the participant's button *)

Section FindButton.
Import Dom Bot Executor.

Lemma ensure_visible_true (e : element) :
  _ensure_element_visible (Some e) = true <-> is_visible e = Ok true.
Proof.
  unfold _ensure_element_visible.
  destruct (is_visible e) as [[]|]; cbn; split; congruence.
Qed.


Lemma accept_good (b : element) :
  is_visible b = Ok true -> is_enabled b = Ok true -> accept b = Ok (Some b).
Proof.
  intros Hv He. unfold accept.
  rewrite (proj2 (ensure_visible_true b) Hv), He. reflexivity.
Qed.



Lemma scan_buttons_by_text_finds (name : string) (buttons : list element)
  (b : element) (t : string) :
  In b buttons -> inner_text b = Ok t ->
  Str.contains (Str.lower name) (Str.lower t) = true ->
  is_visible b = Ok true -> is_enabled b = Ok true ->
  exists b', scan_buttons_by_text name buttons = Some b'.
Proof.
  intros Hin Ht Hc Hv He. induction buttons as [|b0 rest IH]; [contradiction|].
  cbn [scan_buttons_by_text]. destruct (catch _ None) as [b1|] eqn:E; [eauto|].
  destruct Hin as [-> | Hin]; [|exact (IH Hin)].
  rewrite Ht in E. cbn [rbind] in E. rewrite Hc, (accept_good b Hv He) in E.
  discriminate.
Qed.

Lemma matches_sel_button (e : element) : matches sel_button e = true <-> e_tag e = "button".
Proof.
  unfold sel_button, matches, compound_matches, tag. cbn [existsb c_tag c_attr].
  rewrite orb_false_r, andb_true_r. apply tag_eqb_button.
Qed.


End FindButton.



(** X2. If the query for all buttons does not raise and some button of
    the document is visible, enabled and shows the participant's name in
    its text (letter case aside), [find_participant_button] returns a
    button: failures of the earlier stages and of probes on other buttons
    do not hide it. *)
Theorem X2_button_with_name_in_text_is_found (p : Dom.page) (name : string)
  (xpath_hit : result (option Dom.element)) (b : Dom.element) (t : string) :
  Dom.query_raises p Bot.sel_button = false ->
  In b (Dom.dom p) -> Dom.e_tag b = "button" ->
  Dom.inner_text b = Ok t ->
  Str.contains (Str.lower name) (Str.lower t) = true ->
  Dom.is_visible b = Ok true -> Dom.is_enabled b = Ok true ->
  exists b', Executor.find_participant_button p name xpath_hit = Some b'.
Proof.
  intros Hq Hin Htag Ht Hc Hv He. unfold Executor.find_participant_button.
  destruct (Executor.find_by_label p (Bot.sel_button_label_exact name)); [eauto|].
  destruct (Executor.find_by_label p (Bot.sel_button_label_contains name)); [eauto|].
  assert (Hscan : exists b', Executor.find_by_text p name = Some b').
  { unfold Executor.find_by_text, Dom.query_selector_all. rewrite Hq. cbn [rbind catch].
    apply (scan_buttons_by_text_finds name _ b t); try assumption.
    apply filter_In. split; [exact Hin|]. apply matches_sel_button, Htag. }
  destruct Hscan as (b' & ->). eauto.
Qed.

(** ** The wait for a login *)

Section LoginWait.
Import Bot Executor Notions.

Lemma login_wait_from (has_manager : bool) (checks : nat -> login_check) :
  forall (fuel k : nat),
  (k <= 100)%nat -> (101 - k <= fuel)%nat ->
  (forall j, (j < k)%nat -> login_resolved has_manager (checks j) = false) ->
  exists n, (k <= n <= 100)%nat /\ ((k < 100)%nat -> (k < n)%nat)
    /\ login_wait fuel has_manager checks k (3 * Z.of_nat k) = Some (3 * Z.of_nat n)
    /\ (forall j, (j + 1 < n)%nat -> login_resolved has_manager (checks j) = false)
    /\ ((n < 100)%nat -> login_resolved has_manager (checks (n - 1)%nat) = true).
Proof.
  induction fuel as [|fuel IH]; intros k Hk Hfuel Hbefore; [lia|].
  cbn [login_wait]. unfold max_wait_login, wait_interval.
  destruct (3 * Z.of_nat k <? 300) eqn:E.
  - apply Z.ltb_lt in E. assert (Hk' : (k < 100)%nat) by lia.
    replace (3 * Z.of_nat k + 3) with (3 * Z.of_nat (S k)) by lia.
    assert (Hnext : login_resolved has_manager (checks k) = false ->
              exists n, (k <= n <= 100)%nat /\ ((k < 100)%nat -> (k < n)%nat)
                /\ login_wait fuel has_manager checks (S k) (3 * Z.of_nat (S k))
                   = Some (3 * Z.of_nat n)
                /\ (forall j, (j + 1 < n)%nat ->
                              login_resolved has_manager (checks j) = false)
                /\ ((n < 100)%nat -> login_resolved has_manager (checks (n - 1)%nat) = true)).
    { intros Hun.
      destruct (IH (S k)) as (n & Hn & Hlt & En & Hall & Hlast); [lia | lia | |].
      - intros j Hj. destruct (Nat.eq_dec j k) as [-> | Hne]; [exact Hun|].
        apply Hbefore. lia.
      - exists n. split; [lia|]. split; [lia|]. auto. }
    assert (Hdone : login_resolved has_manager (checks k) = true ->
              exists n, (k <= n <= 100)%nat /\ ((k < 100)%nat -> (k < n)%nat)
                /\ Some (3 * Z.of_nat (S k)) = Some (3 * Z.of_nat n)
                /\ (forall j, (j + 1 < n)%nat ->
                              login_resolved has_manager (checks j) = false)
                /\ ((n < 100)%nat -> login_resolved has_manager (checks (n - 1)%nat) = true)).
    { intros Hres. exists (S k). split; [lia|]. split; [lia|]. split; [reflexivity|].
      split; [intros j Hj; apply Hbefore; lia|].
      intros _. replace (S k - 1)%nat with k by lia. exact Hres. }
    unfold login_resolved in Hnext, Hdone.
    destruct (PageState_eqb (new_state (checks k)) STATE_LOGIN_REQUIRED);
      cbn [negb andb] in Hnext, Hdone; [apply Hnext; reflexivity|].
    destruct has_manager; cbn [negb orb] in Hnext, Hdone.
    + destruct (back_on_vote_page (checks k)); [apply Hdone | apply Hnext]; reflexivity.
    + apply Hdone. reflexivity.
  - apply Z.ltb_ge in E. assert (k = 100)%nat by lia. subst k.
    exists 100%nat. split; [lia|]. split; [lia|]. split; [reflexivity|].
    split; [intros j Hj; apply Hbefore; lia | lia].
Qed.

End LoginWait.

(** X8. The wait for a login inside the worker loop always ends: after n
    checks, 1 <= n <= 100, hence after 3n <= 300 seconds of sleep. Every
    check before the last one found the login still pending; if the wait
    ends before the 100th check, the last check found the page off the
    login state and (with a manager) all tabs back on the voting page. *)
Theorem X8_login_wait_is_bounded (has_manager : bool)
  (checks : nat -> Executor.login_check) (fuel : nat) :
  (101 <= fuel)%nat ->
  exists n, (1 <= n <= 100)%nat
    /\ Executor.login_wait fuel has_manager checks 0 0 = Some (3 * Z.of_nat n)
    /\ 3 * Z.of_nat n <= Executor.max_wait_login
    /\ (forall j, (j + 1 < n)%nat ->
          Notions.login_resolved has_manager (checks j) = false)
    /\ ((n < 100)%nat -> Notions.login_resolved has_manager (checks (n - 1)%nat) = true).
Proof.
  intros Hfuel.
  destruct (login_wait_from has_manager checks fuel 0) as (n & Hn & Hlt & E & Hall & Hlast);
    [lia | lia | intros j Hj; lia |].
  exists n. split; [lia|]. split; [exact E|].
  split; [unfold Executor.max_wait_login; lia|]. auto.
Qed.

Lemma X8_witness :
  exists n, (1 <= n <= 100)%nat
    /\ Executor.login_wait 150 true
         (fun k => {| Executor.new_state :=
                        if (k <? 4)%nat then Bot.STATE_LOGIN_REQUIRED else Bot.STATE_VOTING;
                      Executor.back_on_vote_page := (6 <=? k)%nat |}) 0 0
       = Some (3 * Z.of_nat n)
    /\ n = 7%nat.
Proof.
  destruct (X8_login_wait_is_bounded true
              (fun k => {| Executor.new_state :=
                             if (k <? 4)%nat then Bot.STATE_LOGIN_REQUIRED
                             else Bot.STATE_VOTING;
                           Executor.back_on_vote_page := (6 <=? k)%nat |})
              150 ltac:(lia)) as (n & Hn & E & _).
  exists n. split; [exact Hn|]. split; [exact E|].
  assert (E21 : Executor.login_wait 150 true
                  (fun k => {| Executor.new_state :=
                                 if (k <? 4)%nat then Bot.STATE_LOGIN_REQUIRED
                                 else Bot.STATE_VOTING;
                               Executor.back_on_vote_page := (6 <=? k)%nat |}) 0 0
                = Some 21) by (vm_compute; reflexivity).
  rewrite E21 in E. injection E as E. lia.
Defined.

(** ** More on the worker loop *)

Section LoopAnatomy.
Import Dom Bot BrowserManager VoteLoop FleetSpec.

(** What a pass that returned tells about the state it started from. *)
Lemma run_iteration_anatomy (i : nat) (max_votes : Z) (env : iteration_env)
  (m : manager) (lv : locals) (o : outcome) :
  run_iteration i max_votes env m lv = Some o ->
  exists b, bots m !! i = Some b
    /\ match acted_on o with
       | None => next_manager o = m /\ counted o = false
       | Some s =>
           next_control o = Continue
           /\ consecutive_errors (next_locals o)
              = (if PageState_eqb s STATE_ERROR
                 then on_error (consecutive_errors lv) else 0)
           /\ (s = STATE_CONFIRMATION -> 0 < max_votes -> vote_count b < max_votes)
       end.
Proof.
  unfold run_iteration. destruct (bots m !! i) as [b|]; [|discriminate].
  intros H. exists b. split; [reflexivity|].
  destruct (check_page b env lv) as [[|s0]|].
  - injection H as <-. cbn. auto.
  - destruct (negb match s0 with Some STATE_LOGIN_REQUIRED => true | _ => false end
              && (0 <? max_votes) && (max_votes <=? vote_count b)) eqn:Ecap.
    + injection H as <-. cbn. auto.
    + assert (Hcap : match s0 with Some STATE_LOGIN_REQUIRED => False | _ => True end ->
                     0 < max_votes -> vote_count b < max_votes).
      { intros Hs Hpos. destruct (max_votes <=? vote_count b) eqn:El.
        - rewrite andb_true_r in Ecap. apply andb_false_iff in Ecap as [Ecap | Ecap].
          + destruct s0 as [[]|]; cbn in Ecap, Hs; try discriminate; contradiction.
          + apply Z.ltb_ge in Ecap. lia.
        - apply Z.leb_gt in El. exact El. }
      match type of H with context [match ?x with STATE_VOTING => _ | _ => _ end] =>
        destruct x eqn:Es end.
      * injection H as <-. cbn. repeat split. discriminate.
      * destruct (on_confirmation i b env m); cbn [option_map] in H; [|discriminate].
        injection H as <-. cbn. repeat split. intros _. apply Hcap.
        destruct s0 as [[]|]; try exact I; discriminate.
      * injection H as <-. cbn. repeat split. discriminate.
      * injection H as <-. cbn. repeat split. discriminate.
      * injection H as <-. cbn. repeat split. discriminate.
  - injection H as <-. cbn. auto.
Qed.

Lemma cap_kept_by_runs (i : nat) (max_votes : Z) (envs : list iteration_env) :
  0 < max_votes ->
  forall (m : manager) (lv : locals) (b : bot),
  bots m !! i = Some b -> lock_free m -> vote_count b <= max_votes ->
  exists outs, run_iterations i max_votes envs m lv = Some outs
    /\ Forall (fun o => exists b', bots (next_manager o) !! i = Some b'
                                   /\ vote_count b' <= max_votes) outs.
Proof.
  intros Hpos. induction envs as [|env rest IH]; intros m lv b Hb Hfree Hle.
  - exists []. split; [reflexivity | constructor].
  - cbn [run_iterations].
    destruct (run_iteration_returns i max_votes env m lv b Hb Hfree)
      as (o & b' & E & Hfree' & Hb' & _ & _ & Hcase).
    rewrite E.
    assert (Hle' : vote_count b' <= max_votes).
    { destruct (run_iteration_anatomy _ _ _ _ _ _ E) as (b0 & Hb0 & Han).
      rewrite Hb in Hb0. injection Hb0 as <-.
      destruct (acted_on o) as [[]|]; try (destruct Hcase as (-> & _); exact Hle).
      destruct Hcase as (-> & _). destruct Han as (_ & _ & Hcap).
      specialize (Hcap eq_refl Hpos).
      destruct (last_confirmation_detected b); lia. }
    destruct (next_control o).
    + destruct (IH (next_manager o) (next_locals o) b' Hb' Hfree' Hle') as (outs & Eo & Hall).
      rewrite Eo. exists (o :: outs). split; [reflexivity|].
      constructor; [eauto | exact Hall].
    + exists [o]. split; [reflexivity|]. constructor; [eauto | constructor].
Qed.

Lemma on_error_mod (c : Z) : 0 <= c < 5 -> on_error c = (c + 1) mod 5.
Proof.
  intros Hc. unfold on_error, max_consecutive_errors.
  destruct (5 <=? c + 1) eqn:E.
  - apply Z.leb_le in E. assert (c = 4) by lia. subst c. reflexivity.
  - apply Z.leb_gt in E. rewrite Z.mod_small by lia. reflexivity.
Qed.

Lemma error_run_counter (i : nat) (max_votes : Z) (envs : list iteration_env) :
  forall (m : manager) (lv : locals) (outs : list outcome) (o : outcome),
  run_iterations i max_votes envs m lv = Some outs ->
  length outs = length envs ->
  Forall (fun o => acted_on o = Some STATE_ERROR) outs ->
  last outs = Some o ->
  0 <= consecutive_errors lv < 5 ->
  consecutive_errors (next_locals o)
  = (consecutive_errors lv + Z.of_nat (length envs)) mod 5.
Proof.
  induction envs as [|env rest IH]; intros m lv outs o Hrun Hlen Hall Hlast Hc.
  - injection Hrun as <-. discriminate.
  - cbn [run_iterations] in Hrun.
    destruct (run_iteration i max_votes env m lv) as [o1|] eqn:E1; [|discriminate].
    destruct (run_iteration_anatomy _ _ _ _ _ _ E1) as (b & _ & Han).
    destruct (next_control o1) eqn:Ectl.
    + destruct (run_iterations i max_votes rest (next_manager o1) (next_locals o1))
        as [outs'|] eqn:E2; cbn [option_map] in Hrun; [|discriminate].
      injection Hrun as <-. inversion Hall as [|? ? Hact Hall']; subst.
      rewrite Hact in Han. cbn [PageState_eqb] in Han. destruct Han as (_ & Herr & _).
      rewrite on_error_mod in Herr by exact Hc.
      cbn [length] in Hlen. injection Hlen as Hlen.
      destruct outs' as [|o2 outs''].
      * destruct rest; [|discriminate]. injection Hlast as <-.
        rewrite Herr. cbn [length]. reflexivity.
      * assert (Hlast' : last (o2 :: outs'') = Some o) by exact Hlast.
        rewrite (IH _ _ _ _ E2 Hlen Hall' Hlast').
        -- rewrite Herr. cbn [length]. rewrite Z.add_mod_idemp_l by lia.
           f_equal. lia.
        -- rewrite Herr. apply Z.mod_pos_bound. lia.
    + injection Hrun as <-. inversion Hall as [|? ? Hact _]; subst.
      rewrite Hact in Han. destruct Han as (Hcont & _). congruence.
Qed.

Lemma pass_without_manager (i : nat) (max_votes : Z) (env : iteration_env)
  (m : manager) (b : bot) :
  bots m !! i = Some b -> has_browser_manager b = false ->
  run_iteration i max_votes env m initial_locals
  = Some {| next_manager := m; next_locals := initial_locals;
            next_control := Continue; acted_on := None; counted := false |}.
Proof.
  intros Hb Hbm. unfold run_iteration, check_page. rewrite Hb, Hbm. reflexivity.
Qed.

End LoopAnatomy.

(** X4. With a positive cap on the votes of a tab, no series of passes of
    the worker's loop ever takes the worker's [vote_count] above the cap. *)
Theorem X4_vote_cap_never_exceeded (i : nat) (max_votes : Z)
  (envs : list VoteLoop.iteration_env) (m : BrowserManager.manager)
  (lv : VoteLoop.locals) (b : Bot.bot) :
  0 < max_votes ->
  BrowserManager.bots m !! i = Some b ->
  FleetSpec.lock_free m ->
  Bot.vote_count b <= max_votes ->
  exists outs, VoteLoop.run_iterations i max_votes envs m lv = Some outs
    /\ Forall (fun o => exists b', BrowserManager.bots (VoteLoop.next_manager o) !! i = Some b'
                                   /\ Bot.vote_count b' <= max_votes) outs.
Proof.
  intros Hpos Hb Hfree Hle. exact (cap_kept_by_runs i max_votes envs Hpos m lv b Hb Hfree Hle).
Qed.

(** X5. A pass of a worker's loop writes to its own bot only: every other
    bot of the fleet is left as it was, and the worker's own [vote_count]
    never goes down and goes up by one exactly in a pass that ran the
    counting block. *)
Theorem X5_pass_touches_own_bot_only (i : nat) (max_votes : Z)
  (env : VoteLoop.iteration_env) (m : BrowserManager.manager)
  (lv : VoteLoop.locals) (b : Bot.bot) :
  BrowserManager.bots m !! i = Some b ->
  FleetSpec.lock_free m ->
  exists o b', VoteLoop.run_iteration i max_votes env m lv = Some o
    /\ BrowserManager.bots (VoteLoop.next_manager o) !! i = Some b'
    /\ (forall j, j <> i ->
          BrowserManager.bots (VoteLoop.next_manager o) !! j = BrowserManager.bots m !! j)
    /\ length (BrowserManager.bots (VoteLoop.next_manager o))
       = length (BrowserManager.bots m)
    /\ Bot.vote_count b' = Bot.vote_count b + (if VoteLoop.counted o then 1 else 0).
Proof.
  intros Hb Hfree.
  destruct (run_iteration_returns i max_votes env m lv b Hb Hfree)
    as (o & b' & E & _ & Hb' & Hbots & _ & Hcase).
  exists o, b'. split; [exact E|]. split; [exact Hb'|].
  split; [intros j Hj; rewrite Hbots; apply list_lookup_insert_ne; congruence|].
  split; [rewrite Hbots; apply length_insert|].
  destruct (VoteLoop.acted_on o) as [[]|];
    try (destruct Hcase as (-> & _ & ->); lia).
  destruct Hcase as (-> & _ & -> & _).
  destruct (Bot.last_confirmation_detected b); reflexivity.
Qed.

(** X6. The count of consecutive error pages works modulo five: after N
    passes in a row that all act on a page classified [STATE_ERROR], the
    counter holds (c + N) mod 5, where c < 5 was its value before; it is
    back at zero, after the long pause, on every fifth error in a row. *)
Theorem X6_error_counter_wraps_at_five (i : nat) (max_votes : Z)
  (envs : list VoteLoop.iteration_env) (m : BrowserManager.manager)
  (lv : VoteLoop.locals) (outs : list VoteLoop.outcome) (o : VoteLoop.outcome) :
  VoteLoop.run_iterations i max_votes envs m lv = Some outs ->
  length outs = length envs ->
  Forall (fun o => VoteLoop.acted_on o = Some Bot.STATE_ERROR) outs ->
  last outs = Some o ->
  0 <= VoteLoop.consecutive_errors lv < 5 ->
  VoteLoop.consecutive_errors (VoteLoop.next_locals o)
  = (VoteLoop.consecutive_errors lv + Z.of_nat (length envs)) mod 5.
Proof. exact (error_run_counter i max_votes envs m lv outs o). Qed.

(** X7. A bot created without a [browser_manager] never gets anywhere:
    [state] is read before it is assigned, the error is caught by the
    loop, and every pass ends like the one before. No page is classified,
    nothing is counted, the manager is not touched, the loop never
    breaks. *)
Theorem X7_loop_without_manager_is_inert (i : nat) (max_votes : Z)
  (envs : list VoteLoop.iteration_env) (m : BrowserManager.manager) (b : Bot.bot) :
  BrowserManager.bots m !! i = Some b ->
  Bot.has_browser_manager b = false ->
  exists outs,
    VoteLoop.run_iterations i max_votes envs m VoteLoop.initial_locals = Some outs
    /\ length outs = length envs
    /\ Forall (fun o => VoteLoop.next_manager o = m
                        /\ VoteLoop.acted_on o = None
                        /\ VoteLoop.counted o = false
                        /\ VoteLoop.next_locals o = VoteLoop.initial_locals) outs.
Proof.
  intros Hb Hbm. induction envs as [|env rest IH].
  - exists []. repeat split. constructor.
  - destruct IH as (outs & E & Hlen & Hall).
    cbn [VoteLoop.run_iterations].
    rewrite (pass_without_manager i max_votes env m b Hb Hbm).
    cbn [VoteLoop.next_control VoteLoop.next_manager VoteLoop.next_locals].
    rewrite E. eexists. split; [reflexivity|].
    split; [cbn; congruence|]. constructor; [cbn; auto | exact Hall].
Qed.

(** ** More on the fleet counters *)

Section CounterFiles.
Import Bot BrowserManager VoteLoop FleetSpec Fleet.



End CounterFiles.

(** X9. With the vote lock free, [_on_vote_completed] returns whatever
    becomes of its two writes, and on return [total_votes] is the sum of
    the workers' counts. When
    the write of the counter file goes through, the file agrees with
    itself and with the manager: its total is the manager's total and the
    sum of its per-tab list, and a manager started from that file is
    seeded with exactly this total. When the write fails, the failure is
    only logged: the file is what it was before the call, or unreadable,
    in which case the next start is seeded with zero. The callback of
    the worker loop is the case where both writes go through. *)
Theorem X9_persisted_counter_is_consistent
  (counter_write stats_write : BrowserManager.write)
  (tab : Z) (now : BrowserManager.datetime) (m : BrowserManager.manager) :
  FleetSpec.lock_free m ->
  exists m',
    BrowserManager._on_vote_completed_when counter_write stats_write tab now m = Some m'
    /\ BrowserManager.total_votes m' = FleetSpec.sum_of_vote_counts m'
    /\ BrowserManager.bots m' = BrowserManager.bots m
    /\ (counter_write = BrowserManager.Written ->
        exists f, BrowserManager.vote_counter_json m' = Some f
          /\ BrowserManager.cf_total_votes f = Some (BrowserManager.total_votes m')
          /\ BrowserManager.sum (BrowserManager.cf_votes_per_tab f)
             = BrowserManager.total_votes m'
          /\ forall name num_tabs statistics,
               BrowserManager.total_votes
                 (BrowserManager.init name num_tabs
                    (BrowserManager.vote_counter_json m') statistics)
               = BrowserManager.total_votes m')
    /\ (counter_write = BrowserManager.Refused ->
        BrowserManager.vote_counter_json m' = BrowserManager.vote_counter_json m)
    /\ (counter_write = BrowserManager.Torn ->
        BrowserManager.vote_counter_json m' = None
        /\ forall name num_tabs statistics,
             BrowserManager.total_votes
               (BrowserManager.init name num_tabs
                  (BrowserManager.vote_counter_json m') statistics) = 0)
    /\ BrowserManager._on_vote_completed tab now m
       = BrowserManager._on_vote_completed_when
           BrowserManager.Written BrowserManager.Written tab now m.
Proof.
  intros Hfree.
  assert (Hshape : exists held,
            BrowserManager.enter_vote_lock m = Some held
            /\ BrowserManager.bots held = BrowserManager.bots m
            /\ BrowserManager.vote_counter_json held = BrowserManager.vote_counter_json m).
  { unfold BrowserManager.enter_vote_lock, FleetSpec.lock_free in *.
    destruct (BrowserManager.vote_lock m) as [[]|]; [congruence| |];
      eexists; repeat split. }
  destruct Hshape as (held & Eheld & Hbots & Hfile).
  exists (BrowserManager.leave_vote_lock
            (BrowserManager.on_vote_completed_locked_when
               counter_write stats_write now held)).
  assert (Hsum : BrowserManager.total_votes
                   (BrowserManager.leave_vote_lock
                      (BrowserManager.on_vote_completed_locked_when
                         counter_write stats_write now held))
                 = BrowserManager.sum (map Bot.vote_count (BrowserManager.bots held)))
    by reflexivity.
  split; [unfold BrowserManager._on_vote_completed_when; rewrite Eheld; reflexivity|].
  split; [exact Hsum|]. split; [exact Hbots|].
  split; [|split; [|split]].
  - intros ->. eexists. split; [reflexivity|].
    cbn [BrowserManager.vote_counter_to_save BrowserManager.cf_total_votes
         BrowserManager.cf_votes_per_tab].
    split; [reflexivity|]. split; [rewrite Hsum; reflexivity|].
    intros name num_tabs statistics. reflexivity.
  - intros ->. exact Hfile.
  - intros ->. split; [reflexivity|]. intros name num_tabs statistics. reflexivity.
  - reflexivity.
Qed.



(** ** Substrings and letter case *)

Section Substrings.
Import Notions.

Lemma prefix_split (n h : string) :
  String.prefix n h = true <-> exists post, h = String.append n post.
Proof.
  revert h. induction n as [|c n IH]; intros h.
  - destruct h; cbn; split; eauto.
  - destruct h as [|d h]; cbn [String.prefix String.append].
    + split; [discriminate | intros (post & H); discriminate].
    + destruct (ascii_dec c d) as [-> | Hne].
      * rewrite IH. split; intros (post & H); exists post; congruence.
      * split; [discriminate | intros (post & H); congruence].
Qed.

Lemma contains_split (n h : string) :
  Str.contains n h = true <->
  exists pre post, h = String.append pre (String.append n post).
Proof.
  induction h as [|d h IH]; cbn [Str.contains].
  - rewrite orb_false_r, prefix_split. split.
    + intros (post & H). exists EmptyString, post. exact H.
    + intros (pre & post & H). destruct pre; [eauto | discriminate].
  - rewrite orb_true_iff, prefix_split, IH. split.
    + intros [(post & H) | (pre & post & H)].
      * exists EmptyString, post. exact H.
      * exists (String d pre), post. cbn. congruence.
    + intros (pre & post & H). destruct pre as [|c pre].
      * left. eauto.
      * right. cbn in H. injection H as _ H. eauto.
Qed.

Lemma append_assoc (a b c : string) :
  String.append (String.append a b) c = String.append a (String.append b c).
Proof. induction a as [|x a IH]; cbn; [reflexivity | rewrite IH; reflexivity]. Qed.

Lemma contains_trans (a b t : string) :
  Str.contains a b = true -> Str.contains b t = true -> Str.contains a t = true.
Proof.
  rewrite !contains_split. intros (p1 & q1 & ->) (p2 & q2 & ->).
  exists (String.append p2 p1), (String.append q1 q2).
  rewrite !append_assoc. reflexivity.
Qed.

Lemma chars_append (a b : string) : chars (String.append a b) = chars a ++ chars b.
Proof. induction a as [|x a IH]; cbn; [reflexivity | rewrite IH; reflexivity]. Qed.

Lemma chars_encode (l : list ascii) : chars (string_of_list_ascii l) = l.
Proof. induction l as [|c l IH]; cbn; congruence. Qed.

Lemma nat_of_byte_of (z : Z) : 0 <= z < 256 -> nat_of_ascii (Str.byte_of z) = Z.to_nat z.
Proof.
  intros H. unfold nat_of_ascii, Str.byte_of.
  rewrite N_ascii_embedding by lia. lia.
Qed.

Lemma byte_of_not_upper (z : Z) :
  0 <= z < 256 -> z < 65 \/ 90 < z -> is_upper (Str.byte_of z) = false.
Proof.
  intros Hz Hout. unfold is_upper. rewrite nat_of_byte_of by exact Hz.
  apply andb_false_iff. destruct Hout; [left | right]; apply Nat.leb_gt; lia.
Qed.

Lemma encode_cp_not_upper (c : Z) :
  c < 65 \/ 90 < c -> Forall (fun a => is_upper a = false) (Str.encode_cp c).
Proof.
  intros Hout. unfold Str.encode_cp.
  destruct (c <? 0) eqn:E0; [constructor|]. apply Z.ltb_ge in E0.
  destruct (c <? 128) eqn:E1.
  { apply Z.ltb_lt in E1. repeat constructor. apply byte_of_not_upper; lia. }
  apply Z.ltb_ge in E1.
  assert (H64 : 0 <= c mod 64 < 64) by (apply Z.mod_pos_bound; lia).
  assert (H64a : 0 <= (c / 64) mod 64 < 64) by (apply Z.mod_pos_bound; lia).
  assert (H64b : 0 <= (c / 4096) mod 64 < 64) by (apply Z.mod_pos_bound; lia).
  destruct (c <? 2048) eqn:E2.
  { apply Z.ltb_lt in E2.
    assert (0 <= c / 64 < 32) by (split; [apply Z.div_pos | apply Z.div_lt_upper_bound]; lia).
    repeat constructor; apply byte_of_not_upper; lia. }
  destruct (c <? 65536) eqn:E3.
  { apply Z.ltb_lt in E3.
    assert (0 <= c / 4096 < 16) by (split; [apply Z.div_pos | apply Z.div_lt_upper_bound]; lia).
    repeat constructor; apply byte_of_not_upper; lia. }
  destruct (c <? 1114112) eqn:E4.
  { apply Z.ltb_lt in E4.
    assert (0 <= c / 262144 < 16) by (split; [apply Z.div_pos | apply Z.div_lt_upper_bound]; lia).
    repeat constructor; apply byte_of_not_upper; lia. }
  assert (0 <= (c - 1114112) mod 128 < 128) by (apply Z.mod_pos_bound; lia).
  repeat constructor; apply byte_of_not_upper; lia.
Qed.

Lemma lower_delta_row (rows : list (Z * Z * Z * Z)) (c delta : Z) :
  Str.lower_delta rows c = Some delta ->
  exists lo hi stride, In (lo, hi, stride, delta) rows /\ lo <= c.
Proof.
  induction rows as [|[[[lo hi] stride] d] rows IH]; cbn [Str.lower_delta]; [discriminate|].
  destruct (c <? lo) eqn:E; [discriminate|]. apply Z.ltb_ge in E.
  destruct ((c <=? hi) && ((c - lo) mod stride =? 0)).
  - intros H. injection H as ->. exists lo, hi, stride. split; [left; reflexivity | exact E].
  - intros H. destruct (IH H) as (lo' & hi' & st' & Hin & Hle).
    exists lo', hi', st'. split; [right; exact Hin | exact Hle].
Qed.

Lemma lower_rows_above_upper :
  forallb (fun '(lo, _, _, delta) => 90 <? lo + delta) Str.lower_rows = true.
Proof. vm_compute. reflexivity. Qed.

Lemma lower_cp_not_upper (c : Z) : Forall (fun z => z < 65 \/ 90 < z) (Str.lower_cp c).
Proof.
  unfold Str.lower_cp.
  destruct ((65 <=? c) && (c <=? 90)) eqn:E.
  { apply andb_true_iff in E as [E1 E2]. apply Z.leb_le in E1, E2.
    constructor; [lia | constructor]. }
  apply andb_false_iff in E.
  destruct (c <? 128) eqn:E1.
  { constructor; [|constructor]. destruct E as [E | E]; apply Z.leb_gt in E; lia. }
  apply Z.ltb_ge in E1.
  destruct (c =? 304); [constructor; [lia | constructor; [lia | constructor]]|].
  destruct (Str.lower_delta Str.lower_rows c) as [delta|] eqn:Ed;
    [|constructor; [lia | constructor]].
  apply lower_delta_row in Ed as (lo & hi & stride & Hin & Hle).
  pose proof lower_rows_above_upper as Hrows.
  rewrite forallb_forall in Hrows. specialize (Hrows _ Hin). cbn in Hrows.
  apply Z.ltb_lt in Hrows. constructor; [lia | constructor].
Qed.

Lemma lower_cps_not_upper (cps : list Z) :
  forall after_cased, Forall (fun z => z < 65 \/ 90 < z) (Str.lower_cps after_cased cps).
Proof.
  induction cps as [|c cps IH]; intros after_cased; cbn [Str.lower_cps]; [constructor|].
  apply Forall_app. split; [|apply IH].
  destruct (c =? 931); [|apply lower_cp_not_upper].
  destruct (after_cased && negb (Str.cased_follows cps)); (constructor; [lia | constructor]).
Qed.

(** No letter A-Z is left in a lower-cased string. *)
Lemma lower_chars_not_upper (s : string) :
  Forall (fun c => is_upper c = false) (chars (Str.lower s)).
Proof.
  unfold Str.lower, Str.encode. rewrite chars_encode.
  pose proof (lower_cps_not_upper (Str.decode s) false) as H.
  induction H as [|c l Hc _ IH]; cbn [flat_map]; [constructor|].
  apply Forall_app. split; [apply encode_cp_not_upper, Hc | exact IH].
Qed.

Lemma contained_in_lower (u s : string) :
  Str.contains u (Str.lower s) = true ->
  Forall (fun c => is_upper c = false) (chars u).
Proof.
  intros H. apply contains_split in H as (pre & post & H).
  assert (Hall := lower_chars_not_upper s). rewrite H, !chars_append in Hall.
  apply Forall_app in Hall as [_ Hall]. apply Forall_app in Hall as [Hall _]. exact Hall.
Qed.

Lemma contains_one_char (c : ascii) (s : string) :
  Str.contains (String c EmptyString) s = true <-> In c (chars s).
Proof.
  induction s as [|d s IH]; cbn [Str.contains String.prefix chars In].
  - split; [discriminate | intros []].
  - rewrite orb_true_iff, IH. destruct (ascii_dec c d) as [-> | Hne].
    + split; [intros _; left; reflexivity | intros _; left].
      destruct s; reflexivity.
    + split; [intros [H | H]; [discriminate | right; exact H]|].
      intros [H | H]; [congruence | right; exact H].
Qed.

End Substrings.

(** ** Saved accounts *)

Section Accounts.
Import Fleet Notions.

Lemma replace_char_chars (old : ascii) (new s : string) (c : ascii) :
  In c (chars (replace_char old new s)) ->
  (c <> old /\ In c (chars s)) \/ In c (chars new).
Proof.
  induction s as [|d s IH]; cbn [replace_char chars]; [intros []|].
  destruct (Ascii.eqb_spec d old) as [-> | Hne].
  - rewrite chars_append. intros H. apply in_app_or in H as [H | H]; [right; exact H|].
    destruct (IH H) as [[Hc Hin] | Hin]; [left; split; [exact Hc | right; exact Hin] | right; exact Hin].
  - cbn [chars]. intros [<- | H].
    + left. split; [exact Hne | left; reflexivity].
    + destruct (IH H) as [[Hc Hin] | Hin]; [left; split; [exact Hc | right; exact Hin] | right; exact Hin].
Qed.

Lemma safe_email_chars (email : string) (c : ascii) :
  In c (chars (safe_email email)) -> c <> "@"%char /\ c <> "."%char.
Proof.
  unfold safe_email. intros H.
  apply replace_char_chars in H as [[Hdot H] | H].
  - apply replace_char_chars in H as [[Hat _] | H]; [auto|].
    cbn in H. destruct H as [<- | [<- | [<- | [<- | []]]]]; split; discriminate.
  - cbn in H. destruct H as [<- | []]. split; discriminate.
Qed.

Lemma safe_email_dots (email : string) :
  safe_email (replace_char "." "_" email) = safe_email email.
Proof.
  unfold safe_email. induction email as [|c email IH]; [reflexivity|].
  destruct (Ascii.eqb_spec c "."%char) as [-> | Hdot];
    [cbn; rewrite IH; reflexivity|].
  destruct (Ascii.eqb_spec c "@"%char) as [-> | Hat];
    [cbn; rewrite IH; reflexivity|].
  cbn [replace_char].
  destruct (Ascii.eqb_spec c "."%char); [contradiction|].
  cbn [replace_char].
  destruct (Ascii.eqb_spec c "@"%char); [contradiction|].
  cbn [replace_char].
  destruct (Ascii.eqb_spec c "."%char); [contradiction|].
  rewrite IH. reflexivity.
Qed.

Lemma safe_email_ats (email : string) :
  safe_email (replace_char "@" "_at_" email) = safe_email email.
Proof.
  unfold safe_email. induction email as [|c email IH]; [reflexivity|].
  destruct (Ascii.eqb_spec c "@"%char) as [-> | Hat];
    [cbn; rewrite IH; reflexivity|].
  cbn [replace_char].
  destruct (Ascii.eqb_spec c "@"%char); [contradiction|].
  cbn [replace_char].
  destruct (Ascii.eqb_spec c "@"%char); [contradiction|].
  cbn [replace_char].
  destruct (Ascii.eqb c "."); rewrite IH; reflexivity.
Qed.

Lemma replace_first_account_find (e : string) (info : account_info) (l : list account_info) :
  same_email e info = true ->
  existsb (same_email e) l = true ->
  find (same_email e) (replace_first_account e info l) = Some info.
Proof.
  intros Hinfo. induction l as [|a l IH]; cbn [existsb replace_first_account]; [discriminate|].
  destruct (same_email e a) eqn:Ea; cbn [orb find].
  - intros _. rewrite Hinfo. reflexivity.
  - intros H. rewrite Ea. exact (IH H).
Qed.

Lemma replace_first_account_others (e : string) (info : account_info) (l : list account_info) :
  same_email e info = true ->
  List.filter (fun a => negb (same_email e a)) (replace_first_account e info l)
  = List.filter (fun a => negb (same_email e a)) l.
Proof.
  intros Hinfo. induction l as [|a l IH]; [reflexivity|].
  cbn [replace_first_account]. destruct (same_email e a) eqn:Ea; cbn [List.filter].
  - rewrite Hinfo, Ea. reflexivity.
  - rewrite Ea. cbn [negb]. rewrite IH. reflexivity.
Qed.

Lemma replace_first_account_length (e : string) (info : account_info) (l : list account_info) :
  length (replace_first_account e info l) = length l.
Proof.
  induction l as [|a l IH]; [reflexivity|].
  cbn [replace_first_account]. destruct (same_email e a); cbn [length]; congruence.
Qed.

Lemma find_snoc_fresh (e : string) (info : account_info) (l : list account_info) :
  same_email e info = true ->
  existsb (same_email e) l = false ->
  find (same_email e) (l ++ [info]) = Some info.
Proof.
  intros Hinfo. induction l as [|a l IH]; cbn [existsb app find].
  - intros _. rewrite Hinfo. reflexivity.
  - intros H. apply orb_false_iff in H as [Ha Hl]. rewrite Ha. exact (IH Hl).
Qed.

Lemma update_accounts_index_spec (e : string) (info : account_info) (idx : accounts_index) :
  same_email e info = true ->
  let after := get_accounts (update_accounts_index e info idx) in
  find (same_email e) after = Some info
  /\ List.filter (fun a => negb (same_email e a)) after
     = List.filter (fun a => negb (same_email e a)) (get_accounts idx)
  /\ length after
     = if existsb (same_email e) (get_accounts idx)
       then length (get_accounts idx) else S (length (get_accounts idx)).
Proof.
  intros Hinfo. unfold update_accounts_index.
  destruct (existsb (same_email e) (get_accounts idx)) eqn:E; cbn [get_accounts accounts].
  - split; [apply replace_first_account_find; assumption|].
    split; [apply replace_first_account_others; assumption|].
    apply replace_first_account_length.
  - split; [apply find_snoc_fresh; assumption|]. split.
    + rewrite List.filter_app. cbn [List.filter]. rewrite Hinfo. cbn [negb].
      apply app_nil_r.
    + rewrite length_app. cbn. lia.
Qed.

End Accounts.

(** X12. The file name of a saved account holds neither an at sign nor a
    dot before its [.json] suffix, and it does not tell a dot from an
    underscore nor an at sign from [_at_]: two e-mail addresses that
    differ only in these ways are saved to the same file. *)
Theorem X12_account_file_name_collisions (path_join : string -> string -> string)
  (email : string) :
  (forall c, In c (Notions.chars (Fleet.safe_email email)) ->
             c <> "@"%char /\ c <> "."%char)
  /\ Fleet._get_account_filename path_join (Fleet.replace_char "." "_" email)
     = Fleet._get_account_filename path_join email
  /\ Fleet._get_account_filename path_join (Fleet.replace_char "@" "_at_" email)
     = Fleet._get_account_filename path_join email.
Proof.
  split; [intros c; apply safe_email_chars|].
  unfold Fleet._get_account_filename. rewrite safe_email_dots, safe_email_ats. auto.
Qed.

(** X13. When [save_auth_cache] is given an e-mail address, has a browser
    context and the session state can be written, it returns [True] and
    the address becomes the current account, whatever becomes of the
    write of the index. If that write goes through, the index then lists
    the address with the file of that address and the time of the save as
    the first entry of that address; entries of other addresses are as
    before, and the index grows by one exactly when the address was not
    listed. If the write fails, the call still returns [True], and the
    listing is what it was before, or empty when the file was left
    unreadable: the address just saved need not be listed. *)
Theorem X13_saved_account_is_listed (path_join : string -> string -> string)
  (env : Fleet.auth_env) (email : string)
  (index_file : option Fleet.accounts_index) (current : option string) :
  Fleet.has_context env = true ->
  Fleet.storage_state_raises env = false ->
  email <> "" ->
  Fleet.saved_ok (Fleet.save_auth_cache path_join env (Some email) index_file current) = true
  /\ Fleet.current_account_email
       (Fleet.save_auth_cache path_join env (Some email) index_file current) = Some email
  /\ (Fleet.index_write env = BrowserManager.Written ->
      find (Fleet.same_email email)
        (Fleet.list_saved_accounts
           (Fleet.index_after
              (Fleet.save_auth_cache path_join env (Some email) index_file current)))
      = Some {| Fleet.acc_email := Some email;
                Fleet.acc_last_used := Fleet.auth_now env;
                Fleet.acc_file := Fleet._get_account_filename path_join email |}
      /\ List.filter (fun a => negb (Fleet.same_email email a))
           (Fleet.list_saved_accounts
              (Fleet.index_after
                 (Fleet.save_auth_cache path_join env (Some email) index_file current)))
         = List.filter (fun a => negb (Fleet.same_email email a))
             (Fleet.list_saved_accounts index_file)
      /\ length (Fleet.list_saved_accounts
                   (Fleet.index_after
                      (Fleet.save_auth_cache path_join env (Some email) index_file current)))
         = if existsb (Fleet.same_email email) (Fleet.list_saved_accounts index_file)
           then length (Fleet.list_saved_accounts index_file)
           else S (length (Fleet.list_saved_accounts index_file)))
  /\ (Fleet.index_write env = BrowserManager.Refused ->
      Fleet.list_saved_accounts
        (Fleet.index_after
           (Fleet.save_auth_cache path_join env (Some email) index_file current))
      = Fleet.list_saved_accounts index_file)
  /\ (Fleet.index_write env = BrowserManager.Torn ->
      Fleet.list_saved_accounts
        (Fleet.index_after
           (Fleet.save_auth_cache path_join env (Some email) index_file current))
      = []).
Proof.
  intros Hctx Hst Hne. unfold Fleet.save_auth_cache.
  rewrite Hctx, Hst. cbn [negb Fleet.truthy_opt].
  rewrite (truthy_nonempty email Hne). cbn [Fleet.truthy_opt].
  rewrite (truthy_nonempty email Hne).
  cbn [Fleet.saved_ok Fleet.current_account_email Fleet.index_after].
  split; [reflexivity|]. split; [reflexivity|].
  split; [|split]; intros ->; cbn [BrowserManager.file_after]; [|reflexivity..].
  unfold Fleet.list_saved_accounts. cbn [Fleet._load_accounts_index].
  apply update_accounts_index_spec.
  unfold Fleet.same_email. cbn. apply String.eqb_refl.
Qed.

(** ** Tabs on the voting page, recovery of stopped tabs *)

Section Tabs.
Import Fleet Notions.

Lemma tab_on_login_not_on_vote_page (expected u : string) :
  (exists ind, In ind tab_login_indicators
     /\ Str.contains (Str.lower ind) (Str.lower u) = true) ->
  tab_on_vote_page expected u = false.
Proof.
  intros H. unfold tab_on_vote_page.
  rewrite (proj2 (existsb_exists _ _) H). reflexivity.
Qed.

Lemma recover_tab_upper (expected url : string) (t : option task) :
  Exists (fun c => is_upper c = true) (chars expected) ->
  recover_tab expected url t = t.
Proof.
  intros Hup. unfold recover_tab, on_expected_url.
  destruct (Str.contains expected (Str.lower url)) eqn:E; [|reflexivity].
  exfalso. apply contained_in_lower in E.
  apply List.Exists_exists in Hup as (c & Hin & Hc).
  rewrite List.Forall_forall in E. rewrite (E c Hin) in Hc. discriminate.
Qed.

End Tabs.

(** X14. One tab on a login-provider page stops the whole fleet:
    [check_all_tabs_on_vote_page] is then false, and the pass of every
    worker whose own tab is not on a login-provider URL ends at once,
    without classifying its page, counting or leaving the loop. *)
Theorem X14_tab_on_login_stalls_fleet (expected_vote_url : string)
  (urls : list string) (u : string) :
  In u urls ->
  (exists ind, In ind Fleet.tab_login_indicators
     /\ Str.contains (Str.lower ind) (Str.lower u) = true) ->
  Fleet.check_all_tabs_on_vote_page expected_vote_url urls = false
  /\ forall i max_votes env m lv b,
       BrowserManager.bots m !! i = Some b ->
       Bot.has_browser_manager b = true ->
       Notions.on_login_url (VoteLoop.url_on_entry env) = false ->
       VoteLoop.tabs_on_vote_page env
       = Fleet.check_all_tabs_on_vote_page expected_vote_url urls ->
       VoteLoop.run_iteration i max_votes env m lv
       = Some {| VoteLoop.next_manager := m; VoteLoop.next_locals := lv;
                 VoteLoop.next_control := VoteLoop.Continue;
                 VoteLoop.acted_on := None; VoteLoop.counted := false |}.
Proof.
  intros Hin Hlogin.
  assert (Hcheck : Fleet.check_all_tabs_on_vote_page expected_vote_url urls = false).
  { unfold Fleet.check_all_tabs_on_vote_page. destruct urls as [|u0 rest]; [reflexivity|].
    apply not_true_is_false. intros Hall. rewrite forallb_forall in Hall.
    specialize (Hall u Hin).
    rewrite (tab_on_login_not_on_vote_page expected_vote_url u Hlogin) in Hall.
    discriminate. }
  split; [exact Hcheck|].
  intros i max_votes env m lv b Hb Hbm Hown Htabs.
  unfold VoteLoop.run_iteration, VoteLoop.check_page. rewrite Hb, Hbm.
  unfold Notions.on_login_url in Hown. rewrite Hown, Htabs, Hcheck. reflexivity.
Qed.

(** X15. [_recover_stopped_tabs] restarts exactly the loops whose task
    has ended and whose tab shows the expected address, and leaves every
    other task as it is. The expected address is compared as configured
    with the lower-cased address of the tab: if the configured URL holds
    an upper-case letter, no loop is ever restarted. *)
Theorem X15_recovery_restarts_ended_loops (expected_vote_url : string)
  (tabs : list (string * option Fleet.task)) :
  length (Fleet._recover_stopped_tabs true expected_vote_url tabs) = length tabs
  /\ (forall k url t,
        tabs !! k = Some (url, t) ->
        Fleet._recover_stopped_tabs true expected_vote_url tabs !! k
        = Some (if Fleet.on_expected_url expected_vote_url url
                then match t with
                     | Some Fleet.Done => Some Fleet.Running
                     | _ => t
                     end
                else t))
  /\ (Exists (fun c => Notions.is_upper c = true) (Notions.chars expected_vote_url) ->
      forall has_context,
        Fleet._recover_stopped_tabs has_context expected_vote_url tabs = map snd tabs).
Proof.
  split; [|split].
  - unfold Fleet._recover_stopped_tabs. destruct tabs; cbn [negb orb]; apply length_map.
  - intros k url t Hk. unfold Fleet._recover_stopped_tabs.
    destruct tabs as [|tab rest]; [discriminate|]. cbn [negb orb].
    revert k Hk. generalize (tab :: rest). clear tab rest.
    induction l as [|tab rest IH]; intros [|k] Hk; try discriminate.
    + injection Hk as ->. reflexivity.
    + exact (IH k Hk).
  - intros Hup has_context. unfold Fleet._recover_stopped_tabs.
    destruct (negb has_context || match tabs with [] => true | _ => false end);
      [reflexivity|].
    apply map_ext. intros [url t]. apply recover_tab_upper, Hup.
Qed.

(** ** [is_captcha_resolved] against the wait *)

Section CaptchaResolved.
Import CaptchaHandler CaptchaCheck.



End CaptchaResolved.


(** ** Challenge type and grid selection *)

Section Challenge.
Import ImageRecognition.

Lemma any_in_longer_pattern (long short : string) (rest : list string) (t : string) :
  Str.contains short long = true ->
  Str.any_in (long :: short :: rest) t = Str.any_in (short :: rest) t.
Proof.
  intros Hsub. unfold Str.any_in. cbn [existsb].
  destruct (Str.contains long t) eqn:El; [|reflexivity].
  rewrite (contains_trans short long t Hsub El). reflexivity.
Qed.

Lemma select_images_spec {image : Type} (d : detectors image) (images : list image) :
  forall (first i : Z),
  In i (select_images d first images) <->
  exists img, first <= i /\ images !! Z.to_nat (i - first) = Some img
    /\ detect_negative d img = Ok false /\ detect_positive d img = Ok true.
Proof.
  induction images as [|img0 rest IH]; intros first i; cbn [select_images].
  - split; [intros [] | intros (img & _ & H & _); discriminate].
  - assert (Hrest : In i (select_images d (first + 1) rest) <->
              exists img, first + 1 <= i
                /\ (img0 :: rest) !! Z.to_nat (i - first) = Some img
                /\ first <> i
                /\ detect_negative d img = Ok false /\ detect_positive d img = Ok true).
    { rewrite IH. split.
      - intros (img & Hle & Hl & Hn & Hp). exists img. split; [exact Hle|].
        replace (Z.to_nat (i - first)) with (S (Z.to_nat (i - (first + 1)))) by lia.
        split; [exact Hl|]. split; [lia | auto].
      - intros (img & Hle & Hl & _ & Hn & Hp). exists img. split; [exact Hle|].
        replace (Z.to_nat (i - first)) with (S (Z.to_nat (i - (first + 1)))) in Hl by lia.
        auto. }
    assert (Hhere : forall img, first <= i ->
              (img0 :: rest) !! Z.to_nat (i - first) = Some img ->
              first = i -> img = img0).
    { intros img _ Hl <-. rewrite Z.sub_diag in Hl.
      change (Some img0 = Some img) in Hl. congruence. }
    destruct (catch _ false) eqn:E.
    + assert (Hgood : detect_negative d img0 = Ok false /\ detect_positive d img0 = Ok true).
      { destruct (detect_negative d img0) as [[]|]; cbn [rbind catch] in E;
          try discriminate.
        destruct (detect_positive d img0) as [[]|]; cbn [catch] in E; try discriminate.
        auto. }
      cbn [In]. rewrite Hrest. split.
      * intros [<- | (img & Hle & Hl & _ & Hn & Hp)].
        -- exists img0. rewrite Z.sub_diag. split; [lia|]. split; [reflexivity | exact Hgood].
        -- exists img. split; [lia | auto].
      * intros (img & Hle & Hl & Hn & Hp).
        destruct (Z.eq_dec first i) as [Heq | Hne]; [left; exact Heq|].
        right. exists img. split; [lia|]. auto.
    + rewrite Hrest. split.
      * intros (img & Hle & Hl & _ & Hn & Hp). exists img. split; [lia | auto].
      * intros (img & Hle & Hl & Hn & Hp).
        destruct (Z.eq_dec first i) as [Heq | Hne].
        -- rewrite (Hhere img Hle Hl Heq) in Hn, Hp. rewrite Hn, Hp in E. discriminate.
        -- exists img. split; [lia|]. auto.
Qed.

Lemma select_images_sorted {image : Type} (d : detectors image) (images : list image) :
  forall first, StronglySorted Z.lt (select_images d first images).
Proof.
  induction images as [|img0 rest IH]; intros first; cbn [select_images]; [constructor|].
  destruct (catch _ false); [|apply IH].
  constructor; [apply IH|].
  apply List.Forall_forall. intros i Hi.
  apply select_images_spec in Hi as (img & Hle & _). lia.
Qed.

End Challenge.

(** X17. In [detect_challenge_type] the patterns for the mouse challenge
    are tried first, so a text with a pattern of either kind is taken as
    'mouse'; and the longest pattern of each list never decides
    anything, since a shorter pattern of the same list occurs in it. *)
Theorem X17_challenge_type_patterns (page_text : string) :
  (Str.any_in ImageRecognition.mouse_patterns (Str.lower page_text) = true ->
   ImageRecognition.detect_challenge_type page_text = Some "mouse")
  /\ ImageRecognition.detect_challenge_type page_text
     = if Str.any_in [ "itens comumente usados"; "mouse"; "teclado"; "computador" ]
            (Str.lower page_text)
       then Some "mouse"
       else if Str.any_in [ "criaturas que poderiam"; "passarinho"; "pássaro";
                            "ave"; "bird" ] (Str.lower page_text)
            then Some "passarinho"
            else None.
Proof.
  unfold ImageRecognition.detect_challenge_type. split; [intros ->; reflexivity|].
  unfold ImageRecognition.mouse_patterns, ImageRecognition.passarinho_patterns.
  rewrite (any_in_longer_pattern "itens comumente usados com o item mostrado"
             "itens comumente usados") by (vm_compute; reflexivity).
  rewrite (any_in_longer_pattern "criaturas que poderiam se abrigar"
             "criaturas que poderiam") by (vm_compute; reflexivity).
  reflexivity.
Qed.

(** X18. [process_image_grid] answers with the indices, in increasing
    order, of exactly those images of the grid for which the negative
    detector of the challenge says no and the positive detector says yes;
    an image on which a detector raises is left out, and a challenge type
    other than 'mouse' and 'passarinho' selects nothing. *)
Theorem X18_grid_selection {image : Type}
  (mouse passarinho : ImageRecognition.detectors image)
  (images : list image) (challenge_type : string) :
  StronglySorted Z.lt
    (ImageRecognition.process_image_grid mouse passarinho images challenge_type)
  /\ (challenge_type <> "mouse" -> challenge_type <> "passarinho" ->
      ImageRecognition.process_image_grid mouse passarinho images challenge_type = [])
  /\ (forall d,
        (challenge_type = "mouse" /\ d = mouse)
        \/ (challenge_type = "passarinho" /\ d = passarinho) ->
        forall i,
          In i (ImageRecognition.process_image_grid mouse passarinho images challenge_type)
          <-> exists img, 0 <= i /\ images !! Z.to_nat i = Some img
                /\ ImageRecognition.detect_negative d img = Ok false
                /\ ImageRecognition.detect_positive d img = Ok true).
Proof.
  unfold ImageRecognition.process_image_grid.
  split; [|split].
  - destruct (String.eqb challenge_type "mouse"); [apply select_images_sorted|].
    destruct (String.eqb challenge_type "passarinho");
      [apply select_images_sorted | constructor].
  - intros H1 H2.
    destruct (String.eqb_spec challenge_type "mouse"); [contradiction|].
    destruct (String.eqb_spec challenge_type "passarinho"); [contradiction|]. reflexivity.
  - intros d [[-> ->] | [-> ->]] i; cbn [String.eqb Ascii.eqb Bool.eqb];
      rewrite select_images_spec; rewrite Z.sub_0_r; reflexivity.
Qed.

(** ** The further properties at work on concrete inputs *)



Lemma X2_witness :
  exists b', Executor.find_participant_button Examples.alice_page "alice" Raise = Some b'.
Proof.
  apply (X2_button_with_name_in_text_is_found Examples.alice_page "alice" Raise
           (Examples.button "Alice" true true) "Alice").
  - reflexivity.
  - left. reflexivity.
  - reflexivity.
  - reflexivity.
  - vm_compute. reflexivity.
  - reflexivity.
  - reflexivity.
Defined.

Lemma X4_witness :
  exists outs,
    VoteLoop.run_iterations 0 1
      [ FleetExamples.confirmation_env; FleetExamples.confirmation_env ]
      FleetExamples.fresh_manager VoteLoop.initial_locals = Some outs
    /\ Forall (fun o => exists b',
                 BrowserManager.bots (VoteLoop.next_manager o) !! 0%nat = Some b'
                 /\ Bot.vote_count b' <= 1) outs.
Proof.
  eapply (X4_vote_cap_never_exceeded 0 1
            [ FleetExamples.confirmation_env; FleetExamples.confirmation_env ]
            FleetExamples.fresh_manager VoteLoop.initial_locals).
  - lia.
  - vm_compute. reflexivity.
  - unfold FleetSpec.lock_free. vm_compute. discriminate.
  - vm_compute. discriminate.
Defined.

Lemma X5_witness :
  exists o b',
    VoteLoop.run_iteration 0 10 FleetExamples.confirmation_env
      FleetExamples.fresh_manager VoteLoop.initial_locals = Some o
    /\ BrowserManager.bots (VoteLoop.next_manager o) !! 0%nat = Some b'
    /\ BrowserManager.bots (VoteLoop.next_manager o) !! 1%nat
       = BrowserManager.bots FleetExamples.fresh_manager !! 1%nat
    /\ Bot.vote_count b' = 1.
Proof.
  destruct (X5_pass_touches_own_bot_only 0 10 FleetExamples.confirmation_env
              FleetExamples.fresh_manager VoteLoop.initial_locals
              (Bot.new_bot "Alice" 1)
              ltac:(vm_compute; reflexivity)
              ltac:(unfold FleetSpec.lock_free; vm_compute; discriminate))
    as (o & b' & E & Hb & Hothers & _ & Hcount).
  exists o, b'. split; [exact E|]. split; [exact Hb|].
  split; [apply Hothers; discriminate|].
  rewrite Hcount. vm_compute in E. injection E as <-. reflexivity.
Defined.

Lemma X6_witness :
  exists outs o,
    VoteLoop.run_iterations 0 10 (repeat MoreExamples.error_env 7)
      FleetExamples.fresh_manager VoteLoop.initial_locals = Some outs
    /\ last outs = Some o
    /\ VoteLoop.consecutive_errors (VoteLoop.next_locals o) = 2.
Proof.
  destruct (VoteLoop.run_iterations 0 10 (repeat MoreExamples.error_env 7)
              FleetExamples.fresh_manager VoteLoop.initial_locals)
    as [outs|] eqn:E; [|vm_compute in E; discriminate].
  assert (Hlen : length outs = length (repeat MoreExamples.error_env 7)).
  { vm_compute in E. injection E as <-. reflexivity. }
  assert (Hall : Forall (fun o => VoteLoop.acted_on o = Some Bot.STATE_ERROR) outs).
  { vm_compute in E. injection E as <-. repeat constructor. }
  destruct (last outs) as [o|] eqn:L.
  2:{ vm_compute in E. injection E as <-. vm_compute in L. discriminate. }
  exists outs, o. split; [reflexivity|]. split; [exact L|].
  rewrite (X6_error_counter_wraps_at_five 0 10 (repeat MoreExamples.error_env 7)
             FleetExamples.fresh_manager VoteLoop.initial_locals outs o
             E Hlen Hall L ltac:(cbn; lia)).
  reflexivity.
Defined.

Lemma X7_witness :
  exists outs,
    VoteLoop.run_iterations 0 10
      [ FleetExamples.voting_env; FleetExamples.confirmation_env ]
      MoreExamples.lone_bot_manager VoteLoop.initial_locals = Some outs
    /\ length outs = 2%nat
    /\ Forall (fun o => VoteLoop.next_manager o = MoreExamples.lone_bot_manager
                        /\ VoteLoop.acted_on o = None
                        /\ VoteLoop.counted o = false
                        /\ VoteLoop.next_locals o = VoteLoop.initial_locals) outs.
Proof.
  apply (X7_loop_without_manager_is_inert 0 10
           [ FleetExamples.voting_env; FleetExamples.confirmation_env ]
           MoreExamples.lone_bot_manager MoreExamples.lone_bot).
  - reflexivity.
  - reflexivity.
Defined.

Lemma X9_witness :
  (exists m' f,
     BrowserManager._on_vote_completed 1 "2026-02-03 21:00:07"
       FleetExamples.counted_manager = Some m'
     /\ BrowserManager.vote_counter_json m' = Some f
     /\ BrowserManager.cf_total_votes f = Some 1
     /\ BrowserManager.cf_votes_per_tab f = [ 1; 0 ])
  /\ (exists m',
       BrowserManager._on_vote_completed_when BrowserManager.Refused BrowserManager.Written
         1 "2026-02-03 21:00:07" FleetExamples.counted_manager = Some m'
       /\ BrowserManager.total_votes m' = 1
       /\ BrowserManager.vote_counter_json m' = None).
Proof.
  assert (Hfree : FleetSpec.lock_free FleetExamples.counted_manager)
    by (unfold FleetSpec.lock_free; vm_compute; discriminate).
  split.
  - destruct (X9_persisted_counter_is_consistent
                BrowserManager.Written BrowserManager.Written 1 "2026-02-03 21:00:07"
                FleetExamples.counted_manager Hfree)
      as (m' & E & _ & _ & Hwritten & _ & _ & Hplain).
    destruct (Hwritten eq_refl) as (f & Hf & _).
    exists m', f. split; [rewrite Hplain; exact E|]. split; [exact Hf|].
    vm_compute in E. injection E as <-.
    vm_compute in Hf. injection Hf as <-. split; reflexivity.
  - destruct (X9_persisted_counter_is_consistent
                BrowserManager.Refused BrowserManager.Written 1 "2026-02-03 21:00:07"
                FleetExamples.counted_manager Hfree)
      as (m' & E & Hsum & Hbots & _ & Hrefused & _).
    exists m'. split; [exact E|].
    split; [rewrite Hsum; unfold FleetSpec.sum_of_vote_counts; rewrite Hbots; reflexivity|].
    rewrite (Hrefused eq_refl). reflexivity.
Defined.



Lemma X12_witness :
  Fleet._get_account_filename MoreExamples.slash_join "ana_b@example_com"
  = Fleet._get_account_filename MoreExamples.slash_join "ana.b@example.com".
Proof.
  exact (proj1 (proj2 (X12_account_file_name_collisions MoreExamples.slash_join
                         "ana.b@example.com"))).
Defined.

Lemma X13_witness :
  Fleet.saved_ok
    (Fleet.save_auth_cache MoreExamples.slash_join MoreExamples.auth_ready
       (Some "bia@example.com") (Some MoreExamples.one_account) None) = true
  /\ length (Fleet.list_saved_accounts
               (Fleet.index_after
                  (Fleet.save_auth_cache MoreExamples.slash_join MoreExamples.auth_ready
                     (Some "bia@example.com") (Some MoreExamples.one_account) None)))
     = 2%nat
  /\ Fleet.saved_ok
       (Fleet.save_auth_cache MoreExamples.slash_join MoreExamples.auth_index_locked
          (Some "bia@example.com") (Some MoreExamples.one_account) None) = true
  /\ length (Fleet.list_saved_accounts
               (Fleet.index_after
                  (Fleet.save_auth_cache MoreExamples.slash_join
                     MoreExamples.auth_index_locked
                     (Some "bia@example.com") (Some MoreExamples.one_account) None)))
     = 1%nat.
Proof.
  destruct (X13_saved_account_is_listed MoreExamples.slash_join MoreExamples.auth_ready
              "bia@example.com" (Some MoreExamples.one_account) None
              ltac:(reflexivity) ltac:(reflexivity) ltac:(discriminate))
    as (Hok & _ & Hwritten & _).
  destruct (Hwritten eq_refl) as (_ & _ & Hlen).
  destruct (X13_saved_account_is_listed MoreExamples.slash_join
              MoreExamples.auth_index_locked
              "bia@example.com" (Some MoreExamples.one_account) None
              ltac:(reflexivity) ltac:(reflexivity) ltac:(discriminate))
    as (Hok' & _ & _ & Hrefused & _).
  split; [exact Hok|]. split; [rewrite Hlen; reflexivity|].
  split; [exact Hok'|]. rewrite (Hrefused eq_refl). reflexivity.
Defined.

Lemma X14_witness :
  Fleet.check_all_tabs_on_vote_page Examples.vote_url
    [ Examples.vote_url; "https://accounts.google.com/signin" ] = false.
Proof.
  apply (X14_tab_on_login_stalls_fleet Examples.vote_url
           [ Examples.vote_url; "https://accounts.google.com/signin" ]
           "https://accounts.google.com/signin").
  - right. left. reflexivity.
  - exists "accounts.google.com". split; [vm_compute; tauto|vm_compute; reflexivity].
Defined.

Lemma X15_witness :
  Fleet._recover_stopped_tabs true "https://example.com/vote"
    [ ("https://example.com/vote", Some Fleet.Done);
      ("https://accounts.google.com/signin", Some Fleet.Done) ] !! 0%nat
  = Some (Some Fleet.Running).
Proof.
  destruct (X15_recovery_restarts_ended_loops "https://example.com/vote"
              [ ("https://example.com/vote", Some Fleet.Done);
                ("https://accounts.google.com/signin", Some Fleet.Done) ])
    as (_ & Hk & _).
  rewrite (Hk 0%nat "https://example.com/vote" (Some Fleet.Done) eq_refl).
  reflexivity.
Defined.


Lemma X17_witness :
  ImageRecognition.detect_challenge_type "Selecione todas as imagens com um MOUSE"
  = Some "mouse".
Proof.
  apply (proj1 (X17_challenge_type_patterns "Selecione todas as imagens com um MOUSE")).
  vm_compute. reflexivity.
Defined.

Lemma X18_witness :
  ImageRecognition.process_image_grid
    {| ImageRecognition.detect_negative := fun _ : Z => Ok false;
       ImageRecognition.detect_positive := fun n : Z => Ok (Z.even n) |}
    {| ImageRecognition.detect_negative := fun _ : Z => Ok false;
       ImageRecognition.detect_positive := fun n : Z => Ok (Z.odd n) |}
    [ 4; 7; 8 ] "teclado" = [].
Proof.
  apply (proj1 (proj2 (X18_grid_selection
           {| ImageRecognition.detect_negative := fun _ : Z => Ok false;
              ImageRecognition.detect_positive := fun n : Z => Ok (Z.even n) |}
           {| ImageRecognition.detect_negative := fun _ : Z => Ok false;
              ImageRecognition.detect_positive := fun n : Z => Ok (Z.odd n) |}
           [ 4; 7; 8 ] "teclado"))); discriminate.
Defined.
